(** * fmp_scraper: the rate-limited, retrying fetch pipeline

    A shallow embedding of [fmp_scraper/fetcher.py] (rate limiter, request
    executor, endpoint fallback, normalisation) and of the date handling of
    [fmp_scraper/cli.py], followed by the properties of the specification.

    Conventions of the embedding.
    - Python values that travel through the pipeline are JSON values; JSON
      [null] is Python's [None].
    - Wall-clock time is a number of microseconds (the resolution of
      [datetime]) counted from the local midnight that begins 0001-01-01;
      [time.sleep d] advances the clock by [d].  Seconds as floats
      ([total_seconds], [random.uniform]) are kept as exact microsecond
      counts.
    - The outside world (clock, configuration file, HTTP server, random
      generator) is one record threaded through every operation; everything
      observable that the code does (calls of the request executor, sleeps,
      GET requests, recordings in the limiter) is appended to a trace, most
      recent event first. *)

From stdpp Require Import base list strings sorting.
From Stdlib Require Import ZArith Lia Ascii.

Local Open Scope string_scope.
Local Open Scope Z_scope.
Set Warnings "-register-all".

(** ** Python values *)

Inductive json :=
| JNull
| JBool (b : bool)
| JNum (n : Z)
| JStr (s : string)
| JList (items : list json)
| JDict (fields : list (string * json)).

Definition PyNone : json := JNull.

(** [bool(v)]: [None], [False], [0], the empty string, list and dict are
    falsy. *)
Definition truthy (v : json) : bool :=
  match v with
  | JNull => false
  | JBool b => b
  | JNum n => negb (n =? 0)
  | JStr s => negb (String.eqb s "")
  | JList l => match l with [] => false | _ => true end
  | JDict d => match d with [] => false | _ => true end
  end.

Fixpoint dict_get (k : string) (d : list (string * json)) : option json :=
  match d with
  | [] => None
  | (k', v) :: d' => if String.eqb k k' then Some v else dict_get k d'
  end.

Definition dict_has (k : string) (d : list (string * json)) : bool :=
  match dict_get k d with Some _ => true | None => false end.

(** [d[k] = v] on a dict that keeps insertion order. *)
Fixpoint assoc_set {V : Type} (k : string) (v : V) (d : list (string * V))
  : list (string * V) :=
  match d with
  | [] => [(k, v)]
  | (k', v') :: d' =>
      if String.eqb k k' then (k, v) :: d' else (k', v') :: assoc_set k v d'
  end.

Definition dict_set : string -> json -> list (string * json)
                      -> list (string * json) := assoc_set.

(** ** Exceptions and the world *)

Inductive exn :=
| ValueError (msg : string)
| KeyError (key : string)
| TypeError (msg : string)
| OverflowError (msg : string)
| Unsupported (what : string).

Inductive result (A : Type) :=
| Ok (a : A)
| Raise (e : exn).
Arguments Ok {A} a.
Arguments Raise {A} e.

(** What [requests.get] does: it returns a response whose body is JSON
    (status code and parsed body), raises a [RequestException] (connection
    error, timeout), or returns a response whose body is not JSON.  On such
    a body [response.json()] raises, and what it raises depends on the
    installed requests, which setup.py leaves open (2.26 or later): from
    2.27 on requests' own [JSONDecodeError], which is a [RequestException]
    ([as_request_exception = true]); before that the [ValueError] of the
    json module. *)
Inductive http_outcome :=
| Response (status_code : Z) (body : json)
| RequestError
| Undecodable (status_code : Z) (as_request_exception : bool).

Inductive sleep_kind :=
| DailyWait | MinuteWait | Jitter | Backoff429 | BackoffNetwork.

Inductive event :=
| EvSleep (why : sleep_kind) (duration : Z)
| EvCall (endpoint : string) (params : list (string * json))
| EvGet (url : string) (params : list (string * json))
| EvRecord (at_time : Z).

Record RateLimiter := mkRateLimiter {
  requests_per_min : Z;
  requests_per_day : Z;
  daily_request_count : Z;
  minute_request_timestamps : list Z;
  day_start_time : Z
}.

(** The part of the configuration file the fetcher reads. *)
Record Config := mkConfig {
  cfg_api_key : string;
  cfg_rate_limit : option (option Z * option Z)
}.

Record World := mkWorld {
  clock : Z;
  rate_limiter : RateLimiter;
  config : Config;
  responses : list http_outcome;
  rng : list Z;
  trace : list event
}.

Definition M (A : Type) : Type := World -> result A * World.

Definition ret {A} (a : A) : M A := fun w => (Ok a, w).
Definition raise {A} (e : exn) : M A := fun w => (Raise e, w).
Definition bind {A B} (m : M A) (k : A -> M B) : M B :=
  fun w => match m w with
           | (Ok a, w') => k a w'
           | (Raise e, w') => (Raise e, w')
           end.

Notation "'let*' x ':=' m 'in' k" := (bind m (fun x => k))
  (at level 10, x name, m at level 100, k at level 200).
Notation "'let*' ' pat ':=' m 'in' k" :=
  (bind m (fun x => match x with pat => k end))
  (at level 10, pat pattern, m at level 100, k at level 200).
Notation "m ;; k" := (bind m (fun _ => k))
  (at level 100, k at level 200, right associativity).

Definition set_clock (t : Z) (w : World) : World :=
  mkWorld t (rate_limiter w) (config w) (responses w) (rng w) (trace w).
Definition set_limiter (r : RateLimiter) (w : World) : World :=
  mkWorld (clock w) r (config w) (responses w) (rng w) (trace w).
Definition set_responses (l : list http_outcome) (w : World) : World :=
  mkWorld (clock w) (rate_limiter w) (config w) l (rng w) (trace w).
Definition set_rng (l : list Z) (w : World) : World :=
  mkWorld (clock w) (rate_limiter w) (config w) (responses w) l (trace w).
Definition log (e : event) (w : World) : World :=
  mkWorld (clock w) (rate_limiter w) (config w) (responses w) (rng w)
          (e :: trace w).

Definition now : M Z := fun w => (Ok (clock w), w).
Definition get_limiter : M RateLimiter := fun w => (Ok (rate_limiter w), w).
Definition put_limiter (r : RateLimiter) : M unit :=
  fun w => (Ok tt, set_limiter r w).

Definition usec : Z := 1000000.
Definition MINUTE : Z := 60 * usec.
Definition DAY : Z := 86400 * usec.

(** [time.sleep]: a negative duration is a [ValueError]. *)
Definition sleep (why : sleep_kind) (d : Z) : M unit :=
  fun w => if d <? 0
           then (Raise (ValueError "sleep length must be non-negative"), w)
           else (Ok tt, set_clock (clock w + d) (log (EvSleep why d) w)).

(** [random.uniform(a, b)], in microseconds: the next draw of the
    generator, brought into [[a, b]]. *)
Definition uniform (a b : Z) : M Z :=
  fun w => match rng w with
           | [] => (Ok a, w)
           | r :: rs => (Ok (a + r mod (b - a + 1)), set_rng rs w)
           end.

(** ** Constants of fetcher.py *)

Definition API_BASE_URL : string := "https://financialmodelingprep.com/api/v3".
Definition API_V4_BASE_URL : string := "https://financialmodelingprep.com/api/v4".
Definition DEFAULT_REQUESTS_PER_MIN : Z := 5.
Definition DEFAULT_REQUESTS_PER_DAY : Z := 250.
Definition REQUEST_DELAY : Z := 12.
Definition RATE_LIMIT_BACKOFF_FACTOR : Z := 2.
Definition MAX_RETRIES : Z := 3.

(** ** class RateLimiter *)

Module RateLimiter.

(** [RateLimiter.__init__]. *)
Definition init (per_min per_day : Z) : M RateLimiter :=
  let* t := now in
  ret (mkRateLimiter per_min per_day 0 [] t).

(** [timedelta.days]: whole days, rounded towards minus infinity. *)
Definition timedelta_days (d : Z) : Z := d / DAY.

(** The calendar date of an instant, as a day number. *)
Definition date_of (t : Z) : Z := t / DAY.

Definition _reset_if_new_day : M unit :=
  let* t := now in
  let* r := get_limiter in
  if 0 <? timedelta_days (t - day_start_time r)
  then put_limiter (mkRateLimiter (requests_per_min r) (requests_per_day r)
                                  0 (minute_request_timestamps r) t)
  else ret tt.

Definition _clean_old_timestamps : M unit :=
  let* t := now in
  let* r := get_limiter in
  let one_minute_ago := t - MINUTE in
  put_limiter (mkRateLimiter (requests_per_min r) (requests_per_day r)
                 (daily_request_count r)
                 (filter (fun ts => one_minute_ago < ts)
                         (minute_request_timestamps r))
                 (day_start_time r)).

(** [min] of a list of timestamps; Python raises on the empty list. *)
Definition py_min (l : list Z) : M Z :=
  match l with
  | [] => raise (ValueError "min() arg is an empty sequence")
  | x :: xs => ret (foldr Z.min x xs)
  end.

Definition wait_if_needed : M unit :=
  _reset_if_new_day ;;
  _clean_old_timestamps ;;
  let* r := get_limiter in
  if requests_per_day r <=? daily_request_count r then
    let* t := now in
    let tomorrow := date_of t * DAY + DAY in
    let sleep_time := (tomorrow - t) + 10 * usec in
    sleep DailyWait sleep_time ;;
    let* t' := now in
    put_limiter (mkRateLimiter (requests_per_min r) (requests_per_day r)
                               0 [] t')
  else
    (if requests_per_min r <=? Z.of_nat (length (minute_request_timestamps r))
     then
       let* oldest := py_min (minute_request_timestamps r) in
       let* t := now in
       let seconds_since_oldest := t - oldest in
       if seconds_since_oldest <? MINUTE then
         let wait_time := MINUTE - seconds_since_oldest + 1 * usec in
         sleep MinuteWait wait_time ;;
         let* t' := now in
         put_limiter (mkRateLimiter (requests_per_min r) (requests_per_day r)
                        (daily_request_count r) [t'] (day_start_time r))
       else _clean_old_timestamps
     else ret tt) ;;
    let* d := uniform (usec / 10) (usec / 2) in
    sleep Jitter d.

Definition add_request : M unit :=
  let* t := now in
  let* r := get_limiter in
  put_limiter (mkRateLimiter (requests_per_min r) (requests_per_day r)
                 (daily_request_count r + 1)
                 (minute_request_timestamps r ++ [t])
                 (day_start_time r)) ;;
  fun w => (Ok tt, log (EvRecord t) w).

End RateLimiter.

(** ** Request executor *)

(** [configure_rate_limiter()]: the configuration is re-read; the global
    limiter is replaced by a fresh one only when the quotas differ. *)
Definition configure_rate_limiter : M unit :=
  fun w =>
    match cfg_rate_limit (config w) with
    | None => (Ok tt, w)
    | Some (pm, pd) =>
        let per_min := default DEFAULT_REQUESTS_PER_MIN pm in
        let per_day := default DEFAULT_REQUESTS_PER_DAY pd in
        let r := rate_limiter w in
        if negb (per_min =? requests_per_min r)
           || negb (per_day =? requests_per_day r)
        then (let* r' := RateLimiter.init per_min per_day in put_limiter r') w
        else (Ok tt, w)
    end.

(** [get_api_key()] of config.py. *)
Definition get_api_key : M string := fun w => (Ok (cfg_api_key (config w)), w).

(** [requests.get(url, params=params)]: the call is logged and the server
    answers with the next scripted outcome; once the script is used up the
    network is down. *)
Definition requests_get (url : string) (params : list (string * json))
  : M http_outcome :=
  fun w =>
    let w1 := log (EvGet url params) w in
    match responses w1 with
    | [] => (Ok RequestError, w1)
    | o :: os => (Ok o, set_responses os w1)
    end.

(** [response.raise_for_status()] raises [HTTPError] for 4xx and 5xx. *)
Definition is_http_error (status : Z) : bool :=
  (400 <=? status) && (status <? 600).

(** [isinstance(data, dict) and "Error Message" in data]. *)
Definition is_api_error (data : json) : bool :=
  match data with
  | JDict d => dict_has "Error Message" d
  | _ => false
  end.

(** The outcome of one iteration of the [for attempt in range(...)] loop. *)
Inductive step_result :=
| Return (v : json)
| Continue.

Definition backoff (attempt : nat) : Z :=
  REQUEST_DELAY * RATE_LIMIT_BACKOFF_FACTOR ^ Z.of_nat attempt * usec.

(** The body of the [try] after the limiter has given clearance. *)
Definition send_and_classify (url : string) (params : list (string * json))
    (attempt : nat) : M step_result :=
  let* o := requests_get url params in
  match o with
  | RequestError =>
      (* except requests.exceptions.RequestException *)
      sleep BackoffNetwork (backoff attempt) ;;
      ret Continue
  | Response status data =>
      RateLimiter.add_request ;;
      if is_http_error status then
        (* except requests.exceptions.HTTPError *)
        if status =? 429 then
          let* j := uniform (1 * usec) (5 * usec) in
          sleep Backoff429 (backoff attempt + j) ;;
          ret Continue
        else ret (Return PyNone)
      else if is_api_error data then ret (Return PyNone)
      else ret (Return data)
  | Undecodable status as_request_exception =>
      RateLimiter.add_request ;;
      if is_http_error status then
        (* except requests.exceptions.HTTPError: the body is not read *)
        if status =? 429 then
          let* j := uniform (1 * usec) (5 * usec) in
          sleep Backoff429 (backoff attempt + j) ;;
          ret Continue
        else ret (Return PyNone)
      else if as_request_exception then
        (* response.json() raises;
           except requests.exceptions.RequestException *)
        sleep BackoffNetwork (backoff attempt) ;;
        ret Continue
      else raise (ValueError "Expecting value")
  end.

Definition api_attempt (url : string) (params : list (string * json))
    (attempt : nat) : M step_result :=
  RateLimiter.wait_if_needed ;;
  send_and_classify url params attempt.

Fixpoint retry_loop (url : string) (params : list (string * json))
    (attempts : list nat) : M json :=
  match attempts with
  | [] => ret PyNone
  | attempt :: rest =>
      let* r := api_attempt url params attempt in
      match r with
      | Return v => ret v
      | Continue => retry_loop url params rest
      end
  end.

(** [range(n)]. *)
Definition py_range (n : Z) : list nat := seq 0 (Z.to_nat n).

Definition make_api_request (endpoint : string)
    (params : list (string * json)) (api_key : option string)
    (max_retries : Z) (base_url : string) : M json :=
  (fun w => (Ok tt, log (EvCall endpoint params) w)) ;;
  configure_rate_limiter ;;
  let* key := match api_key with
              | None => get_api_key
              | Some k => ret k
              end in
  if String.eqb key "" then ret PyNone
  else
    let params := dict_set "apikey" (JStr key) params in
    let url := (base_url ++ "/" ++ endpoint)%string in
    retry_loop url params (py_range max_retries).

(** ** Strings *)

Definition lower_ascii (c : Ascii.ascii) : Ascii.ascii :=
  let n := Ascii.nat_of_ascii c in
  if (Nat.leb 65 n && Nat.leb n 90)%bool then Ascii.ascii_of_nat (n + 32)%nat else c.

(** [s.lower()] *)
Fixpoint str_lower (s : string) : string :=
  match s with
  | EmptyString => EmptyString
  | String c s' => String (lower_ascii c) (str_lower s')
  end.

(** [sub in s] on strings. *)
Fixpoint str_contains (sub s : string) : bool :=
  String.prefix sub s
  || match s with
     | EmptyString => false
     | String _ s' => str_contains sub s'
     end.

(** [endpoint.format(ticker=ticker)] on a template whose only replacement
    field is [{ticker}]: every occurrence of the field is replaced.  [skip]
    counts the characters of a field still to be passed over. *)
Fixpoint format_from (skip : nat) (template ticker : string) : string :=
  match template with
  | EmptyString => EmptyString
  | String c rest =>
      match skip with
      | S k => format_from k rest ticker
      | O =>
          if String.prefix "{ticker}" template
          then (ticker ++ format_from 7 rest ticker)%string
          else String c (format_from 0 rest ticker)
      end
  end.

Definition format_ticker (template ticker : string) : string :=
  format_from 0 template ticker.

(** [key in data] and [data[key]] for a string key, by the type of [data]. *)
Definition py_contains (key : string) (data : json) : M bool :=
  match data with
  | JDict d => ret (dict_has key d)
  | JList l =>
      ret (existsb (fun x => match x with
                             | JStr s => String.eqb s key
                             | _ => false
                             end) l)
  | JStr s => ret (str_contains key s)
  | _ => raise (TypeError "argument is not iterable")
  end.

Definition py_getitem (key : string) (data : json) : M json :=
  match data with
  | JDict d => match dict_get key d with
               | Some v => ret v
               | None => raise (KeyError key)
               end
  | JList _ => raise (TypeError "list indices must be integers or slices")
  | JStr _ => raise (TypeError "string indices must be integers")
  | _ => raise (TypeError "object is not subscriptable")
  end.

(** ** Calendar dates: the part of [datetime] the program uses *)

Module Date.

Definition is_leap (y : Z) : bool :=
  (y mod 4 =? 0) && (negb (y mod 100 =? 0) || (y mod 400 =? 0)).

Definition days_in_month (y m : Z) : Z :=
  if m =? 2 then (if is_leap y then 29 else 28)
  else if (m =? 4) || (m =? 6) || (m =? 9) || (m =? 11) then 30
  else 31.

Definition days_before_year (y : Z) : Z :=
  let y1 := y - 1 in y1 * 365 + y1 / 4 - y1 / 100 + y1 / 400.

Definition days_before_month (y m : Z) : Z :=
  nth (Z.to_nat m) [0; 0; 31; 59; 90; 120; 151; 181; 212; 243; 273; 304; 334] 0
  + (if (2 <? m) && is_leap y then 1 else 0).

(** [date.toordinal]: 0001-01-01 is day 1. *)
Definition ymd2ord (y m d : Z) : Z :=
  days_before_year y + days_before_month y m + d.

Definition DI400Y : Z := 146097.
Definition DI100Y : Z := 36524.
Definition DI4Y : Z := 1461.

(** [date.fromordinal], as CPython computes it. *)
Definition ord2ymd (n : Z) : Z * Z * Z :=
  let n := n - 1 in
  let n400 := n / DI400Y in
  let n := n mod DI400Y in
  let year := n400 * 400 + 1 in
  let n100 := n / DI100Y in
  let n := n mod DI100Y in
  let n4 := n / DI4Y in
  let n := n mod DI4Y in
  let n1 := n / 365 in
  let n := n mod 365 in
  let year := year + n100 * 100 + n4 * 4 + n1 in
  if (n1 =? 4) || (n100 =? 4) then (year - 1, 12, 31)
  else
    let leapyear := (n1 =? 3) && (negb (n4 =? 24) || (n100 =? 3)) in
    let month := Z.shiftr (n + 50) 5 in
    let preceding :=
      nth (Z.to_nat month)
          [0; 0; 31; 59; 90; 120; 151; 181; 212; 243; 273; 304; 334] 0
      + (if (2 <? month) && leapyear then 1 else 0) in
    if n <? preceding then
      let month := month - 1 in
      let dim := if (month =? 2) && leapyear then 29
                 else nth (Z.to_nat month)
                          [0; 31; 28; 31; 30; 31; 30; 31; 31; 30; 31; 30; 31] 0 in
      let preceding := preceding - dim in
      (year, month, n - preceding + 1)
    else (year, month, n - preceding + 1).

Definition digit_of (c : Ascii.ascii) : option Z :=
  let n := Ascii.nat_of_ascii c in
  if (Nat.leb 48 n && Nat.leb n 57)%bool then Some (Z.of_nat (n - 48)) else None.

Fixpoint digits_from (acc : Z) (s : string) : option Z :=
  match s with
  | EmptyString => Some acc
  | String c s' =>
      match digit_of c with
      | Some d => digits_from (acc * 10 + d) s'
      | None => None
      end
  end.

(** A non-empty run of decimal digits. *)
Definition parse_digits (s : string) : option Z :=
  match s with
  | EmptyString => None
  | _ => digits_from 0 s
  end.

Fixpoint split_at (sep : Ascii.ascii) (cur : string) (s : string)
  : list string :=
  match s with
  | EmptyString => [cur]
  | String c s' =>
      if Ascii.eqb c sep then cur :: split_at sep EmptyString s'
      else split_at sep (cur ++ String c EmptyString)%string s'
  end.

Definition split (sep : Ascii.ascii) (s : string) : list string :=
  split_at sep EmptyString s.

Definition valid_ymd (y m d : Z) : bool :=
  (1 <=? y) && (y <=? 9999) && (1 <=? m) && (m <=? 12)
  && (1 <=? d) && (d <=? days_in_month y m).

(** The day of [%d]: one or two digits, or a space and one digit that is
    not 0. *)
Definition parse_day (s : string) : option Z :=
  match s with
  | String " "%char (String c EmptyString) =>
      match digit_of c with
      | Some d => if 1 <=? d then Some d else None
      | None => None
      end
  | _ => parse_digits s
  end.

(** [datetime.strptime(s, "%Y-%m-%d")] as a day number: a four-digit year,
    a month of one or two digits, a day as [%d] reads it, and a date that
    exists.  [None] is the [ValueError] of a string that does not match.
    Strings are taken as bytes: the decimal digits of other scripts, which
    Python reads as digits, are outside the embedding. *)
Definition strptime (s : string) : option Z :=
  match split "-"%char s with
  | [ys; ms; ds] =>
      match parse_digits ys, parse_digits ms, parse_day ds with
      | Some y, Some m, Some d =>
          if (Nat.eqb (String.length ys) 4
              && Nat.leb (String.length ms) 2
              && Nat.leb (String.length ds) 2)%bool
             && valid_ymd y m d
          then Some (ymd2ord y m d)
          else None
      | _, _, _ => None
      end
  | _ => None
  end.

Definition digit_char (d : Z) : string :=
  String (Ascii.ascii_of_nat (48 + Z.to_nat d)) EmptyString.

Definition pad2 (n : Z) : string :=
  (digit_char (n / 10 mod 10) ++ digit_char (n mod 10))%string.

Definition pad4 (n : Z) : string :=
  (pad2 (n / 100) ++ pad2 n)%string.

(** [d.strftime("%Y-%m-%d")] of the date with day number [n], for the
    years from 1000 on, which have four digits. *)
Definition strftime (n : Z) : string :=
  let '(y, m, d) := ord2ymd n in
  (pad4 y ++ "-" ++ pad2 m ++ "-" ++ pad2 d)%string.

(** The time of day [HH:MM:SS] in microseconds. *)
Definition parse_time (s : string) : option Z :=
  match split ":"%char s with
  | [hs; ms; ss] =>
      match parse_digits hs, parse_digits ms, parse_digits ss with
      | Some h, Some m, Some sec =>
          if (h <? 24) && (m <? 60) && (sec <? 60)
          then Some (((h * 60 + m) * 60 + sec) * usec)
          else None
      | _, _, _ => None
      end
  | _ => None
  end.

(** The instants the API sends: [YYYY-MM-DD] and [YYYY-MM-DD HH:MM:SS], in
    microseconds since 0001-01-01. *)
Definition parse_timestamp (s : string) : option Z :=
  match split " "%char s with
  | [d] => (fun n => (n - 1) * DAY) <$> strptime d
  | [d; t] =>
      match strptime d, parse_time t with
      | Some n, Some u => Some ((n - 1) * DAY + u)
      | _, _ => None
      end
  | _ => None
  end.

End Date.

(** ** Tables: the part of pandas the program uses

    A frame is built from a JSON array of objects, one row per object.  The
    constructor and [to_datetime] accept more shapes than that in pandas;
    what lies outside the shapes named here is reported as [Unsupported],
    which is not an exception of the program but the border of this
    embedding. *)

Module Pandas.

Inductive cell :=
| Val (v : json)
| Timestamp (t : Z)
| NaT
| NaN.

Definition record : Type := list (string * cell).

(** Rows carry their index label in front of their cells. *)
Record DataFrame := mkDataFrame {
  index_name : option string;
  columns : list string;
  rows : list (cell * record)
}.

Definition mem (k : string) (l : list string) : bool :=
  existsb (String.eqb k) l.

Fixpoint get_cell (col : string) (r : record) : cell :=
  match r with
  | [] => NaN
  | (k, c) :: r' => if String.eqb col k then c else get_cell col r'
  end.

Fixpoint set_cell (col : string) (c : cell) (r : record) : record :=
  match r with
  | [] => [(col, c)]
  | (k, c') :: r' =>
      if String.eqb col k then (k, c) :: r' else (k, c') :: set_cell col c r'
  end.

Definition del_cell (col : string) (r : record) : record :=
  List.filter (fun kc => negb (String.eqb col (fst kc))) r.

Definition add_columns (cols : list string) (keys : list string)
  : list string :=
  fold_left (fun acc k => if mem k acc then acc else (acc ++ [k])%list) keys cols.

Definition as_object (v : json) : option (list (string * json)) :=
  match v with JDict d => Some d | _ => None end.

Definition all_objects (items : list json)
  : option (list (list (string * json))) :=
  mapM as_object items.

Fixpoint number_from (i : Z) (objs : list (list (string * json)))
  : list (cell * record) :=
  match objs with
  | [] => []
  | o :: objs' =>
      (Val (JNum i), map (fun kv => (fst kv, Val (snd kv))) o)
      :: number_from (i + 1) objs'
  end.

(** The columns of a frame of objects: their keys, in the order in which
    they first occur. *)
Definition columns_of (objs : list (list (string * json))) : list string :=
  fold_left (fun acc o => add_columns acc (map fst o)) objs [].

(** A column of integers stays a column of integers; with a cell that is
    missing or [null] it becomes a column of floats, which hold the
    integers up to 2^53 exactly.  A larger integer in such a column would
    be rounded. *)
Definition rounds (objs : list (list (string * json))) (col : string)
  : bool :=
  existsb (fun o => match dict_get col o with
                    | None | Some JNull => true
                    | _ => false
                    end) objs
  && existsb (fun o => match dict_get col o with
                       | Some (JNum n) => 2 ^ 53 <? Z.abs n
                       | _ => false
                       end) objs.

(** [pd.DataFrame(data)]; a frame in which an integer would be rounded is
    outside the embedding. *)
Definition DataFrame_of (data : json) : M DataFrame :=
  match data with
  | JNull => ret (mkDataFrame None [] [])
  | JList items =>
      match all_objects items with
      | Some objs =>
          if existsb (rounds objs) (columns_of objs)
          then raise (Unsupported "DataFrame that rounds an integer")
          else ret (mkDataFrame None (columns_of objs) (number_from 0 objs))
      | None => raise (Unsupported "DataFrame of a list that holds non-objects")
      end
  | _ => raise (Unsupported "DataFrame of a scalar or of a mapping")
  end.

(** [df.empty] *)
Definition empty (df : DataFrame) : bool :=
  match columns df, rows df with
  | [], _ | _, [] => true
  | _, _ => false
  end.

(** [len(df)] *)
Definition len (df : DataFrame) : nat := length (rows df).

(** [df[col]] *)
Definition getitem (df : DataFrame) (col : string) : M (list cell) :=
  if mem col (columns df)
  then ret (map (fun r => get_cell col (snd r)) (rows df))
  else raise (KeyError col).

Fixpoint assign (col : string) (rs : list (cell * record)) (vals : list cell)
  : list (cell * record) :=
  match rs, vals with
  | (i, r) :: rs', v :: vals' => (i, set_cell col v r) :: assign col rs' vals'
  | _, _ => rs
  end.

(** [df[col] = values], one value per row. *)
Definition setitem (df : DataFrame) (col : string) (vals : list cell)
  : DataFrame :=
  mkDataFrame (index_name df)
              (if mem col (columns df) then columns df else (columns df ++ [col])%list)
              (assign col (rows df) vals).

(** [df[col] = scalar] *)
Definition setitem_scalar (df : DataFrame) (col : string) (v : cell)
  : DataFrame :=
  setitem df col (map (fun _ => v) (rows df)).

Definition to_datetime_cell (c : cell) : M cell :=
  match c with
  | Val (JStr s) =>
      match Date.parse_timestamp s with
      | Some t => ret (Timestamp t)
      | None => raise (Unsupported "to_datetime of another date format")
      end
  | Val JNull | NaN | NaT => ret NaT
  | Timestamp t => ret (Timestamp t)
  | Val _ => raise (Unsupported "to_datetime of a number or a container")
  end.

Fixpoint mapM_cells (f : cell -> M cell) (cs : list cell) : M (list cell) :=
  match cs with
  | [] => ret []
  | c :: cs' =>
      let* c1 := f c in
      let* cs1 := mapM_cells f cs' in
      ret (c1 :: cs1)
  end.

(** Whether a string cell is written with a time of day. *)
Definition has_time (c : cell) : option bool :=
  match c with
  | Val (JStr s) =>
      Some (match Date.split " "%char s with [_] => false | _ => true end)
  | _ => None
  end.

(** A column that holds dates and instants side by side. *)
Definition mixed_formats (cs : list cell) : bool :=
  existsb (fun c => match has_time c with Some true => true | _ => false end)
          cs
  && existsb (fun c => match has_time c with Some false => true | _ => false end)
             cs.

(** [pd.to_datetime(series)].  pandas 1 parses every string on its own;
    pandas 2 takes the format of the first string for the whole column and
    raises on a string of another format.  setup.py admits both, so a
    column of mixed formats is outside the embedding. *)
Definition to_datetime (cs : list cell) : M (list cell) :=
  if mixed_formats cs
  then raise (Unsupported "to_datetime of mixed formats")
  else mapM_cells to_datetime_cell cs.

(** [df.set_index(col, inplace=True)] *)
Definition set_index (df : DataFrame) (col : string) : M DataFrame :=
  if mem col (columns df)
  then ret (mkDataFrame (Some col)
              (List.filter (fun k => negb (String.eqb col k)) (columns df))
              (map (fun r => (get_cell col (snd r), del_cell col (snd r)))
                   (rows df)))
  else raise (KeyError col).

(** The order of index labels under [sort_index]: instants ascending,
    missing labels last. *)
Definition label_leb (a b : cell) : bool :=
  match a, b with
  | Timestamp x, Timestamp y => x <=? y
  | Timestamp _, _ => true
  | _, Timestamp _ => false
  | _, _ => true
  end.

Definition index_le (a b : cell * record) : Prop :=
  Is_true (label_leb (fst a) (fst b)).

(** pandas does not say in which order [sort_index] leaves rows with equal
    labels (its default sort is not stable on longer tables).  Here they
    keep the order they had; the properties below state the rows of a
    sorted table up to a permutation only. *)
Fixpoint insert_row (x : cell * record) (l : list (cell * record))
  : list (cell * record) :=
  match l with
  | [] => [x]
  | y :: l' =>
      if label_leb (fst y) (fst x) then y :: insert_row x l' else x :: y :: l'
  end.

Definition sort_rows (l : list (cell * record)) : list (cell * record) :=
  fold_left (fun acc x => insert_row x acc) l [].

(** [df.sort_index(inplace=True)] *)
Definition sort_index (df : DataFrame) : DataFrame :=
  mkDataFrame (index_name df) (columns df) (sort_rows (rows df)).

Definition rename_key (mapping : list (string * string)) (k : string)
  : string :=
  match find (fun p => String.eqb k (fst p)) mapping with
  | Some p => snd p
  | None => k
  end.

(** [df.rename(columns=mapping, inplace=True)] *)
Definition rename (df : DataFrame) (mapping : list (string * string))
  : DataFrame :=
  mkDataFrame (index_name df)
              (map (rename_key mapping) (columns df))
              (map (fun r => (fst r,
                              map (fun kc => (rename_key mapping (fst kc), snd kc))
                                  (snd r)))
                   (rows df)).

(** [df[[col]].copy()] followed by [.columns = [new_name]]. *)
Definition select_as (df : DataFrame) (col new_name : string) : DataFrame :=
  mkDataFrame (index_name df) [new_name]
              (map (fun r => (fst r, [(new_name, get_cell col (snd r))]))
                   (rows df)).

(** The index labels, top to bottom. *)
Definition index (df : DataFrame) : list cell := map fst (rows df).

(** No index label occurs on two rows. *)
Definition one_row_per_label (df : DataFrame) : Prop := NoDup (index df).

End Pandas.

(** ** Fetchers *)

Import Pandas.

(** Truth value of an [Optional[str]] argument. *)
Definition given (o : option string) : bool :=
  match o with
  | Some s => negb (String.eqb s "")
  | None => false
  end.

Definition str_of (o : option string) : json :=
  match o with Some s => JStr s | None => PyNone end.

(** [make_api_request] with the default [max_retries] and [base_url]. *)
Definition request (endpoint : string) (params : list (string * json))
    (api_key : option string) : M json :=
  make_api_request endpoint params api_key MAX_RETRIES API_BASE_URL.

Definition OHLCV_NAMES : list (string * string) :=
  [("open", "Open"); ("high", "High"); ("low", "Low"); ("close", "Close");
   ("volume", "Volume"); ("adjClose", "Adj Close")].

Definition INTRADAY_NAMES : list (string * string) :=
  [("open", "Open"); ("high", "High"); ("low", "Low"); ("close", "Close");
   ("volume", "Volume")].

(** [not data or "historical" not in data] *)
Definition lacks_historical (data : json) : M bool :=
  if negb (truthy data) then ret true
  else let* has := py_contains "historical" data in ret (negb has).

(** Lines 241-264 of [fetch_historical_price]: the table of a price
    history. *)
Definition price_table (historical : json) : M DataFrame :=
  let* df := DataFrame_of historical in
  let* dates := getitem df "date" in
  let* stamps := to_datetime dates in
  let df := setitem df "date" stamps in
  let* df := set_index df "date" in
  let df := sort_index df in
  ret (rename df OHLCV_NAMES).

(** Lines 220-229 of [fetch_historical_price]: endpoint and parameters. *)
Definition price_query (ticker : string) (from_date to_date : option string)
  : string * list (string * json) :=
  let params := [("serietype", JStr "line")] in
  if given from_date && given to_date
  then ("historical-price-full",
        dict_set "to" (str_of to_date)
                 (dict_set "from" (str_of from_date) params))
  else (("historical-price-full/" ++ ticker)%string, params).

Definition fetch_historical_price (ticker : string)
    (from_date to_date api_key : option string) : M (option DataFrame) :=
  let '(endpoint, params) := price_query ticker from_date to_date in
  let* data := request endpoint params api_key in
  let* missing := lacks_historical data in
  if missing then ret None
  else
    let* historical := py_getitem "historical" data in
    let* df := price_table historical in
    ret (Some df).

Definition VALID_INTERVALS : list string :=
  ["1min"; "5min"; "15min"; "30min"; "1hour"; "4hour"].

Definition fetch_intraday_prices (ticker interval : string)
    (from_date to_date : option string) (extended : bool)
    (api_key : option string) : M (option DataFrame) :=
  if negb (given from_date) || negb (given to_date) then ret None
  else if negb (mem interval VALID_INTERVALS) then ret None
  else
    let params := [("from", str_of from_date); ("to", str_of to_date);
                   ("extended", JStr (if extended then "true" else "false"))] in
    let* data :=
      request ("historical-chart/" ++ interval ++ "/" ++ ticker)%string
              params api_key in
    if negb (truthy data) then ret None
    else
      let* df := DataFrame_of data in
      if empty df then ret None
      else
        let* dates := getitem df "date" in
        let* stamps := to_datetime dates in
        let df := setitem df "date" stamps in
        let* df := set_index df "date" in
        let df := sort_index df in
        ret (Some (rename df INTRADAY_NAMES)).

Definition convert_column (df : DataFrame) (col : string) : M DataFrame :=
  let* cs := getitem df col in
  let* stamps := to_datetime cs in
  ret (setitem df col stamps).

Definition fetch_historical_dividends (ticker : string)
    (api_key : option string) : M (option DataFrame) :=
  let* data := request "historical-price-full/stock_dividend"
                       [("symbol", JStr ticker)] api_key in
  let* missing := lacks_historical data in
  if missing then ret None
  else
    let* historical := py_getitem "historical" data in
    let* df := DataFrame_of historical in
    if empty df then ret None
    else
      let* df := convert_column df "date" in
      let* df := convert_column df "paymentDate" in
      let* df := convert_column df "recordDate" in
      let* df := convert_column df "declarationDate" in
      let* df := set_index df "date" in
      ret (Some (sort_index df)).

(** Lines 420-428 of [fetch_company_profile]. *)
Definition profile_table (data : json) : M (option DataFrame) :=
  let* df := DataFrame_of data in
  if empty df then ret None else ret (Some df).

(** The endpoint of the first request of [fetch_company_profile] is the
    plain string literal of the source. *)
Definition PROFILE_ENDPOINT : string := "profile/{ticker}".

Definition fetch_company_profile (ticker : string) (api_key : option string)
  : M (option DataFrame) :=
  let* data := request PROFILE_ENDPOINT [] api_key in
  let* data :=
    if negb (truthy data)
    then request "profile" [("symbol", JStr ticker)] api_key
    else ret data in
  if negb (truthy data) then ret None
  else profile_table data.

Definition fetch_crypto_price (symbol : string) (api_key : option string)
  : M (option DataFrame) :=
  let* data := request ("historical-price-full/" ++ symbol)%string [] api_key in
  let* missing := lacks_historical data in
  if missing then ret None
  else
    let* historical := py_getitem "historical" data in
    let* df := price_table historical in
    ret (Some df).

Fixpoint convert_columns (df : DataFrame) (cols : list string) : M DataFrame :=
  match cols with
  | [] => ret df
  | c :: cols' =>
      let* df := convert_column df c in
      convert_columns df cols'
  end.

(** The normalisation shared, line for line, by the three statement
    fetchers. *)
Definition statement_table (ticker : string) (data : json)
  : M (option DataFrame) :=
  let* df := DataFrame_of data in
  if empty df then ret None
  else
    let date_cols :=
      List.filter (fun c => str_contains "date" (str_lower c)) (columns df) in
    let* df := convert_columns df date_cols in
    let df := setitem_scalar df "symbol" (Val (JStr ticker)) in
    if mem "date" (columns df) then
      let* df := set_index df "date" in
      ret (Some (sort_index df))
    else ret (Some df).

(** The first request of a statement fetcher. *)
Definition statement_primary (name ticker period : string) (limit : Z)
  : string * list (string * json) :=
  let '(endpoint, params) :=
    if String.eqb (str_lower period) "annual"
    then ((name ++ "/{ticker}")%string, [("limit", JNum limit)])
    else if String.eqb (str_lower period) "quarter"
    then ((name ++ "/{ticker}")%string,
          [("period", JStr "quarter"); ("limit", JNum limit)])
    else (name, [("symbol", JStr ticker); ("limit", JNum limit)]) in
  (if str_contains "{ticker}" endpoint
   then format_ticker endpoint ticker else endpoint,
   params).

(** The alternative request of a statement fetcher. *)
Definition statement_secondary (name ticker period : string) (limit : Z)
  : string * list (string * json) :=
  let params := [("symbol", JStr ticker); ("limit", JNum limit)] in
  (name,
   if String.eqb (str_lower period) "quarter"
   then dict_set "period" (JStr "quarter") params
   else params).

(** [fetch_income_statement], [fetch_balance_sheet] and [fetch_cash_flow]
    are the same text up to the name of the endpoint. *)
Definition fetch_statement (name ticker period : string) (limit : Z)
    (api_key : option string) : M (option DataFrame) :=
  let* data := request (fst (statement_primary name ticker period limit))
                       (snd (statement_primary name ticker period limit))
                       api_key in
  let* data :=
    if negb (truthy data)
    then request (fst (statement_secondary name ticker period limit))
                 (snd (statement_secondary name ticker period limit))
                 api_key
    else ret data in
  if negb (truthy data) then ret None
  else statement_table ticker data.

Definition fetch_income_statement := fetch_statement "income-statement".
Definition fetch_balance_sheet := fetch_statement "balance-sheet-statement".
Definition fetch_cash_flow := fetch_statement "cash-flow-statement".

(** [if data is not None: result[label] = data] *)
Definition store (label : string) (o : option DataFrame)
    (result : list (string * DataFrame)) : list (string * DataFrame) :=
  match o with
  | Some df => assoc_set label df result
  | None => result
  end.

Definition fetch_ticker_data (ticker : string) (api_key : option string)
    (period : string) (years : Z) (include_intraday include_dividends : bool)
    (from_date to_date : option string) : M (list (string * DataFrame)) :=
  let result := [] in
  let* price_data := fetch_historical_price ticker from_date to_date api_key in
  let result := store "ohlcv" price_data result in
  let* result :=
    if include_intraday && given from_date && given to_date then
      let* intraday_data :=
        fetch_intraday_prices ticker "1hour" from_date to_date false api_key in
      ret (store "intraday" intraday_data result)
    else ret result in
  let* result :=
    if include_dividends then
      let* dividend_data := fetch_historical_dividends ticker api_key in
      ret (store "dividends" dividend_data result)
    else ret result in
  let* profile_data := fetch_company_profile ticker api_key in
  let result := store "profile" profile_data result in
  let* income_data := fetch_income_statement ticker period years api_key in
  let result := store "income_stmt" income_data result in
  let* balance_data := fetch_balance_sheet ticker period years api_key in
  let result := store "balance_sheet" balance_data result in
  let* cash_flow_data := fetch_cash_flow ticker period years api_key in
  let result := store "cash_flow" cash_flow_data result in
  match income_data with
  | Some income =>
      if mem "netIncome" (columns income)
      then ret (assoc_set "earnings"
                  (select_as income "netIncome" "Net Income") result)
      else ret result
  | None => ret result
  end.

(** The loop of [fetch_data_for_tickers]: an exception while one ticker is
    fetched is logged and the loop goes on; a ticker without any table is
    left out. *)
Fixpoint fetch_each (tickers : list string) (api_key : option string)
    (period : string) (years : Z) (include_intraday include_dividends : bool)
    (from_date to_date : option string)
    (result : list (string * list (string * DataFrame)))
  : M (list (string * list (string * DataFrame))) :=
  match tickers with
  | [] => ret result
  | ticker :: rest =>
      fun w =>
        let '(r, w1) := fetch_ticker_data ticker api_key period years
                          include_intraday include_dividends
                          from_date to_date w in
        let result := match r with
                      | Ok ((_ :: _) as ticker_data) =>
                          assoc_set ticker ticker_data result
                      | _ => result
                      end in
        fetch_each rest api_key period years include_intraday
                   include_dividends from_date to_date result w1
  end.

Definition fetch_data_for_tickers (tickers : list string)
    (api_key : option string) (period : string) (years : Z)
    (include_intraday include_dividends : bool)
    (from_date to_date : option string)
  : M (list (string * list (string * DataFrame))) :=
  fetch_each tickers api_key period years include_intraday include_dividends
             from_date to_date [].

(** ** The date range of [handle_fetch] (cli.py) *)

Module Cli.

(** [d - timedelta(days=k)] on day numbers. *)
Definition minus_days (d k : Z) : M Z :=
  if d - k <? 1 then raise (OverflowError "date value out of range")
  else ret (d - k).

(** [d.strftime("%Y-%m-%d")].  For a year before 1000 the C library
    decides whether [%Y] is padded with zeros, so those dates are outside
    the embedding. *)
Definition strftime (n : Z) : M string :=
  if n <? Date.ymd2ord 1000 1 1
  then raise (Unsupported "strftime of a year before 1000")
  else ret (Date.strftime n).

(** [datetime.now().strftime("%Y-%m-%d")] *)
Definition today : M string :=
  let* t := now in strftime (t / DAY + 1).

(** Lines 253-299 of [handle_fetch]: the date range that is handed to the
    fetchers, or [None] where the command returns 1. *)
Definition date_range (arg_from arg_to : option string)
    (include_intraday : bool) : M (option (option string * option string)) :=
  let bad o := given o && match o ≫= Date.strptime with
                         | Some _ => false
                         | None => true
                         end in
  if bad arg_from then ret None
  else if bad arg_to then ret None
  else
    let from_date := if given arg_from then arg_from else None in
    let to_date := if given arg_to then arg_to else None in
    let* '(from_date, to_date) :=
      if given from_date && negb (given to_date) then
        let* t := today in ret (from_date, Some t)
      else if given to_date && negb (given from_date) then
        match to_date ≫= Date.strptime with
        | Some t =>
            let* f := minus_days t 365 in
            let* s := strftime f in
            ret (Some s, to_date)
        | None => ret (from_date, to_date)
        end
      else ret (from_date, to_date) in
    if include_intraday && (negb (given from_date) || negb (given to_date))
    then ret None
    else if include_intraday && given from_date && given to_date then
      match from_date ≫= Date.strptime, to_date ≫= Date.strptime with
      | Some from_date_obj, Some to_date_obj =>
          let date_diff := to_date_obj - from_date_obj in
          if 7 <? date_diff then
            let* f := minus_days to_date_obj 7 in
            let* s := strftime f in
            ret (Some (Some s, to_date))
          else ret (Some (from_date, to_date))
      | _, _ => raise (ValueError "time data does not match format")
      end
    else ret (Some (from_date, to_date)).

End Cli.

(** ** Reading a trace *)

Definition is_get (e : event) : bool :=
  match e with EvGet _ _ => true | _ => false end.
Definition is_record (e : event) : bool :=
  match e with EvRecord _ => true | _ => false end.
Definition is_backoff (e : event) : bool :=
  match e with
  | EvSleep Backoff429 _ | EvSleep BackoffNetwork _ => true
  | _ => false
  end.
Definition is_call (e : event) : bool :=
  match e with EvCall _ _ => true | _ => false end.

(** The sleeps of the limiter itself. *)
Definition is_limiter_sleep (e : event) : bool :=
  match e with
  | EvSleep DailyWait _ | EvSleep MinuteWait _ | EvSleep Jitter _ => true
  | _ => false
  end.

(** The calls of [make_api_request], latest call first. *)
Fixpoint calls_rev (t : list event) : list (string * list (string * json)) :=
  match t with
  | [] => []
  | EvCall endpoint params :: t' => (endpoint, params) :: calls_rev t'
  | _ :: t' => calls_rev t'
  end.

(** The calls of [make_api_request], first call first. *)
Definition calls (t : list event) : list (string * list (string * json)) :=
  rev (calls_rev t).

(** What the request executor and the fetchers did, the pacing of the
    limiter left out. *)
Definition visible (t : list event) : list event :=
  List.filter (fun e => negb (is_limiter_sleep e)) t.

(** The number of events of a kind in a trace. *)
Definition count (p : event -> bool) (t : list event) : nat :=
  length (List.filter p t).

(** A reference world: noon of 2024-03-01, a fresh limiter with the default
    quotas, a key in the configuration, the given script of HTTP outcomes. *)
Definition noon0 : Z := (Date.ymd2ord 2024 3 1 - 1) * DAY + 12 * 3600 * usec.

Definition world0 (script : list http_outcome) : World :=
  mkWorld noon0
          (mkRateLimiter DEFAULT_REQUESTS_PER_MIN DEFAULT_REQUESTS_PER_DAY
                         0 [] noon0)
          (mkConfig "demo" (Some (Some 5, Some 250)))
          script [] [].

(** ** Vocabulary of the properties *)

(** What one attempt leaves behind, by the outcome of the HTTP call. *)
Definition attempt_events (url : string) (params : list (string * json))
    (o : http_outcome) (t d : Z) : list event :=
  match o with
  | RequestError => [EvSleep BackoffNetwork d; EvGet url params]
  | Response status _ =>
      if is_http_error status && (status =? 429)
      then [EvSleep Backoff429 d; EvRecord t; EvGet url params]
      else [EvRecord t; EvGet url params]
  | Undecodable status as_request_exception =>
      if is_http_error status then
        if status =? 429
        then [EvSleep Backoff429 d; EvRecord t; EvGet url params]
        else [EvRecord t; EvGet url params]
      else if as_request_exception
      then [EvSleep BackoffNetwork d; EvRecord t; EvGet url params]
      else [EvRecord t; EvGet url params]
  end.

(** How one attempt ends, by the outcome of the HTTP call. *)
Definition attempt_result (o : http_outcome) : result step_result :=
  match o with
  | RequestError => Ok Continue
  | Response status data =>
      Ok (if is_http_error status then
            if status =? 429 then Continue else Return PyNone
          else if is_api_error data then Return PyNone
          else Return data)
  | Undecodable status as_request_exception =>
      if is_http_error status then
        Ok (if status =? 429 then Continue else Return PyNone)
      else if as_request_exception then Ok Continue
      else Raise (ValueError "Expecting value")
  end.

(** The status code of a response. *)
Definition status_of (o : http_outcome) : option Z :=
  match o with
  | Response status _ | Undecodable status _ => Some status
  | RequestError => None
  end.

(** Counting in a trace goes through [visible] for every kind of event
    that is not a sleep of the limiter. *)
Definition quiet (p : event -> bool) : Prop :=
  forall e, is_limiter_sleep e = true -> p e = false.

(** The key a request is sent with: the one passed in, or the one of the
    configuration. *)
Definition resolved_key (api_key : option string) (w : World) : string :=
  match api_key with
  | Some k => k
  | None => cfg_api_key (config w)
  end.

(** The limiter in force once the configuration has been re-read. *)
Definition configured (w : World) : World := snd (configure_rate_limiter w).

(** The claim that every attempt records exactly one request, for the
    attempts whose HTTP call ends in outcome [o]. *)
Definition records_once (o : http_outcome) : Prop :=
  forall url params attempt rest (w : World),
    0 < requests_per_min (rate_limiter w) ->
    responses w = o :: rest ->
    count is_record (trace (snd (api_attempt url params attempt w)))
    = S (count is_record (trace w)).

(** The second half of the claim on fatal statuses, as it was stated:
    another attempt is made only after a 429 response or a network-level
    error. *)
Definition retried_only_after_429_or_network : Prop :=
  forall url params attempt o rest (w : World),
    0 < requests_per_min (rate_limiter w) ->
    responses w = o :: rest ->
    fst (api_attempt url params attempt w) = Ok Continue ->
    o = RequestError \/ status_of o = Some 429.

(** A computation that reads and writes nothing of the world. *)
Definition stateless {A} (m : M A) : Prop := forall w, snd (m w) = w.


(** The cells of a payload object. *)
Definition cells_of (o : list (string * json)) : record :=
  map (fun kv => (fst kv, Val (snd kv))) o.

(** The cell of a payload object under a key, [NaN] where it has none. *)
Definition field_cell (key : string) (o : list (string * json)) : cell :=
  get_cell key (cells_of o).

(** The row that the price table has for a payload object: the instant of
    its date as label, its other fields as cells, under their new names. *)
Definition price_row (stamp : cell) (o : list (string * json))
  : cell * record :=
  (stamp,
   map (fun kc => (rename_key OHLCV_NAMES (fst kc), snd kc))
       (del_cell "date" (cells_of o))).



(** A configuration that extends another: its keys are told apart, and
    every key of the other is one of its keys. *)
Definition extends (config base : list (string * json)) : Prop :=
  NoDup (map fst config)
  /\ forall k, dict_get k config = None -> dict_get k base = None.

(** A price payload in which 2024-01-03 occurs twice. *)
Definition two_rows_one_date : json :=
  JDict [("symbol", JStr "AAPL");
         ("historical",
          JList [JDict [("date", JStr "2024-01-03"); ("close", JNum 101)];
                 JDict [("date", JStr "2024-01-02"); ("close", JNum 100)];
                 JDict [("date", JStr "2024-01-03"); ("close", JNum 102)]])].

(** A price payload whose list of rows is empty. *)
Definition empty_history : json :=
  JDict [("symbol", JStr "AAPL"); ("historical", JList [])].

(** A server that answers every request with an empty array. *)
Definition month_of_intraday : World :=
  world0 (repeat (Response 200 (JList [])) 10).

(** A run of the limiter: acquisitions ([wait_if_needed]), recordings
    ([add_request]) and time that passes in between. *)
Inductive limiter_op :=
| Acquire
| Record
| Elapse (d : Z).

Definition run_op (op : limiter_op) : M unit :=
  match op with
  | Acquire => RateLimiter.wait_if_needed
  | Record => RateLimiter.add_request
  | Elapse d => fun w => (Ok tt, set_clock (clock w + d) w)
  end.

Fixpoint run_ops (ops : list limiter_op) : M unit :=
  match ops with
  | [] => ret tt
  | op :: ops' => run_op op ;; run_ops ops'
  end.

(** The instants at which requests were recorded, latest first. *)
Fixpoint record_times (t : list event) : list Z :=
  match t with
  | [] => []
  | EvRecord x :: t' => x :: record_times t'
  | _ :: t' => record_times t'
  end.

(** The number of instants of [times] in the 60 seconds that end at [t]. *)
Definition in_window (t : Z) (times : list Z) : Z :=
  Z.of_nat
    (length (List.filter (fun x => (t - MINUTE <? x) && (x <=? t)) times)).

(** The per-minute quota as the specification states it: no rolling window
    of 60 seconds holds more than [per_min] recorded requests. *)
Definition within_minute_quota (per_min : Z) (times : list Z) : Prop :=
  forall t, in_window t times <= per_min.

(** A world at instant [t] whose limiter has the given quotas, has counted
    [count] requests today and has [start] as its reference instant. *)
Definition limiter_world (per_min per_day count : Z) (start t : Z) : World :=
  mkWorld t (mkRateLimiter per_min per_day count [] start)
          (mkConfig "demo" None) [] [] [].

(** One request, four more 50 to 54 seconds later, then five requests back
    to back. *)
Definition burst_after_wait : list limiter_op :=
  [Acquire; Record; Elapse (50 * usec);
   Acquire; Record; Elapse (1 * usec);
   Acquire; Record; Elapse (1 * usec);
   Acquire; Record; Elapse (1 * usec);
   Acquire; Record;
   Acquire; Record;
   Acquire; Record;
   Acquire; Record;
   Acquire; Record].

(** 2024-03-01 23:00 and 2024-03-02 01:00. *)
Definition eleven_pm : Z := (Date.ymd2ord 2024 3 1 - 1) * DAY + 23 * 3600 * usec.
Definition one_am_next_day : Z := Date.ymd2ord 2024 3 1 * DAY + 1 * 3600 * usec.

(** ** The configuration file (config.py) *)

Module ConfigFile.

(** What is found at the path of the configuration file, which is the
    default one: no file; a file that cannot be opened or whose text is not
    JSON; a JSON object; another JSON value. *)
Inductive file_state :=
| Missing
| Unreadable
| Stored (d : list (string * json))
| Other (v : json).

(** The file system: the configuration file, whether it can be opened for
    writing, the data directories ensured so far, latest first, and the
    disk's answer to [os.makedirs(path, exist_ok=True)] for a path that is
    not empty: the errno of the [OSError] it raises, or [None] when the
    directory exists or can be made. *)
Record FS := Build_FS {
  file : file_state;
  writable : bool;
  made_dirs : list string;
  makedirs_errno : string -> option Z
}.

(** A disk on which every named directory can be made. *)
Definition mkFS (f : file_state) (w : bool) (dirs : list string) : FS :=
  Build_FS f w dirs (fun _ => None).

Definition ENOENT : Z := 2.

(** [OSError] stands for the class and its subclasses, which Python picks
    by errno ([FileNotFoundError] for [ENOENT]). *)
Inductive error :=
| TypeError (msg : string)
| ValueError (msg : string)
| OSError (errno : Z) (path : string)
| KeyError (key : string)
| Unsupported (what : string).

Inductive outcome (A : Type) :=
| Returns (a : A)
| Raises (e : error).
Arguments Returns {A} a.
Arguments Raises {A} e.

Definition DEFAULT_TICKERS : json :=
  JList [JStr "AAPL"; JStr "MSFT"; JStr "GOOGL"; JStr "AMZN"; JStr "META"].

(** [DEFAULT_CONFIG], for a home directory (written without a closing
    slash). *)
Definition DEFAULT_CONFIG (home : string) : list (string * json) :=
  [("data_dir", JStr (home ++ "/data/fmp"));
   ("tickers", DEFAULT_TICKERS);
   ("api_key", JStr "");
   ("period", JStr "annual");
   ("years", JNum 10);
   ("rate_limit", JDict [("requests_per_min", JNum 5);
                         ("requests_per_day", JNum 250)]);
   ("log_level", JStr "INFO")].

(** [config.update(other)] for a dictionary [other]. *)
Definition py_update (config other : list (string * json))
  : list (string * json) :=
  fold_left (fun acc kv => dict_set (fst kv) (snd kv) acc) other config.

(** What [dict.update] makes of one element of a sequence: a key and a
    value when the element has two members and the first can be hashed, a
    list of two, a string of two characters or an object with two keys;
    an error otherwise.  A key that is [null], a boolean or a number is
    not a key of the dictionaries modelled here. *)
Inductive pair_result :=
| Pair (k : string) (v : json)
| NoPair
| OtherKey.

Definition as_pair (item : json) : pair_result :=
  match item with
  | JList [k; v] =>
      match k with
      | JStr k => Pair k v
      | JList _ | JDict _ => NoPair
      | _ => OtherKey
      end
  | JStr (String a (String b EmptyString)) =>
      Pair (String a EmptyString) (JStr (String b EmptyString))
  | JDict d =>
      match map fst (py_update [] d) with
      | [k1; k2] => Pair k1 (JStr k2)
      | _ => NoPair
      end
  | _ => NoPair
  end.

(** [config.update(items)] for a list, inside the [try] block of
    [load_config]: the pairs are stored one by one, and the first element
    that is no pair raises an exception that the [except] clause swallows,
    with the pairs before it stored. *)
Fixpoint update_pairs (items : list json) (config : list (string * json))
  : outcome (list (string * json)) :=
  match items with
  | [] => Returns config
  | item :: rest =>
      match as_pair item with
      | Pair k v => update_pairs rest (dict_set k v config)
      | NoPair => Returns config
      | OtherKey =>
          Raises (Unsupported "a configuration key that is not a string")
      end
  end.

(** The [try] block of [load_config] on a file that holds the JSON value
    [user_config]: [None], booleans and numbers cannot be iterated, and a
    string is a sequence of strings of one character; both errors are
    swallowed with the configuration as it was. *)
Definition try_update (user_config : json) (config : list (string * json))
  : outcome (list (string * json)) :=
  match user_config with
  | JDict d => Returns (py_update config d)
  | JList items => update_pairs items config
  | _ => Returns config
  end.

(** Whether a path holds the null character, which no system call takes. *)
Fixpoint has_null (s : string) : bool :=
  match s with
  | EmptyString => false
  | String c s' => Ascii.eqb c Ascii.zero || has_null s'
  end.

(** [ensure_data_dir]: [os.makedirs(data_dir, exist_ok=True)].  A value
    that is not a path is a [TypeError], a path with a null character a
    [ValueError], the empty path a [FileNotFoundError]; for every other
    path the disk decides. *)
Definition ensure_data_dir (data_dir : json) (fs : FS)
  : outcome string * FS :=
  match data_dir with
  | JStr s =>
      if has_null s then (Raises (ValueError "embedded null byte"), fs)
      else if String.eqb s "" then (Raises (OSError ENOENT s), fs)
      else match makedirs_errno fs s with
           | Some errno => (Raises (OSError errno s), fs)
           | None =>
               (Returns s,
                Build_FS (file fs) (writable fs) (s :: made_dirs fs)
                         (makedirs_errno fs))
           end
  | _ => (Raises (TypeError "expected str, bytes or os.PathLike object"), fs)
  end.

(** [save_config]: a failure to open the file is logged and nothing else. *)
Definition save_config (config : list (string * json)) (fs : FS) : FS :=
  if writable fs
  then Build_FS (Stored config) (writable fs) (made_dirs fs)
                (makedirs_errno fs)
  else fs.

(** The first part of [load_config]: the defaults, updated from the file
    when there is one, saved when there is none. *)
Definition read_config (home : string) (fs : FS)
  : outcome (list (string * json)) * FS :=
  let config := DEFAULT_CONFIG home in
  match file fs with
  | Stored user_config => (Returns (py_update config user_config), fs)
  | Other user_config => (try_update user_config config, fs)
  | Unreadable => (Returns config, fs)
  | Missing => (Returns config, save_config config fs)
  end.

Definition load_config (home : string) (fs : FS)
  : outcome (list (string * json)) * FS :=
  match read_config home fs with
  | (Returns config, fs) =>
      match dict_get "data_dir" config with
      | Some data_dir =>
          match ensure_data_dir data_dir fs with
          | (Returns _, fs') => (Returns config, fs')
          | (Raises e, fs') => (Raises e, fs')
          end
      | None => (Raises (KeyError "data_dir"), fs)
      end
  | (Raises e, fs) => (Raises e, fs)
  end.

Definition update_config (home : string) (updates : list (string * json))
    (fs : FS) : outcome (list (string * json)) * FS :=
  match load_config home fs with
  | (Returns config, fs') =>
      let config := py_update config updates in
      (Returns config, save_config config fs')
  | (Raises e, fs') => (Raises e, fs')
  end.

(** [get_api_key]: [config.get('api_key', '')]. *)
Definition get_api_key (home : string) (fs : FS) : outcome json * FS :=
  match load_config home fs with
  | (Returns config, fs') =>
      (Returns (default (JStr "") (dict_get "api_key" config)), fs')
  | (Raises e, fs') => (Raises e, fs')
  end.

End ConfigFile.

(** ** The key shown by [handle_config] (cli.py) *)




(** ** Vocabulary of the further properties *)

(** What an attempt sends, whatever the server does. *)
Definition sent_by (url : string) (params : list (string * json))
    (new : list event) : Prop :=
  Forall (fun e => is_get e = true -> e = EvGet url params) new
  /\ Forall (fun e => is_call e = false) new
  /\ (count is_record new <= count is_get new)%nat.

(** The durations of the backoff sleeps of a trace, latest first. *)
Fixpoint backoff_sleeps (t : list event) : list Z :=
  match t with
  | [] => []
  | EvSleep Backoff429 d :: t' | EvSleep BackoffNetwork d :: t' =>
      d :: backoff_sleeps t'
  | _ :: t' => backoff_sleeps t'
  end.

(** Strings that [strptime] refuses with the format [%Y-%m-%d]: not three
    parts between dashes, or three runs of decimal digits that are not a
    year of four digits, a month and a day of at most two, or not a date of
    the calendar. *)
Definition no_such_date (s : string) : bool :=
  match Date.split "-"%char s with
  | [ys; ms; ds] =>
      match Date.parse_digits ys, Date.parse_digits ms,
            Date.parse_digits ds with
      | Some y, Some m, Some d =>
          negb ((Nat.eqb (String.length ys) 4
                 && Nat.leb (String.length ms) 2
                 && Nat.leb (String.length ds) 2)%bool
                && Date.valid_ymd y m d)
      | _, _, _ => false
      end
  | _ => true
  end.

(** What a call without a key leaves of the world [w]: still no key, no
    request sent, no response used, no time spent. *)
Definition untouched (api_key : option string) (w w' : World) : Prop :=
  resolved_key api_key w' = ""
  /\ count is_get (trace w') = count is_get (trace w)
  /\ responses w' = responses w
  /\ clock w' = clock w.

(** The endpoints of the three statement fetchers. *)
Definition STATEMENT_NAMES : list string :=
  ["income-statement"; "balance-sheet-statement"; "cash-flow-statement"].

(** The labels of [fetch_ticker_data], in the order in which they are
    stored. *)
Definition LABELS : list string :=
  ["ohlcv"; "intraday"; "dividends"; "profile"; "income_stmt";
   "balance_sheet"; "cash_flow"; "earnings"].

(** * Properties *)

(** ** The limiter leaves the rest of the world alone *)

Ltac unfold_limiter :=
  cbv [RateLimiter.wait_if_needed RateLimiter._reset_if_new_day
       RateLimiter._clean_old_timestamps RateLimiter.add_request
       RateLimiter.py_min RateLimiter.init
       bind ret raise now get_limiter put_limiter sleep uniform
       set_limiter set_clock set_rng log].

Lemma tomorrow_is_later (t : Z) :
  0 <= RateLimiter.date_of t * DAY + DAY - t + 10 * usec.
Proof.
  unfold RateLimiter.date_of.
  pose proof (Z.mod_pos_bound t DAY eq_refl) as Hm.
  pose proof (Z.div_mod t DAY) as Hd.
  assert (0 <= 10 * usec) by (unfold usec; lia).
  lia.
Qed.

Lemma wait_if_needed_frame (w : World) :
  responses (snd (RateLimiter.wait_if_needed w)) = responses w
  /\ config (snd (RateLimiter.wait_if_needed w)) = config w
  /\ requests_per_min (rate_limiter (snd (RateLimiter.wait_if_needed w)))
     = requests_per_min (rate_limiter w)
  /\ requests_per_day (rate_limiter (snd (RateLimiter.wait_if_needed w)))
     = requests_per_day (rate_limiter w)
  /\ visible (trace (snd (RateLimiter.wait_if_needed w))) = visible (trace w).
Proof.
  unfold_limiter.
  repeat (case_match; simpl in *; simplify_eq); auto.
Qed.

Ltac bool_to_Z :=
  repeat match goal with
         | H : (_ <? _) = true |- _ => apply Z.ltb_lt in H
         | H : (_ <? _) = false |- _ => apply Z.ltb_ge in H
         | H : (_ <=? _) = true |- _ => apply Z.leb_le in H
         | H : (_ <=? _) = false |- _ => apply Z.leb_gt in H
         | H : (_ =? _) = true |- _ => apply Z.eqb_eq in H
         | H : (_ =? _) = false |- _ => apply Z.eqb_neq in H
         end.

Lemma uniform_range (a b z : Z) : a <= b -> a <= a + z mod (b - a + 1) <= b.
Proof. intros H. pose proof (Z.mod_pos_bound z (b - a + 1)). lia. Qed.

Lemma jitter_range (z : Z) :
  usec / 10 <= usec / 10 + z mod (usec / 2 - usec / 10 + 1) <= usec / 2.
Proof. apply uniform_range. vm_compute. discriminate. Qed.

(** With a positive per-minute quota the limiter always gives clearance:
    none of its sleeps is negative and [min] is never taken of an empty
    list. *)
Lemma wait_if_needed_ok (w : World) :
  0 < requests_per_min (rate_limiter w) ->
  fst (RateLimiter.wait_if_needed w) = Ok tt.
Proof.
  intros Hpm. unfold_limiter.
  repeat (case_match; simpl in *; simplify_eq); auto; exfalso.
  all: bool_to_Z.
  all: try (match goal with
            | H : context [RateLimiter.date_of ?t] |- _ =>
                pose proof (tomorrow_is_later t)
            end; lia).
  all: try match goal with
           | H : context [?a mod _] |- _ => pose proof (jitter_range a)
           end.
  all: try (assert (0 <= usec / 10) by (vm_compute; discriminate)).
  all: try lia.
  all: unfold MINUTE, usec in *; lia.
Qed.

Lemma backoff_pos (attempt : nat) : 0 < backoff attempt.
Proof.
  unfold backoff, REQUEST_DELAY, RATE_LIMIT_BACKOFF_FACTOR, usec.
  assert (0 < 2 ^ Z.of_nat attempt) by (apply Z.pow_pos_nonneg; lia).
  lia.
Qed.

Lemma backoff_jitter_range (z : Z) :
  1 * usec <= 1 * usec + z mod (5 * usec - 1 * usec + 1) <= 5 * usec.
Proof. apply uniform_range. vm_compute. discriminate. Qed.

(** ** One attempt of the request executor *)

Lemma send_and_classify_spec url params attempt o rest (w : World) :
  responses w = o :: rest ->
  exists w' d,
    send_and_classify url params attempt w = (attempt_result o, w')
    /\ responses w' = rest
    /\ config w' = config w
    /\ requests_per_min (rate_limiter w') = requests_per_min (rate_limiter w)
    /\ trace w' = (attempt_events url params o (clock w) d ++ trace w)%list.
Proof.
  intros Hr.
  unfold send_and_classify, requests_get, bind. simpl. rewrite Hr.
  destruct o as [status data| |status caught].
  - unfold_limiter. simpl.
    destruct (is_http_error status) eqn:He; simpl.
    + destruct (status =? 429) eqn:H429; simpl.
      * destruct (rng w) as [|z zs] eqn:Hrng; simpl.
        -- pose proof (backoff_pos attempt).
           destruct (backoff attempt + 1 * usec <? 0) eqn:Hneg;
             [bool_to_Z; unfold usec in *; lia|].
           eexists _, _. repeat split; reflexivity.
        -- pose proof (backoff_pos attempt).
           pose proof (backoff_jitter_range z).
           destruct (backoff attempt
                     + (1 * usec + z mod (5 * usec - 1 * usec + 1)) <? 0)
             eqn:Hneg; [bool_to_Z; unfold usec in *; lia|].
           eexists _, _. repeat split; reflexivity.
      * eexists _, 0. repeat split; reflexivity.
    + destruct (is_api_error data); eexists _, 0; repeat split; reflexivity.
  - unfold sleep. pose proof (backoff_pos attempt).
    destruct (backoff attempt <? 0) eqn:Hneg; [bool_to_Z; lia|].
    eexists _, _. repeat split; reflexivity.
  - unfold_limiter. simpl.
    destruct (is_http_error status) eqn:He; simpl.
    + destruct (status =? 429) eqn:H429; simpl.
      * destruct (rng w) as [|z zs] eqn:Hrng; simpl.
        -- pose proof (backoff_pos attempt).
           destruct (backoff attempt + 1 * usec <? 0) eqn:Hneg;
             [bool_to_Z; unfold usec in *; lia|].
           eexists _, _. repeat split; reflexivity.
        -- pose proof (backoff_pos attempt).
           pose proof (backoff_jitter_range z).
           destruct (backoff attempt
                     + (1 * usec + z mod (5 * usec - 1 * usec + 1)) <? 0)
             eqn:Hneg; [bool_to_Z; unfold usec in *; lia|].
           eexists _, _. repeat split; reflexivity.
      * eexists _, 0. repeat split; reflexivity.
    + destruct caught; simpl.
      * pose proof (backoff_pos attempt).
        destruct (backoff attempt <? 0) eqn:Hneg; [bool_to_Z; lia|].
        eexists _, _. repeat split; reflexivity.
      * eexists _, 0. repeat split; reflexivity.
Qed.

Lemma quiet_get : quiet is_get.
Proof. by intros [[]| | |]. Qed.
Lemma quiet_record : quiet is_record.
Proof. by intros [[]| | |]. Qed.
Lemma quiet_backoff : quiet is_backoff.
Proof. by intros [[]| | |]. Qed.
Lemma quiet_call : quiet is_call.
Proof. by intros [[]| | |]. Qed.

Lemma count_app p (t1 t2 : list event) :
  count p (t1 ++ t2) = (count p t1 + count p t2)%nat.
Proof. unfold count. by rewrite List.filter_app, length_app. Qed.

Lemma count_visible p (t : list event) :
  quiet p -> count p (visible t) = count p t.
Proof.
  intros Hq. unfold count, visible.
  induction t as [|e t IH]; simpl; [done|].
  destruct (is_limiter_sleep e) eqn:He; simpl.
  - by rewrite (Hq e He).
  - destruct (p e); simpl; by rewrite IH.
Qed.

Lemma visible_app (t1 t2 : list event) :
  visible (t1 ++ t2) = (visible t1 ++ visible t2)%list.
Proof. apply List.filter_app. Qed.

Lemma visible_attempt_events url params o t d :
  visible (attempt_events url params o t d) = attempt_events url params o t d.
Proof.
  destruct o as [status data| |status caught]; simpl; [|done|].
  - by destruct (is_http_error status && (status =? 429)).
  - by destruct (is_http_error status), (status =? 429), caught.
Qed.

(** If two traces agree up to the limiter's sleeps and some new events,
    the counts differ by the count of the new events. *)
Lemma count_step p (evs t t' : list event) :
  quiet p ->
  visible t' = (evs ++ visible t)%list ->
  count p t' = (count p evs + count p t)%nat.
Proof.
  intros Hq Hv.
  rewrite <- (count_visible p t' Hq), Hv, count_app.
  by rewrite (count_visible p t Hq).
Qed.

Lemma api_attempt_spec url params attempt o rest (w : World) :
  0 < requests_per_min (rate_limiter w) ->
  responses w = o :: rest ->
  exists w' t d,
    api_attempt url params attempt w = (attempt_result o, w')
    /\ responses w' = rest
    /\ config w' = config w
    /\ requests_per_min (rate_limiter w') = requests_per_min (rate_limiter w)
    /\ visible (trace w')
       = (attempt_events url params o t d ++ visible (trace w))%list.
Proof.
  intros Hpm Hr. unfold api_attempt, bind.
  pose proof (wait_if_needed_ok w Hpm) as Hok.
  destruct (wait_if_needed_frame w) as (Hresp & Hcfg & Hmin & _ & Hvis).
  destruct (RateLimiter.wait_if_needed w) as [r w1]; simpl in *. subst r.
  destruct (send_and_classify_spec url params attempt o rest w1)
    as (w' & d & Hrun & ? & ? & ? & Htr); [congruence|].
  exists w', (clock w1), d. rewrite Hrun.
  repeat split; try congruence.
  by rewrite Htr, visible_app, visible_attempt_events, Hvis.
Qed.

(** One turn of the retry loop. *)
Lemma retry_loop_step url params attempt attempts o rest (w : World) :
  0 < requests_per_min (rate_limiter w) ->
  responses w = o :: rest ->
  exists w' t d,
    retry_loop url params (attempt :: attempts) w
    = match attempt_result o with
      | Ok (Return v) => (Ok v, w')
      | Ok Continue => retry_loop url params attempts w'
      | Raise e => (Raise e, w')
      end
    /\ responses w' = rest
    /\ config w' = config w
    /\ requests_per_min (rate_limiter w') = requests_per_min (rate_limiter w)
    /\ visible (trace w')
       = (attempt_events url params o t d ++ visible (trace w))%list.
Proof.
  intros Hpm Hr.
  destruct (api_attempt_spec url params attempt o rest w Hpm Hr)
    as (w' & t & d & Hrun & H).
  exists w', t, d. split; [|exact H].
  simpl. unfold bind. rewrite Hrun. by destruct (attempt_result o) as [[]|].
Qed.

(** ** The request executor as a whole *)

Lemma configure_rate_limiter_spec (w : World) :
  exists r, configure_rate_limiter w = (Ok tt, set_limiter r w).
Proof.
  unfold configure_rate_limiter.
  destruct (cfg_rate_limit (config w)) as [[pm pd]|].
  - match goal with |- context [if ?c then _ else _] => destruct c end.
    + eexists. reflexivity.
    + exists (rate_limiter w). by destruct w.
  - exists (rate_limiter w). by destruct w.
Qed.

Lemma configured_frame (w : World) :
  responses (configured w) = responses w
  /\ config (configured w) = config w
  /\ trace (configured w) = trace w
  /\ clock (configured w) = clock w.
Proof.
  unfold configured.
  destruct (configure_rate_limiter_spec w) as [r ->]. done.
Qed.

Lemma configure_log e (w : World) :
  configure_rate_limiter (log e w) = (Ok tt, log e (configured w)).
Proof.
  unfold configured, configure_rate_limiter. simpl.
  destruct (cfg_rate_limit (config w)) as [[pm pd]|]; [|done].
  match goal with |- context [if ?c then _ else _] => destruct c end; done.
Qed.

Lemma make_api_request_unfold endpoint params api_key max_retries base_url w :
  make_api_request endpoint params api_key max_retries base_url w
  = if String.eqb (resolved_key api_key w) ""
    then (Ok PyNone, log (EvCall endpoint params) (configured w))
    else retry_loop (base_url ++ "/" ++ endpoint)%string
           (dict_set "apikey" (JStr (resolved_key api_key w)) params)
           (py_range max_retries)
           (log (EvCall endpoint params) (configured w)).
Proof.
  unfold make_api_request, bind. rewrite configure_log.
  destruct (configured_frame w) as (_ & Hcfg & _).
  destruct api_key as [k|]; simpl; unfold get_api_key; simpl;
    rewrite ?Hcfg; by case_match.
Qed.

Lemma visible_log_call endpoint params (w : World) :
  visible (trace (log (EvCall endpoint params) w))
  = EvCall endpoint params :: visible (trace w).
Proof. reflexivity. Qed.



(** ** Recording a request in the limiter *)

(** C4, as stated, fails for a network-level error: [requests.get] raises
    before [add_request] is reached and the attempt records nothing. *)
Lemma network_error_not_recorded : ~ records_once RequestError.
Proof.
  intros H.
  specialize (H "u" [] 0%nat [] (world0 [RequestError])
                ltac:(vm_compute; reflexivity) eq_refl).
  vm_compute in H. discriminate.
Qed.

(** C4, amended.  An attempt whose HTTP call returns a response, whatever
    its status and whether or not its body is JSON, records exactly one
    request, right after the GET; an attempt whose HTTP call raises a
    network-level error sends one GET and records nothing. *)
Theorem add_request_once_per_response :
  forall url params attempt o rest (w : World),
    0 < requests_per_min (rate_limiter w) ->
    responses w = o :: rest ->
    let w' := snd (api_attempt url params attempt w) in
    count is_get (trace w') = S (count is_get (trace w))
    /\ match o with
       | Response _ _ | Undecodable _ _ =>
           count is_record (trace w') = S (count is_record (trace w))
           /\ exists later t,
               visible (trace w')
               = (later ++ EvRecord t :: EvGet url params
                        :: visible (trace w))%list
               /\ count is_get later = 0%nat
               /\ count is_record later = 0%nat
       | RequestError =>
           count is_record (trace w') = count is_record (trace w)
       end.
Proof.
  intros url params attempt o rest w Hpm Hr w'.
  destruct (api_attempt_spec url params attempt o rest w Hpm Hr)
    as (w1 & t & d & Hrun & _ & _ & _ & Hv).
  unfold w'. rewrite Hrun. simpl snd. clear w' Hrun.
  rewrite (count_step _ _ _ _ quiet_get Hv), (count_step _ _ _ _ quiet_record Hv).
  destruct o as [status data| |status caught]; simpl in *.
  - destruct (is_http_error status && (status =? 429)); simpl.
    + repeat split. exists [EvSleep Backoff429 d], t. by rewrite Hv.
    + repeat split. exists [], t. by rewrite Hv.
  - done.
  - destruct (is_http_error status), (status =? 429), caught; simpl;
      repeat split;
      first [ by exists [EvSleep Backoff429 d], t; rewrite Hv
            | by exists [EvSleep BackoffNetwork d], t; rewrite Hv
            | by exists [], t; rewrite Hv ].
Qed.

Lemma add_request_once_per_response_witness :
  let w := world0 [Response 500 JNull] in
  count is_record (trace (snd (api_attempt "u" [] 0 w))) = 1%nat.
Proof.
  intros w.
  exact (proj1 (proj2 (add_request_once_per_response "u" [] 0%nat
                         (Response 500 JNull) [] w
                         ltac:(vm_compute; reflexivity) eq_refl))).
Defined.

(** ** Which outcomes end the loop *)

(** C5, as stated, fails in its second half: a response without error
    status whose body is not JSON is neither a 429 nor a network-level
    error, and with requests 2.27 or later it leads to another attempt,
    after a backoff sleep: [response.json()] raises a [RequestException],
    which the second handler catches. *)
Lemma undecodable_body_is_retried :
  ~ retried_only_after_429_or_network
  /\ let w := world0 [Undecodable 200 true; Response 200 (JList [JNum 1])] in
     let r := make_api_request "profile" [] (Some "k") 3 API_BASE_URL w in
     fst r = Ok (JList [JNum 1])
     /\ count is_get (trace (snd r)) = 2%nat
     /\ backoff_sleeps (trace (snd r)) = [12 * usec].
Proof.
  split; [|by vm_compute].
  intros H.
  destruct (H "u" [] 0%nat (Undecodable 200 true) []
              (world0 [Undecodable 200 true])
              ltac:(vm_compute; reflexivity) eq_refl
              ltac:(vm_compute; reflexivity)) as [[=]|[=]].
Qed.

(** C5, amended.  An attempt whose response has an error status other than
    429 ends the loop at once with [None]: whatever attempts were left, no
    further GET is sent and no further outcome is consumed.  Another
    attempt is made exactly when the outcome is a 429 response, a
    network-level error, or a response without error status whose body is
    not JSON while requests raises its own [JSONDecodeError]; where the
    [ValueError] of the json module is raised instead, it leaves
    [make_api_request], and nothing else does. *)
Theorem fatal_status_stops :
  forall url params attempt attempts o rest (w : World),
    0 < requests_per_min (rate_limiter w) ->
    responses w = o :: rest ->
    (forall status,
        status_of o = Some status ->
        is_http_error status = true ->
        status <> 429 ->
        let r := retry_loop url params (attempt :: attempts) w in
        fst r = Ok PyNone
        /\ responses (snd r) = rest
        /\ count is_get (trace (snd r)) = S (count is_get (trace w))
        /\ count is_backoff (trace (snd r)) = count is_backoff (trace w))
    /\ (fst (api_attempt url params attempt w) = Ok Continue
        <-> o = RequestError \/ status_of o = Some 429
            \/ exists status, o = Undecodable status true
                              /\ is_http_error status = false)
    /\ ((exists e, fst (api_attempt url params attempt w) = Raise e)
        <-> exists status, o = Undecodable status false
                           /\ is_http_error status = false).
Proof.
  intros url params attempt attempts o rest w Hpm Hr. split; [|split].
  - intros status Hstatus Herr Hne r.
    destruct (retry_loop_step url params attempt attempts _ _ w Hpm Hr)
      as (w' & t & d & Hrun & Hrest & _ & _ & Hv).
    unfold r. rewrite Hrun. clear r Hrun.
    destruct (Z.eqb_spec status 429) as [|_]; [done|].
    destruct o as [s data| |s caught]; simpl in Hstatus; simplify_eq;
      simpl in *; rewrite ?Herr in *; simpl in *.
    + destruct (Z.eqb_spec status 429) as [|_]; [done|]. simpl in *.
      split; [done|]. split; [done|]. split.
      * by rewrite (count_step _ [EvRecord t; EvGet url params] _ _
                      quiet_get Hv).
      * by rewrite (count_step _ [EvRecord t; EvGet url params] _ _
                      quiet_backoff Hv).
    + destruct (Z.eqb_spec status 429) as [|_]; [done|]. simpl in *.
      split; [done|]. split; [done|]. split.
      * by rewrite (count_step _ [EvRecord t; EvGet url params] _ _
                      quiet_get Hv).
      * by rewrite (count_step _ [EvRecord t; EvGet url params] _ _
                      quiet_backoff Hv).
  - destruct (api_attempt_spec url params attempt o rest w Hpm Hr)
      as (w' & t & d & -> & _).
    simpl. destruct o as [status data| |status caught]; simpl.
    + destruct (is_http_error status) eqn:Herr.
      * destruct (Z.eqb_spec status 429) as [->|Hne].
        -- split; [auto|done].
        -- split; [done|]. intros [|[[=]|(? & [=] & _)]]; done.
      * assert (status <> 429) by (intros ->; done).
        destruct (is_api_error data);
          (split; [done|]; intros [|[[=]|(? & [=] & _)]]; done).
    + split; [auto|done].
    + destruct (is_http_error status) eqn:Herr.
      * destruct (Z.eqb_spec status 429) as [->|Hne].
        -- split; [auto|done].
        -- split; [done|].
           intros [|[[=]|(s0 & [= -> _] & ?)]]; done || congruence.
      * assert (status <> 429) by (intros ->; done).
        destruct caught.
        -- split; [|done]. intros _. right. right. by exists status.
        -- split; [done|]. intros [|[[=]|(? & [=] & _)]]; done.
  - destruct (api_attempt_spec url params attempt o rest w Hpm Hr)
      as (w' & t & d & -> & _).
    simpl. destruct o as [status data| |status caught]; simpl.
    + split; [intros [e He]|intros (? & [=] & _)].
      by destruct (is_http_error status), (status =? 429),
        (is_api_error data).
    + split; [intros [e [=]]|intros (? & [=] & _)].
    + destruct (is_http_error status) eqn:Herr.
      * split; [intros [e He]; by destruct (status =? 429)|].
        intros (s0 & [= -> _] & ?). congruence.
      * destruct caught.
        -- split; [intros [e [=]]|intros (? & [=] & _)].
        -- split; [by exists status|eauto].
Qed.

Lemma fatal_status_stops_witness :
  let w := world0 [Response 404 JNull; Response 200 (JList [JNum 1])] in
  fst (retry_loop "u" [] [0; 1; 2]%nat w) = Ok PyNone
  /\ responses (snd (retry_loop "u" [] [0; 1; 2]%nat w))
     = [Response 200 (JList [JNum 1])].
Proof.
  intros w.
  destruct (proj1 (fatal_status_stops "u" [] 0%nat [1; 2]%nat
                     (Response 404 JNull) [Response 200 (JList [JNum 1])] w
                     ltac:(vm_compute; reflexivity) eq_refl)
                  404 eq_refl eq_refl ltac:(lia))
    as (H1 & H2 & _).
  split; [exact H1 | exact H2].
Defined.

(** ** Endpoint fallback *)

Lemma calls_visible (t : list event) : calls (visible t) = calls t.
Proof.
  unfold calls. f_equal.
  induction t as [|e t IH]; [done|].
  unfold visible in *. simpl.
  destruct e as [[]| | |]; simpl; by rewrite ?IH.
Qed.

Lemma send_and_classify_calls url params attempt (w : World) :
  calls (trace (snd (send_and_classify url params attempt w)))
  = calls (trace w).
Proof.
  unfold send_and_classify, requests_get. unfold_limiter. simpl.
  repeat (case_match; simpl in *; simplify_eq); done.
Qed.

Lemma api_attempt_calls url params attempt (w : World) :
  calls (trace (snd (api_attempt url params attempt w))) = calls (trace w).
Proof.
  unfold api_attempt, bind.
  destruct (wait_if_needed_frame w) as (_ & _ & _ & _ & Hv).
  destruct (RateLimiter.wait_if_needed w) as [[[]|e] w1]; simpl in *.
  - rewrite send_and_classify_calls.
    by rewrite <- calls_visible, Hv, calls_visible.
  - by rewrite <- calls_visible, Hv, calls_visible.
Qed.

Lemma retry_loop_calls url params attempts (w : World) :
  calls (trace (snd (retry_loop url params attempts w))) = calls (trace w).
Proof.
  revert w. induction attempts as [|a attempts IH]; intros w; [done|].
  simpl. unfold bind.
  pose proof (api_attempt_calls url params a w) as Hc.
  destruct (api_attempt url params a w) as [[[v|]|e] w1]; simpl in *;
    [done| |done].
  by rewrite IH.
Qed.

(** Every call of the executor is one entry of the call log, whatever
    happens inside. *)
Lemma make_api_request_calls endpoint params api_key max_retries base_url w :
  calls (trace (snd (make_api_request endpoint params api_key max_retries
                                      base_url w)))
  = (calls (trace w) ++ [(endpoint, params)])%list.
Proof.
  rewrite make_api_request_unfold.
  destruct (configured_frame w) as (_ & _ & Htr & _).
  assert (Hlog : calls (trace (log (EvCall endpoint params) (configured w)))
                 = (calls (trace w) ++ [(endpoint, params)])%list).
  { unfold calls. simpl. by rewrite Htr. }
  case_match; [done|]. by rewrite retry_loop_calls.
Qed.

Lemma stateless_ret {A} (a : A) : stateless (ret a).
Proof. done. Qed.

Lemma stateless_raise {A} e : stateless (@raise A e).
Proof. done. Qed.

Lemma stateless_bind {A B} (m : M A) (k : A -> M B) :
  stateless m -> (forall a, stateless (k a)) -> stateless (bind m k).
Proof.
  intros Hm Hk w. unfold bind. specialize (Hm w).
  destruct (m w) as [[a|e] w1]; simpl in *; subst; [apply Hk|done].
Qed.

Lemma stateless_if {A} (b : bool) (m1 m2 : M A) :
  stateless m1 -> stateless m2 -> stateless (if b then m1 else m2).
Proof. by destruct b. Qed.

Create HintDb stateless_db.
#[local] Hint Resolve stateless_ret stateless_raise stateless_if : stateless_db.
#[local] Hint Extern 2 (stateless (bind _ _)) =>
  apply stateless_bind; [|intros ?] : stateless_db.

Lemma stateless_DataFrame_of data : stateless (DataFrame_of data).
Proof. destruct data; simpl; try case_match; auto with stateless_db. Qed.

Lemma stateless_getitem df col : stateless (getitem df col).
Proof. unfold getitem. auto with stateless_db. Qed.

Lemma stateless_to_datetime cs : stateless (to_datetime cs).
Proof.
  unfold to_datetime. apply stateless_if; [apply stateless_raise|].
  induction cs as [|c cs IH]; simpl; [auto with stateless_db|].
  apply stateless_bind.
  - destruct c as [[]| | |]; simpl; try case_match; auto with stateless_db.
  - intros c1. auto with stateless_db.
Qed.

Lemma stateless_set_index df col : stateless (set_index df col).
Proof. unfold set_index. auto with stateless_db. Qed.

#[local] Hint Resolve stateless_DataFrame_of stateless_getitem
  stateless_to_datetime stateless_set_index : stateless_db.



Lemma stateless_profile_table data : stateless (profile_table data).
Proof. unfold profile_table. auto 6 with stateless_db. Qed.


Lemma stateless_price_table historical : stateless (price_table historical).
Proof. unfold price_table. auto 8 with stateless_db. Qed.


(** ** Normalisation of a price history *)

Lemma label_leb_total (a b : cell) : label_leb a b = false -> label_leb b a = true.
Proof.
  destruct a as [| |  |], b as [| | |]; simpl; try done.
  intros H. bool_to_Z. apply Z.leb_le. lia.
Qed.

Lemma insert_row_perm x l : insert_row x l ≡ₚ x :: l.
Proof.
  induction l as [|y l IH]; simpl; [done|].
  destruct (label_leb (fst y) (fst x)); [|done].
  rewrite IH. apply Permutation_swap.
Qed.

Lemma insert_row_HdRel a x l :
  index_le a x -> HdRel index_le a l -> HdRel index_le a (insert_row x l).
Proof.
  intros Hax Hl. destruct l as [|y l]; simpl; [by constructor|].
  inversion_clear Hl. by destruct (label_leb (fst y) (fst x)); constructor.
Qed.

Lemma insert_row_sorted x l : Sorted index_le l -> Sorted index_le (insert_row x l).
Proof.
  induction 1 as [|y l Hs IH Hhd]; simpl; [by repeat constructor|].
  destruct (label_leb (fst y) (fst x)) eqn:Hle.
  - constructor; [done|]. apply insert_row_HdRel; [|done].
    unfold index_le. by rewrite Hle.
  - constructor; [by constructor|]. constructor.
    unfold index_le. by rewrite (label_leb_total _ _ Hle).
Qed.

Lemma sort_rows_acc_perm l acc :
  fold_left (fun acc x => insert_row x acc) l acc ≡ₚ (l ++ acc)%list.
Proof.
  revert acc. induction l as [|x l IH]; intros acc; simpl; [done|].
  rewrite IH, insert_row_perm. by rewrite Permutation_middle.
Qed.

Lemma sort_rows_perm l : sort_rows l ≡ₚ l.
Proof. unfold sort_rows. by rewrite sort_rows_acc_perm, app_nil_r. Qed.

Lemma sort_rows_sorted l : Sorted index_le (sort_rows l).
Proof.
  unfold sort_rows.
  assert (H : forall acc, Sorted index_le acc ->
                          Sorted index_le
                            (fold_left (fun acc x => insert_row x acc) l acc)).
  { induction l as [|x l IH]; intros acc Hacc; simpl; [done|].
    apply IH. by apply insert_row_sorted. }
  apply H. constructor.
Qed.

Lemma sorted_relabel (f : cell * record -> cell * record) l :
  (forall r, fst (f r) = fst r) ->
  Sorted index_le l -> Sorted index_le (map f l).
Proof.
  intros Hf. induction 1 as [|y l Hs IH Hhd]; simpl; constructor; [done|].
  destruct Hhd as [|z l Hyz]; simpl; constructor.
  unfold index_le in *. by rewrite !Hf.
Qed.



(** Taking apart a run [m w = (Ok a, w')] of a stateless step. *)
Lemma bind_ok_stateless {A B} (m : M A) (k : A -> M B) w b w' :
  stateless m ->
  bind m k w = (Ok b, w') ->
  exists a, m w = (Ok a, w) /\ k a w = (Ok b, w').
Proof.
  intros Hm H. unfold bind in H. specialize (Hm w).
  destruct (m w) as [[a|e] w1]; simpl in *; subst; [eauto|done].
Qed.

Lemma get_set_cell_eq col c r : get_cell col (set_cell col c r) = c.
Proof.
  induction r as [|[k c'] r IH]; simpl.
  - by rewrite String.eqb_refl.
  - destruct (String.eqb col k) eqn:E; simpl; by rewrite ?E.
Qed.

Lemma del_set_cell col c r : del_cell col (set_cell col c r) = del_cell col r.
Proof.
  unfold del_cell. induction r as [|[k c'] r IH]; simpl.
  - by rewrite String.eqb_refl.
  - destruct (String.eqb col k) eqn:E; simpl; rewrite E; simpl; [done|].
    by rewrite IH.
Qed.

Lemma length_mapM_cells f cs (w w' : World) cs' :
  mapM_cells f cs w = (Ok cs', w') -> length cs' = length cs.
Proof.
  revert w cs'. induction cs as [|c cs IH]; intros w cs' H; simpl in H.
  - unfold ret in H. by simplify_eq.
  - unfold bind, ret in H. destruct (f c w) as [[c1|e] w1]; [|done].
    destruct (mapM_cells f cs w1) as [[cs1|e] w2] eqn:E; [|done].
    simplify_eq. simpl. f_equal. by eapply IH.
Qed.

Lemma length_to_datetime cs (w w' : World) stamps :
  to_datetime cs w = (Ok stamps, w') -> length stamps = length cs.
Proof. unfold to_datetime. case_match; [done|]. apply length_mapM_cells. Qed.

(** The instants of a column do not depend on the world. *)
Lemma to_datetime_pure cs (w w0 : World) :
  to_datetime cs w = (fst (to_datetime cs w0), w).
Proof.
  unfold to_datetime. destruct (mixed_formats cs); [done|].
  revert w w0. induction cs as [|c cs IH]; intros w w0; [done|].
  simpl. unfold bind.
  assert (Hc : to_datetime_cell c w = (fst (to_datetime_cell c w0), w)
               /\ snd (to_datetime_cell c w0) = w0).
  { destruct c as [[]| | |]; simpl; try done. by case_match. }
  destruct Hc as [-> Hw0].
  destruct (to_datetime_cell c w0) as [[c1|e] w1]; simpl in *; [|done].
  subst w1. rewrite (IH w w0).
  by destruct (mapM_cells to_datetime_cell cs w0) as [[cs1|e] w1].
Qed.

Lemma dates_of_frame col i objs :
  map (fun r => get_cell col (snd r)) (number_from i objs)
  = map (field_cell col) objs.
Proof.
  revert i. induction objs as [|o objs IH]; intros i; simpl; [done|].
  by rewrite IH.
Qed.

Lemma rows_of_indexed col i objs stamps :
  length stamps = length objs ->
  map (fun r => (get_cell col (snd r), del_cell col (snd r)))
      (assign col (number_from i objs) stamps)
  = zip_with (fun st o => (st, del_cell col (cells_of o))) stamps objs.
Proof.
  revert i stamps.
  induction objs as [|o objs IH]; intros i [|st stamps] Hlen; simpl in *;
    try done.
  rewrite get_set_cell_eq, del_set_cell, IH by lia. done.
Qed.

Lemma map_zip_with {A B C D} (f : C -> D) (g : A -> B -> C) l k :
  map f (zip_with g l k) = zip_with (fun a b => f (g a b)) l k.
Proof.
  revert k. induction l as [|a l IH]; intros [|b k]; simpl; by rewrite ?IH.
Qed.

(** Every table that [price_table] builds is indexed by the date, has its
    rows in ascending order of it, and has, up to their order, the rows of
    the payload: the instant of the date as label, the other fields under
    their new names. *)
Lemma price_table_spec historical (w w' : World) df :
  price_table historical w = (Ok df, w') ->
  exists items objs stamps,
    historical = JList items
    /\ all_objects items = Some objs
    /\ len df = length items
    /\ Sorted index_le (rows df)
    /\ index_name df = Some "date"
    /\ fst (to_datetime (map (field_cell "date") objs) w) = Ok stamps
    /\ length stamps = length objs
    /\ rows df ≡ₚ zip_with price_row stamps objs.
Proof.
  unfold price_table. intros H.
  apply bind_ok_stateless in H as (df0 & Hdf0 & H);
    [|apply stateless_DataFrame_of].
  apply bind_ok_stateless in H as (dates & Hdates & H);
    [|apply stateless_getitem].
  apply bind_ok_stateless in H as (stamps & Hstamps & H);
    [|apply stateless_to_datetime].
  apply bind_ok_stateless in H as (df1 & Hdf1 & H);
    [|apply stateless_set_index].
  unfold ret in H. simplify_eq.
  unfold set_index in Hdf1. case_match; [|done].
  unfold ret in Hdf1. simplify_eq.
  destruct historical as [| | | |items|]; simpl in Hdf0; try done.
  { unfold ret in Hdf0. by simplify_eq. }
  destruct (all_objects items) as [objs|] eqn:Hobjs; [|done].
  destruct (existsb (rounds objs) (columns_of objs)); [done|].
  unfold ret in Hdf0. simplify_eq.
  unfold getitem in Hdates. cbn [columns rows] in Hdates.
  case_match; [|done]. unfold ret in Hdates. simplify_eq.
  rewrite dates_of_frame in Hstamps.
  pose proof (length_to_datetime _ _ _ _ Hstamps) as Hlen.
  rewrite length_map in Hlen.
  assert (Hitems : length objs = length items).
  { unfold all_objects in Hobjs. by apply length_mapM in Hobjs. }
  exists items, objs, stamps.
  match goal with
  | |- context [len ?d] =>
      assert (Hrows : rows d ≡ₚ zip_with price_row stamps objs)
  end.
  { unfold rename, sort_index, setitem. cbn [rows columns index_name].
    rewrite (sort_rows_perm _), rows_of_indexed by done.
    by rewrite map_zip_with. }
  split; [done|]. split; [done|]. split; [|split; [|split; [done|]]].
  - unfold len. rewrite (Permutation_length Hrows).
    rewrite length_zip_with, Hlen. lia.
  - unfold rename, sort_index. simpl.
    apply sorted_relabel; [done|]. apply sort_rows_sorted.
  - split; [by rewrite Hstamps|]. split; [done|exact Hrows].
Qed.

(** C7, as stated, fails: nothing in the normalisation drops a row, and two
    payload rows with the same date are both in the table. *)
Lemma duplicate_dates_are_kept :
  exists df,
    fst (fetch_historical_price "AAPL" None None (Some "k")
           (world0 [Response 200 two_rows_one_date]))
    = Ok (Some df)
    /\ len df = 3%nat
    /\ ~ one_row_per_label df.
Proof.
  eexists. split; [vm_compute; reflexivity|]. split; [reflexivity|].
  unfold one_row_per_label. vm_compute.
  intros H. apply NoDup_cons in H as [_ H]. apply NoDup_cons in H as [H _].
  apply H. left.
Qed.

(** C7, amended.  Every successful price normalisation gives a table
    indexed by the date whose rows are in ascending, not necessarily
    strict, order of the date, and whose rows are, up to their order, the
    elements of the payload's "historical" list, one row for each: the
    instant of the element's date as label and its other fields as cells.
    Rows with equal dates are all kept. *)
Theorem price_table_sorted_all_rows :
  forall ticker from_date to_date api_key (w w' : World) df,
    fetch_historical_price ticker from_date to_date api_key w
    = (Ok (Some df), w') ->
    Sorted index_le (rows df)
    /\ index_name df = Some "date"
    /\ exists fields items objs stamps,
        fst (request (fst (price_query ticker from_date to_date))
                     (snd (price_query ticker from_date to_date)) api_key w)
        = Ok (JDict fields)
        /\ dict_get "historical" fields = Some (JList items)
        /\ len df = length items
        /\ all_objects items = Some objs
        /\ fst (to_datetime (map (field_cell "date") objs) w) = Ok stamps
        /\ length stamps = length objs
        /\ rows df ≡ₚ zip_with price_row stamps objs.
Proof.
  intros ticker from_date to_date api_key w w' df.
  unfold fetch_historical_price.
  destruct (price_query ticker from_date to_date) as [endpoint params].
  simpl fst. simpl snd. unfold bind at 1.
  destruct (request endpoint params api_key w) as [[data|e] w1]; [|done].
  intros H.
  assert (Hdict : exists fields historical,
             data = JDict fields
             /\ dict_get "historical" fields = Some historical
             /\ price_table historical w1 = (Ok df, w')).
  { unfold lacks_historical, py_contains, py_getitem, bind, ret, raise in H.
    destruct (truthy data); simpl in H; [|done].
    destruct data as [| | |s|items|fields]; simpl in H; try done.
    - by destruct (str_contains "historical" s).
    - by destruct (existsb _ items).
    - unfold dict_has in H.
      destruct (dict_get "historical" fields) as [historical|] eqn:Hget;
        simpl in H; [|done].
      exists fields, historical. repeat split; [done|].
      destruct (price_table historical w1) as [[df1|e] w2]; by simplify_eq. }
  destruct Hdict as (fields & historical & -> & Hget & Htable).
  destruct (price_table_spec _ _ _ _ Htable)
    as (items & objs & stamps & -> & Hobjs & Hlen & Hs & Hn & Hst & Hl & Hp).
  split; [done|]. split; [done|].
  exists fields, items, objs, stamps.
  repeat split; try done.
  by rewrite (to_datetime_pure _ w w1).
Qed.

Lemma price_table_sorted_all_rows_witness :
  exists df,
    fst (fetch_historical_price "AAPL" None None (Some "k")
           (world0 [Response 200 two_rows_one_date]))
    = Ok (Some df)
    /\ Sorted index_le (rows df).
Proof.
  eexists. split; [vm_compute; reflexivity|].
  refine (proj1 (price_table_sorted_all_rows "AAPL" None None (Some "k")
                   (world0 [Response 200 two_rows_one_date]) _ _ _)).
  vm_compute. reflexivity.
Defined.

(** ** Payloads without data *)

(** X12. A falsy payload, an object without a "historical" field and an
    array of objects all give [None] from the price fetcher, without an
    exception. *)
Lemma missing_historical_is_none ticker from_date to_date api_key data
    (w w1 : World) :
  request (fst (price_query ticker from_date to_date))
          (snd (price_query ticker from_date to_date)) api_key w
  = (Ok data, w1) ->
  (truthy data = false
   \/ (exists fields, data = JDict fields
                      /\ dict_get "historical" fields = None)
   \/ (exists items objs, data = JList items
                          /\ all_objects items = Some objs)) ->
  fetch_historical_price ticker from_date to_date api_key w = (Ok None, w1).
Proof.
  intros Hreq H. unfold fetch_historical_price.
  destruct (price_query ticker from_date to_date) as [endpoint params].
  simpl in Hreq. unfold bind at 1. rewrite Hreq.
  unfold lacks_historical, bind, ret.
  destruct (truthy data) eqn:Ht; simpl; [|done].
  destruct H as [H|[(fields & -> & Hget)|(items & objs & -> & Hobjs)]].
  - done.
  - simpl. unfold dict_has, ret. by rewrite Hget.
  - simpl. unfold ret.
    assert (Hno : existsb (fun x => match x with
                                    | JStr s => String.eqb s "historical"
                                    | _ => false
                                    end) items = false).
    { clear Ht Hreq. revert objs Hobjs.
      induction items as [|x items IH]; intros objs Hobjs; [done|].
      unfold all_objects in *. simpl in *.
      destruct x; simpl in *; try done.
      destruct (mapM as_object items) as [objs'|] eqn:Hm; [|done].
      by apply (IH objs'). }
    by rewrite Hno.
Qed.

(** C8 at the failing input: a payload whose "historical" list is empty
    makes [fetch_historical_price] raise [KeyError], where the dividend
    fetcher, which tests [df.empty], gives [None] for the same payload, as
    the intraday fetcher does for a table without cells. *)
Theorem empty_history_raises :
  fst (fetch_historical_price "AAPL" None None (Some "k")
         (world0 [Response 200 empty_history]))
  = Raise (KeyError "date")
  /\ fst (fetch_historical_dividends "AAPL" (Some "k")
            (world0 [Response 200 empty_history]))
     = Ok None
  /\ fst (fetch_intraday_prices "AAPL" "1hour" (Some "2024-01-02")
            (Some "2024-01-03") false (Some "k")
            (world0 [Response 200 (JList [JDict []])]))
     = Ok None.
Proof. repeat split; vm_compute; reflexivity. Qed.

(** ** The requests that are sent *)

(** C10 fails on the code: the first request of [fetch_company_profile] is
    made to the endpoint [profile/{ticker}], braces included, with no
    parameters, whatever the ticker is; the statement fetchers, which call
    [format], put the ticker into the path. *)
Theorem profile_endpoint_ignores_ticker :
  forall (ticker : string) (api_key : option string) (w : World),
    calls (trace (snd (fetch_company_profile ticker api_key w)))
      !! length (calls (trace w))
    = Some ("profile/{ticker}", [])
    /\ fst (statement_primary "income-statement" "AAPL" "annual" 10)
       = "income-statement/AAPL".
Proof.
  intros ticker api_key w. split; [|reflexivity].
  assert (Hmore : exists more,
             calls (trace (snd (fetch_company_profile ticker api_key w)))
             = (calls (trace w)
                ++ ("profile/{ticker}", []) :: more)%list).
  { unfold fetch_company_profile, bind.
    pose proof (make_api_request_calls PROFILE_ENDPOINT [] api_key
                  MAX_RETRIES API_BASE_URL w) as Hc1.
    fold (request PROFILE_ENDPOINT [] api_key) in Hc1.
    destruct (request PROFILE_ENDPOINT [] api_key w) as [[d1|e] w1];
      simpl in Hc1; [|by exists []].
    destruct (truthy d1) eqn:Ht1; simpl.
    - rewrite Ht1. simpl. rewrite stateless_profile_table. by exists [].
    - pose proof (make_api_request_calls "profile" [("symbol", JStr ticker)]
                    api_key MAX_RETRIES API_BASE_URL w1) as Hc2.
      fold (request "profile" [("symbol", JStr ticker)] api_key) in Hc2.
      destruct (request "profile" [("symbol", JStr ticker)] api_key w1)
        as [[d2|e] w2]; simpl in Hc2 |- *.
      + exists [("profile", [("symbol", JStr ticker)])].
        destruct (truthy d2); simpl; [rewrite stateless_profile_table|];
          by rewrite Hc2, Hc1, <- app_assoc.
      + exists [("profile", [("symbol", JStr ticker)])].
        by rewrite Hc2, Hc1, <- app_assoc. }
  destruct Hmore as [more ->].
  by rewrite lookup_app_r, Nat.sub_diag.
Qed.

(** The GET of that first request, for two tickers. *)
Example profile_url_AAPL_MSFT :
  last (List.filter is_get
          (trace (snd (fetch_company_profile "AAPL" (Some "k") (world0 [])))))
  = Some (EvGet "https://financialmodelingprep.com/api/v3/profile/{ticker}"
                [("apikey", JStr "k")])
  /\ last (List.filter is_get
             (trace (snd (fetch_company_profile "MSFT" (Some "k")
                            (world0 [])))))
     = Some (EvGet "https://financialmodelingprep.com/api/v3/profile/{ticker}"
                   [("apikey", JStr "k")]).
Proof. split; vm_compute; reflexivity. Qed.

(** ** The date range of an intraday request *)

Lemma days_before_year_nonneg y : 1 <= y -> 0 <= Date.days_before_year y.
Proof.
  unfold Date.days_before_year. intros H. cbv zeta.
  pose proof (Z.div_le_compat_l (y - 1) 4 100 ltac:(lia) ltac:(lia)).
  assert (0 <= (y - 1) / 400) by (apply Z.div_pos; lia).
  lia.
Qed.

Lemma days_before_month_nonneg y m :
  1 <= m <= 12 -> 0 <= Date.days_before_month y m.
Proof.
  intros H. unfold Date.days_before_month.
  assert (Hm : m = 1 \/ m = 2 \/ m = 3 \/ m = 4 \/ m = 5 \/ m = 6 \/ m = 7
               \/ m = 8 \/ m = 9 \/ m = 10 \/ m = 11 \/ m = 12) by lia.
  destruct (Date.is_leap y);
    repeat (destruct Hm as [->|Hm]; [vm_compute; discriminate|]);
    subst; vm_compute; discriminate.
Qed.

Lemma strptime_pos s n : Date.strptime s = Some n -> 1 <= n.
Proof.
  unfold Date.strptime. intros H.
  repeat (case_match; try done). simplify_eq.
  unfold Date.valid_ymd in *.
  repeat match goal with
         | H : _ && _ = true |- _ => apply andb_prop in H as [? ?]
         end.
  bool_to_Z. unfold Date.ymd2ord.
  pose proof (days_before_year_nonneg z ltac:(lia)).
  pose proof (days_before_month_nonneg z z0 ltac:(lia)).
  lia.
Qed.

Lemma strptime_given s n : Date.strptime s = Some n -> given (Some s) = true.
Proof. by destruct s. Qed.

(** The fetcher sends an intraday range as it is given. *)
Lemma intraday_range_sent_as_given ticker from_date to_date api_key w :
  given (Some from_date) = true ->
  given (Some to_date) = true ->
  calls (trace (snd (fetch_intraday_prices ticker "1hour" (Some from_date)
                       (Some to_date) false api_key w)))
  = (calls (trace w)
     ++ [(("historical-chart/1hour/" ++ ticker)%string,
          [("from", JStr from_date); ("to", JStr to_date);
           ("extended", JStr "false")])])%list.
Proof.
  intros Hf Ht. unfold fetch_intraday_prices. rewrite Hf, Ht. simpl.
  unfold bind at 1.
  match goal with
  | |- context [request ?e ?p api_key w] =>
      pose proof (make_api_request_calls e p api_key MAX_RETRIES
                    API_BASE_URL w) as Hc;
      fold (request e p api_key) in Hc;
      destruct (request e p api_key w) as [[data|e'] w1]
  end; simpl in Hc; [|done].
  destruct (truthy data); simpl; [|done].
  match goal with
  | |- context [snd (?m w1)] =>
      assert (Hs : stateless m); [|rewrite Hs; exact Hc]
  end.
  apply stateless_bind; [apply stateless_DataFrame_of|intros df].
  apply stateless_if; [apply stateless_ret|].
  auto 8 with stateless_db.
Qed.

(** C9 at the failing input: [fetch_ticker_data] with the intraday flag and
    the range 2024-01-01 to 2024-02-01 requests the intraday bars from
    2024-01-01, the whole 31 days, where [handle_fetch] on the same range
    goes on with the from-date 2024-01-25. *)
Theorem intraday_range_not_clamped :
  calls (trace (snd (fetch_ticker_data "AAPL" (Some "k") "annual" 10
                       true false (Some "2024-01-01") (Some "2024-02-01")
                       month_of_intraday)))
    !! 1%nat
  = Some ("historical-chart/1hour/AAPL",
          [("from", JStr "2024-01-01"); ("to", JStr "2024-02-01");
           ("extended", JStr "false")])
  /\ fst (Cli.date_range (Some "2024-01-01") (Some "2024-02-01") true
            month_of_intraday)
     = Ok (Some (Some "2024-01-25", Some "2024-02-01")).
Proof. split; vm_compute; reflexivity. Qed.

(** ** The limiter over a run *)

(** C2 at the failing input.  Quota 5 per minute; requests recorded 0.1 s,
    50.2 s, 51.3 s, 52.4 s and 53.5 s after the start.  The sixth
    acquisition waits until the oldest request is 61 s old, and then the
    limiter replaces its list of timestamps by the present instant alone:
    the four requests of seconds 50 to 54 are forgotten, the next four
    acquisitions pass at once, and the 60 seconds that end 61.5 s after the
    start hold 8 recorded requests. *)
Theorem minute_quota_overrun :
  let w := limiter_world 5 250 0 noon0 noon0 in
  fst (run_ops burst_after_wait w) = Ok tt
  /\ in_window (noon0 + 61500000)
       (record_times (trace (snd (run_ops burst_after_wait w)))) = 8
  /\ ~ within_minute_quota 5
        (record_times (trace (snd (run_ops burst_after_wait w)))).
Proof.
  intros w. split; [vm_compute; reflexivity|].
  assert (H8 : in_window (noon0 + 61500000)
                 (record_times (trace (snd (run_ops burst_after_wait w)))) = 8)
    by (vm_compute; reflexivity).
  split; [exact H8|].
  intros Hq. specialize (Hq (noon0 + 61500000)). rewrite H8 in Hq. lia.
Qed.

(** ** The daily counter *)

(** X4. [_reset_if_new_day] resets exactly when 24 hours have passed since
    the reference instant. *)
Lemma reset_after_24_hours (w : World) :
  let r := rate_limiter w in
  let r' := rate_limiter (snd (RateLimiter._reset_if_new_day w)) in
  (DAY <= clock w - day_start_time r ->
   daily_request_count r' = 0 /\ day_start_time r' = clock w)
  /\ (clock w - day_start_time r < DAY -> r' = r).
Proof.
  unfold RateLimiter._reset_if_new_day, RateLimiter.timedelta_days.
  unfold_limiter. simpl.
  destruct (0 <? (clock w - day_start_time (rate_limiter w)) / DAY) eqn:Hd;
    simpl; bool_to_Z.
  - split; [done|]. intros Hlt.
    assert ((clock w - day_start_time (rate_limiter w)) / DAY <= 0); [|lia].
    destruct (Z_lt_le_dec (clock w - day_start_time (rate_limiter w)) 0).
    + apply Z.lt_le_incl, Z.div_lt_upper_bound; [done|]. lia.
    + rewrite Z.div_small; lia.
  - split; [|done]. intros Hge.
    assert (1 <= (clock w - day_start_time (rate_limiter w)) / DAY); [|lia].
    apply Z.div_le_lower_bound; [done|lia].
Qed.

(** C3 at the failing input: a limiter whose reference instant is 23:00 and
    that has counted 5 requests is asked for clearance at 01:00 of the next
    calendar day.  The date has advanced, only two hours have passed, and
    the counter is not reset. *)
Theorem day_boundary_missed :
  let w := limiter_world 5 250 5 eleven_pm one_am_next_day in
  RateLimiter.date_of (day_start_time (rate_limiter w))
  < RateLimiter.date_of (clock w)
  /\ daily_request_count
       (rate_limiter (snd (RateLimiter._reset_if_new_day w))) = 5
  /\ daily_request_count
       (rate_limiter (snd (RateLimiter.wait_if_needed w))) = 5
  /\ day_start_time (rate_limiter (snd (RateLimiter.wait_if_needed w)))
     = eleven_pm.
Proof. intros w. repeat split; vm_compute; reflexivity. Qed.

(** ** Finite maps as association lists *)

Section assoc.
Context {V : Type}.
Implicit Types (d : list (string * V)).

Lemma assoc_set_keys k v d x :
  x ∈ map fst (assoc_set k v d) -> x = k \/ x ∈ map fst d.
Proof.
  induction d as [|[k' v'] d IH]; simpl.
  - intros ?%list_elem_of_singleton. by left.
  - destruct (String.eqb k k') eqn:E; simpl.
    + apply String.eqb_eq in E as <-.
      intros [->|?]%elem_of_cons; [by left|right; by right].
    + intros [->|Hin]%elem_of_cons; [right; by left|].
      destruct (IH Hin); [by left|right; by right].
Qed.

Lemma assoc_set_NoDup k v d :
  NoDup (map fst d) -> NoDup (map fst (assoc_set k v d)).
Proof.
  induction d as [|[k' v'] d IH]; simpl; intros Hnd.
  - repeat constructor. by intros ?%elem_of_nil.
  - apply NoDup_cons in Hnd as [Hk' Hnd].
    destruct (String.eqb k k') eqn:E; simpl.
    + apply String.eqb_eq in E as <-. by apply NoDup_cons.
    + apply NoDup_cons. split; [|by apply IH].
      intros Hin. apply assoc_set_keys in Hin as [->|?]; [|done].
      by rewrite String.eqb_refl in E.
Qed.

Lemma assoc_set_Forall (P : string * V -> Prop) k v d :
  P (k, v) -> Forall P d -> Forall P (assoc_set k v d).
Proof.
  intros Hkv. induction 1 as [|[k' v'] d Hx Hd IH]; simpl.
  - by repeat constructor.
  - destruct (String.eqb k k'); by constructor.
Qed.
End assoc.

Lemma dict_get_set_eq k v (d : list (string * json)) :
  dict_get k (dict_set k v d) = Some v.
Proof.
  unfold dict_set. induction d as [|[k' v'] d IH]; simpl.
  - by rewrite String.eqb_refl.
  - destruct (String.eqb k k') eqn:E; simpl; rewrite ?E, ?String.eqb_refl; done.
Qed.

(** ** The waits of the limiter *)

Lemma day_remaining (t : Z) :
  0 < RateLimiter.date_of t * DAY + DAY - t <= DAY.
Proof.
  unfold RateLimiter.date_of.
  pose proof (Z.mod_pos_bound t DAY eq_refl) as Hm.
  pose proof (Z.div_mod t DAY ltac:(done)) as Hd.
  lia.
Qed.

Ltac limiter_arith :=
  bool_to_Z;
  repeat match goal with
         | H : context [RateLimiter.date_of ?t] |- _ =>
             lazymatch goal with
             | _ : 0 < RateLimiter.date_of t * DAY + DAY - t <= DAY |- _ => fail
             | _ => pose proof (day_remaining t)
             end
         | |- context [RateLimiter.date_of ?t] =>
             lazymatch goal with
             | _ : 0 < RateLimiter.date_of t * DAY + DAY - t <= DAY |- _ => fail
             | _ => pose proof (day_remaining t)
             end
         end;
  try match goal with
      | H : context [?a mod _] |- _ => pose proof (jitter_range a)
      | |- context [?a mod _] => pose proof (jitter_range a)
      end;
  change (usec / 10) with 100000 in *; change (usec / 2) with 500000 in *;
  unfold MINUTE, usec in *; try lia.

(** X1. With a per-minute quota above zero, [wait_if_needed] returns
    without an exception, and never before a tenth of a second has passed:
    the wait for the next day is longer than 10 seconds, and every other
    branch ends in the jitter of at least 0.1 seconds. *)
Theorem clearance_delays_caller (w : World) :
  0 < requests_per_min (rate_limiter w) ->
  fst (RateLimiter.wait_if_needed w) = Ok tt
  /\ clock w + usec / 10 <= clock (snd (RateLimiter.wait_if_needed w)).
Proof.
  intros Hpm. split; [by apply wait_if_needed_ok|].
  unfold_limiter.
  repeat (case_match; simpl in *; simplify_eq); try done.
  all: simpl; limiter_arith.
Qed.

Lemma clearance_delays_caller_witness :
  fst (RateLimiter.wait_if_needed (world0 [])) = Ok tt
  /\ clock (world0 []) + usec / 10
     <= clock (snd (RateLimiter.wait_if_needed (world0 []))).
Proof. exact (clearance_delays_caller (world0 []) eq_refl). Defined.

Lemma filter_recent_all (P : Z -> Prop) `{!forall x, Decision (P x)}
    (l : list Z) :
  Forall P l -> filter P l = l.
Proof.
  induction 1 as [|x l Hx Hl IH]; [done|].
  rewrite filter_cons. destruct (decide (P x)); [by rewrite IH|done].
Qed.

Lemma no_reset_within_24_hours (t start : Z) :
  t - start < DAY -> (0 <? RateLimiter.timedelta_days (t - start)) = false.
Proof.
  intros H. apply Z.ltb_ge. unfold RateLimiter.timedelta_days.
  destruct (Z_lt_le_dec (t - start) 0).
  - apply Z.lt_le_incl, Z.div_lt_upper_bound; [done|]. lia.
  - rewrite Z.div_small; lia.
Qed.

(** X2. When the daily counter has reached the daily quota (and no 24 hours
    have passed since the reference instant), [wait_if_needed] sleeps once,
    until 10 seconds after the next midnight, and returns with the counter
    at zero, no timestamps and the instant after the sleep as reference
    instant; it draws no jitter and leaves quotas, configuration, responses
    and generator as they were. *)
Theorem daily_quota_sleeps_past_midnight (w : World) :
  let r := rate_limiter w in
  clock w - day_start_time r < DAY ->
  requests_per_day r <= daily_request_count r ->
  let midnight := (RateLimiter.date_of (clock w) + 1) * DAY in
  RateLimiter.wait_if_needed w
  = (Ok tt,
     mkWorld (midnight + 10 * usec)
             (mkRateLimiter (requests_per_min r) (requests_per_day r)
                            0 [] (midnight + 10 * usec))
             (config w) (responses w) (rng w)
             (EvSleep DailyWait (midnight - clock w + 10 * usec) :: trace w)).
Proof.
  intros r Hday Hfull midnight.
  unfold_limiter. simpl. fold r.
  rewrite (no_reset_within_24_hours _ _ Hday). simpl. fold r.
  destruct (requests_per_day r <=? daily_request_count r) eqn:Hq;
    [|bool_to_Z; lia].
  pose proof (day_remaining (clock w)) as Hrem.
  assert (Heq : RateLimiter.date_of (clock w) * DAY + DAY - clock w + 10 * usec
                = midnight - clock w + 10 * usec) by (unfold midnight; lia).
  simpl. rewrite Heq.
  destruct (midnight - clock w + 10 * usec <? 0) eqn:Hneg;
    [bool_to_Z; unfold usec, midnight in *; lia|].
  simpl.
  replace (clock w + (midnight - clock w + 10 * usec))
    with (midnight + 10 * usec) by lia.
  reflexivity.
Qed.

Lemma daily_quota_sleeps_past_midnight_witness :
  trace (snd (RateLimiter.wait_if_needed
                (limiter_world 5 250 250 noon0 noon0)))
  = [EvSleep DailyWait (12 * 3600 * usec + 10 * usec)].
Proof.
  exact (f_equal (fun p => trace (snd p))
           (daily_quota_sleeps_past_midnight
              (limiter_world 5 250 250 noon0 noon0)
              eq_refl ltac:(by vm_compute))).
Defined.

(** X3. When the timestamps of the last 60 seconds fill the per-minute
    quota (and the daily quota is not used up), [wait_if_needed] sleeps
    until one second after the oldest of them is 60 seconds old, keeps the
    instant after that sleep as the only timestamp, and then sleeps the
    jitter of 0.1 to 0.5 seconds; the daily counter and the reference
    instant stay.  Older timestamps that the limiter still holds do not
    count: they are dropped first. *)
Theorem full_window_sleeps_out_oldest (w : World) :
  let r := rate_limiter w in
  let recent := filter (fun ts => clock w - MINUTE < ts)
                       (minute_request_timestamps r) in
  clock w - day_start_time r < DAY ->
  daily_request_count r < requests_per_day r ->
  recent <> [] ->
  requests_per_min r <= Z.of_nat (length recent) ->
  exists oldest jitter,
    Forall (fun ts => oldest <= ts) recent
    /\ oldest ∈ recent
    /\ usec / 10 <= jitter <= usec / 2
    /\ let wait_time := MINUTE - (clock w - oldest) + 1 * usec in
       fst (RateLimiter.wait_if_needed w) = Ok tt
       /\ trace (snd (RateLimiter.wait_if_needed w))
          = EvSleep Jitter jitter :: EvSleep MinuteWait wait_time :: trace w
       /\ clock (snd (RateLimiter.wait_if_needed w))
          = oldest + MINUTE + 1 * usec + jitter
       /\ rate_limiter (snd (RateLimiter.wait_if_needed w))
          = mkRateLimiter (requests_per_min r) (requests_per_day r)
                          (daily_request_count r) [clock w + wait_time]
                          (day_start_time r).
Proof.
  intros r recent Hday Hcount Hne Hfull.
  assert (Hrecent : Forall (fun ts => clock w - MINUTE < ts) recent).
  { apply Forall_forall. intros ts Hts.
    by apply list_elem_of_filter in Hts as [? _]. }
  destruct recent as [|x xs] eqn:Hts; [done|].
  exists (foldr Z.min x xs).
  assert (Hmin : Forall (fun ts => foldr Z.min x xs <= ts) (x :: xs)
                 /\ foldr Z.min x xs ∈ x :: xs).
  { clear. induction xs as [|y ys [IH1 IH2]]; simpl.
    - split; [by constructor|by left].
    - inversion_clear IH1 as [|? ? Hx Hys]. split.
      + constructor; [lia|]. constructor; [lia|].
        eapply Forall_impl; [exact Hys|]. simpl. lia.
      + destruct (Z.min_spec y (foldr Z.min x ys)) as [[_ ->]|[_ ->]].
        * right. left.
        * apply elem_of_cons in IH2 as [->|?]; [left|right; by right]. }
  destruct Hmin as [Hle Hin].
  assert (Hold : clock w - MINUTE < foldr Z.min x xs).
  { rewrite Forall_forall in Hrecent. by apply Hrecent. }
  unfold_limiter. simpl. fold r.
  rewrite (no_reset_within_24_hours _ _ Hday). simpl. fold r.
  fold recent. rewrite Hts. simpl.
  destruct (requests_per_day r <=? daily_request_count r) eqn:Hq;
    [bool_to_Z; lia|].
  simpl length in Hfull. simpl.
  destruct (requests_per_min r <=? Z.of_nat (S (length xs))) eqn:Hf;
    [|bool_to_Z; lia].
  simpl.
  destruct (clock w - foldr Z.min x xs <? MINUTE) eqn:Hs; [|bool_to_Z; lia].
  destruct (MINUTE - (clock w - foldr Z.min x xs) + 1 * usec <? 0) eqn:Hn;
    [bool_to_Z; unfold usec in *; lia|].
  simpl.
  destruct (rng w) as [|z zs]; simpl.
  - exists (usec / 10). repeat split; try done.
    all: change (usec / 10) with 100000; change (usec / 2) with 500000;
      unfold MINUTE, usec; lia.
  - pose proof (jitter_range z).
    destruct (usec / 10 + z mod (usec / 2 - usec / 10 + 1) <? 0) eqn:Hj;
      [bool_to_Z; change (usec / 10) with 100000 in *; lia|].
    exists (usec / 10 + z mod (usec / 2 - usec / 10 + 1)).
    simpl. repeat split; try done; unfold MINUTE, usec in *; lia.
Qed.

Lemma full_window_sleeps_out_oldest_witness :
  exists oldest jitter,
    clock (snd (RateLimiter.wait_if_needed
                  (mkWorld noon0
                     (mkRateLimiter 2 250 3
                        [noon0 - 90 * usec; noon0 - 30 * usec;
                         noon0 - 20 * usec] noon0)
                     (mkConfig "demo" None) [] [] [])))
    = oldest + MINUTE + 1 * usec + jitter.
Proof.
  destruct (full_window_sleeps_out_oldest
              (mkWorld noon0
                 (mkRateLimiter 2 250 3
                    [noon0 - 90 * usec; noon0 - 30 * usec;
                     noon0 - 20 * usec] noon0)
                 (mkConfig "demo" None) [] [] [])
              eq_refl eq_refl
              ltac:(by vm_compute) ltac:(by vm_compute))
    as (oldest & jitter & _ & _ & _ & _ & _ & Hclock & _).
  exists oldest, jitter. exact Hclock.
Defined.

Lemma reset_after_24_hours_witness :
  daily_request_count
    (rate_limiter (snd (RateLimiter._reset_if_new_day
                          (limiter_world 5 250 7 noon0 (noon0 + DAY)))))
  = 0.
Proof.
  exact (proj1 (proj1 (reset_after_24_hours
                         (limiter_world 5 250 7 noon0 (noon0 + DAY)))
                  ltac:(by vm_compute))).
Defined.

Lemma wait_if_needed_zero_quota (w : World) :
  let r := rate_limiter w in
  requests_per_min r <= 0 ->
  minute_request_timestamps r = [] ->
  0 < requests_per_day r ->
  daily_request_count r < requests_per_day r ->
  exists w',
    RateLimiter.wait_if_needed w
    = (Raise (ValueError "min() arg is an empty sequence"), w')
    /\ trace w' = trace w /\ responses w' = responses w
    /\ clock w' = clock w.
Proof.
  intros r Hpm Hts Hpd Hcount. subst r.
  unfold_limiter. simpl. rewrite Hts. simpl.
  repeat (case_match; simpl in *; simplify_eq);
    bool_to_Z; try lia;
    try match goal with
        | H : filter _ (minute_request_timestamps _) = _ :: _ |- _ =>
            rewrite Hts in H; done
        end;
    (eexists; split; [reflexivity|done]).
Qed.

(** X5. A configured per-minute quota of zero (or less) makes the first
    request of a freshly configured limiter fail: [wait_if_needed] takes
    the minimum of an empty list of timestamps, the [ValueError] is none of
    the exceptions the retry loop catches, and [make_api_request] raises
    it before anything is sent. *)
Theorem zero_quota_request_raises :
  forall endpoint params api_key max_retries base_url (w : World),
    let r := rate_limiter (configured w) in
    requests_per_min r <= 0 ->
    minute_request_timestamps r = [] ->
    0 < requests_per_day r ->
    daily_request_count r < requests_per_day r ->
    resolved_key api_key w <> "" ->
    0 < max_retries ->
    let run := make_api_request endpoint params api_key max_retries base_url w in
    fst run = Raise (ValueError "min() arg is an empty sequence")
    /\ trace (snd run) = EvCall endpoint params :: trace w
    /\ responses (snd run) = responses w.
Proof.
  intros endpoint params api_key max_retries base_url w r Hpm Hts Hpd Hcount
         Hkey Hn run.
  unfold run. rewrite make_api_request_unfold.
  destruct (String.eqb_spec (resolved_key api_key w) ""); [done|].
  destruct (configured_frame w) as (Hresp & _ & Htr & _).
  unfold py_range.
  destruct (Z.to_nat max_retries) as [|k] eqn:Hk; [lia|]. simpl seq.
  simpl retry_loop. unfold bind, api_attempt, bind.
  destruct (wait_if_needed_zero_quota
              (log (EvCall endpoint params) (configured w)))
    as (w' & -> & Ht & Hr & _); try done.
  simpl. rewrite Ht, Hr. simpl. by rewrite Htr, Hresp.
Qed.

Lemma zero_quota_request_raises_witness :
  fst (make_api_request "profile" [] (Some "k") 3 API_BASE_URL
         (mkWorld noon0 (mkRateLimiter 5 250 0 [] noon0)
                  (mkConfig "demo" (Some (Some 0, None))) [] [] []))
  = Raise (ValueError "min() arg is an empty sequence").
Proof.
  exact (proj1 (zero_quota_request_raises "profile" [] (Some "k") 3
                  API_BASE_URL
                  (mkWorld noon0 (mkRateLimiter 5 250 0 [] noon0)
                           (mkConfig "demo" (Some (Some 0, None))) [] [] [])
                  ltac:(by vm_compute) eq_refl eq_refl eq_refl
                  ltac:(by vm_compute) eq_refl)).
Defined.

(** ** Re-reading the configured quotas *)

(** X6. [configure_rate_limiter] is idempotent.  With a "rate_limit" entry
    in the configuration, the limiter afterwards has the configured quotas,
    5 per minute and 250 per day standing in for a missing one; a limiter
    that has them already is left as it is, with its counter and
    timestamps, and any other is replaced by a fresh one that has counted
    nothing.  Without the entry nothing changes. *)
Theorem configure_applies_quota (w : World) :
  let old := rate_limiter w in
  let new := rate_limiter (configured w) in
  configured (configured w) = configured w
  /\ match cfg_rate_limit (config w) with
     | None => configured w = w
     | Some (pm, pd) =>
         let per_min := default DEFAULT_REQUESTS_PER_MIN pm in
         let per_day := default DEFAULT_REQUESTS_PER_DAY pd in
         requests_per_min new = per_min
         /\ requests_per_day new = per_day
         /\ (requests_per_min old = per_min ->
             requests_per_day old = per_day -> configured w = w)
         /\ (requests_per_min old <> per_min
             \/ requests_per_day old <> per_day ->
             new = mkRateLimiter per_min per_day 0 [] (clock w))
     end.
Proof.
  intros old new. unfold new, old, configured, configure_rate_limiter.
  destruct (cfg_rate_limit (config w)) as [[pm pd]|] eqn:Hcfg; simpl;
    [|by rewrite Hcfg].
  set (per_min := default DEFAULT_REQUESTS_PER_MIN pm).
  set (per_day := default DEFAULT_REQUESTS_PER_DAY pd).
  destruct (Z.eqb_spec per_min (requests_per_min (rate_limiter w))) as [E1|N1];
    destruct (Z.eqb_spec per_day (requests_per_day (rate_limiter w)))
      as [E2|N2]; simpl.
  all: rewrite Hcfg; fold per_min per_day; simpl;
    try rewrite <- E1; try rewrite <- E2; rewrite ?Z.eqb_refl; simpl;
    repeat split; try done; try congruence;
    try (intros [?|?]; congruence).
Qed.

Lemma configure_applies_quota_witness :
  requests_per_min
    (rate_limiter
       (configured (mkWorld noon0 (mkRateLimiter 5 250 3 [] noon0)
                            (mkConfig "demo" (Some (Some 2, None)))
                            [] [] [])))
  = 2
  /\ daily_request_count
       (rate_limiter
          (configured (mkWorld noon0 (mkRateLimiter 5 250 3 [] noon0)
                               (mkConfig "demo" (Some (Some 2, None)))
                               [] [] [])))
     = 0.
Proof.
  pose proof (proj2 (configure_applies_quota
                       (mkWorld noon0 (mkRateLimiter 5 250 3 [] noon0)
                                (mkConfig "demo" (Some (Some 2, None)))
                                [] [] [])))
    as (Hmin & _ & _ & Hnew).
  split; [exact Hmin|].
  rewrite Hnew; [reflexivity|]. left. by vm_compute.
Defined.

(** ** What a call of the executor sends *)

Ltac new_events :=
  first [ exists []; split; [reflexivity|]
        | eexists [_]; split; [reflexivity|]
        | eexists [_; _]; split; [reflexivity|]
        | eexists [_; _; _]; split; [reflexivity|] ].

Lemma wait_if_needed_trace (w : World) :
  exists new,
    trace (snd (RateLimiter.wait_if_needed w)) = (new ++ trace w)%list
    /\ Forall (fun e => is_limiter_sleep e = true) new.
Proof.
  unfold_limiter.
  repeat (case_match; simpl in *; simplify_eq);
    new_events; by repeat constructor.
Qed.

Lemma send_and_classify_trace url params attempt (w : World) :
  exists new,
    trace (snd (send_and_classify url params attempt w)) = (new ++ trace w)%list
    /\ sent_by url params new
    /\ count is_get new = 1%nat.
Proof.
  unfold send_and_classify, requests_get. unfold_limiter. simpl.
  repeat (case_match; simpl in *; simplify_eq);
    new_events; unfold sent_by, count; simpl;
    repeat split; repeat constructor; try done; try lia.
Qed.

Lemma count_nil_of_sleeps p new :
  quiet p -> Forall (fun e => is_limiter_sleep e = true) new ->
  count p new = 0%nat.
Proof.
  intros Hq. induction 1 as [|e new He _ IH]; [done|].
  unfold count in *. simpl. by rewrite (Hq e He).
Qed.

Lemma sent_by_app url params new1 new2 :
  sent_by url params new1 -> sent_by url params new2 ->
  sent_by url params (new1 ++ new2).
Proof.
  intros (G1 & C1 & R1) (G2 & C2 & R2). repeat split.
  - by apply Forall_app.
  - by apply Forall_app.
  - rewrite !count_app. lia.
Qed.

Lemma sent_by_sleeps url params new :
  Forall (fun e => is_limiter_sleep e = true) new -> sent_by url params new.
Proof.
  intros H. repeat split.
  - rewrite Forall_forall in *. intros e He. specialize (H e He).
    by destruct e as [[]| | |].
  - rewrite Forall_forall in *. intros e He. specialize (H e He).
    by destruct e as [[]| | |].
  - rewrite (count_nil_of_sleeps _ _ quiet_record H). lia.
Qed.

Lemma api_attempt_trace url params attempt (w : World) :
  exists new,
    trace (snd (api_attempt url params attempt w)) = (new ++ trace w)%list
    /\ sent_by url params new
    /\ (count is_get new <= 1)%nat.
Proof.
  unfold api_attempt, bind.
  destruct (wait_if_needed_trace w) as (new1 & Ht1 & Hs1).
  destruct (RateLimiter.wait_if_needed w) as [[[]|e] w1]; simpl in *.
  - destruct (send_and_classify_trace url params attempt w1)
      as (new2 & Ht2 & Hs2 & Hg2).
    exists (new2 ++ new1)%list. rewrite Ht2, Ht1, app_assoc.
    split; [done|]. split.
    + apply sent_by_app; [done|by apply sent_by_sleeps].
    + rewrite count_app, Hg2, (count_nil_of_sleeps _ _ quiet_get Hs1). lia.
  - exists new1. split; [done|]. split; [by apply sent_by_sleeps|].
    rewrite (count_nil_of_sleeps _ _ quiet_get Hs1). lia.
Qed.

Lemma retry_loop_trace url params attempts (w : World) :
  exists new,
    trace (snd (retry_loop url params attempts w)) = (new ++ trace w)%list
    /\ sent_by url params new
    /\ (count is_get new <= length attempts)%nat.
Proof.
  revert w. induction attempts as [|a attempts IH]; intros w.
  - exists []. repeat split; by try constructor.
  - simpl. unfold bind.
    destruct (api_attempt_trace url params a w) as (new1 & Ht1 & Hs1 & Hg1).
    destruct (api_attempt url params a w) as [[[v|]|e] w1]; simpl in *.
    + exists new1. repeat split; try apply Hs1; [done|lia].
    + destruct (IH w1) as (new2 & Ht2 & Hs2 & Hg2).
      exists (new2 ++ new1)%list. rewrite Ht2, Ht1, app_assoc.
      split; [done|]. split; [by apply sent_by_app|].
      rewrite count_app. lia.
    + exists new1. repeat split; try apply Hs1; [done|lia].
Qed.

(** X7. Whatever the server answers and whatever the limiter does, a call
    of [make_api_request] sends at most [max_retries] GET requests, all of
    them to [base_url/endpoint] with the caller's parameters in which
    "apikey" is the resolved key, and records no more requests than it
    sends. *)
Theorem requests_bounded_and_keyed :
  forall endpoint params api_key max_retries base_url (w : World),
    let url := (base_url ++ "/" ++ endpoint)%string in
    let sent := dict_set "apikey" (JStr (resolved_key api_key w)) params in
    dict_get "apikey" sent = Some (JStr (resolved_key api_key w))
    /\ exists new,
        trace (snd (make_api_request endpoint params api_key max_retries
                      base_url w))
        = (new ++ EvCall endpoint params :: trace w)%list
        /\ (count is_get new <= Z.to_nat max_retries)%nat
        /\ (count is_record new <= count is_get new)%nat
        /\ Forall (fun e => is_get e = true -> e = EvGet url sent) new.
Proof.
  intros endpoint params api_key max_retries base_url w url sent.
  split; [apply dict_get_set_eq|].
  rewrite make_api_request_unfold.
  destruct (configured_frame w) as (_ & _ & Htr & _).
  case_match.
  - exists []. simpl. rewrite Htr. unfold count. simpl.
    repeat split; try lia. constructor.
  - destruct (retry_loop_trace url sent (py_range max_retries)
                (log (EvCall endpoint params) (configured w)))
      as (new & Ht & (Hg & _ & Hr) & Hn).
    exists new. fold url sent. rewrite Ht. simpl. rewrite Htr.
    unfold py_range in Hn. rewrite length_seq in Hn. done.
Qed.

(** ** Backoff *)

Lemma backoff_sleeps_visible t : backoff_sleeps (visible t) = backoff_sleeps t.
Proof.
  induction t as [|e t IH]; [done|].
  unfold visible in *. simpl.
  destruct e as [[]| | |]; simpl; by rewrite ?IH.
Qed.

Lemma backoff_sleeps_app t1 t2 :
  backoff_sleeps (t1 ++ t2) = (backoff_sleeps t1 ++ backoff_sleeps t2)%list.
Proof.
  induction t1 as [|e t1 IH]; [done|].
  simpl. destruct e as [[]| | |]; simpl; by rewrite ?IH.
Qed.

Lemma api_attempt_undecodable url params attempt status rest (w : World) :
  0 < requests_per_min (rate_limiter w) ->
  responses w = Undecodable status true :: rest ->
  is_http_error status = false ->
  exists w' t,
    api_attempt url params attempt w = (Ok Continue, w')
    /\ responses w' = rest
    /\ visible (trace w')
       = ([EvSleep BackoffNetwork (backoff attempt); EvRecord t;
           EvGet url params] ++ visible (trace w))%list.
Proof.
  intros Hpm Hr Herr.
  unfold api_attempt, bind.
  pose proof (wait_if_needed_ok w Hpm) as Hok.
  destruct (wait_if_needed_frame w) as (Hresp & _ & _ & _ & Hvis).
  destruct (RateLimiter.wait_if_needed w) as [res w1]; simpl in *. subst res.
  unfold send_and_classify, requests_get, bind. simpl. rewrite Hresp, Hr.
  unfold_limiter. simpl. rewrite Herr. simpl.
  pose proof (backoff_pos attempt) as Hb.
  destruct (backoff attempt <? 0) eqn:Hneg; [bool_to_Z; lia|].
  eexists _, _. split; [reflexivity|]. simpl. split; [done|].
  unfold visible in *. simpl. by rewrite Hvis.
Qed.

(** X8. With a key, a per-minute quota above zero and at least one attempt
    allowed, a first response whose status is not 429 ends the call when
    its body is JSON or its status is an error status: the result is the
    body, or [None] for an error status or an API error message; one
    request is sent and recorded, nothing is retried and no backoff is
    slept.  A first response without error status whose body is not JSON
    does not end the call where requests raises its own
    [JSONDecodeError]: the request is recorded, 12 seconds are slept and
    the loop goes on with the attempts that are left; where the
    [ValueError] of the json module is raised, it leaves
    [make_api_request] after the one recorded request. *)
Theorem first_response_decides :
  forall endpoint params api_key max_retries base_url (w : World)
         o status rest,
    resolved_key api_key w <> "" ->
    0 < requests_per_min (rate_limiter (configured w)) ->
    0 < max_retries ->
    responses w = o :: rest ->
    status_of o = Some status ->
    status <> 429 ->
    let url := (base_url ++ "/" ++ endpoint)%string in
    let sent := dict_set "apikey" (JStr (resolved_key api_key w)) params in
    let r := make_api_request endpoint params api_key max_retries base_url w in
    let once (res : result json) :=
      fst r = res
      /\ responses (snd r) = rest
      /\ count is_get (trace (snd r)) = S (count is_get (trace w))
      /\ count is_record (trace (snd r)) = S (count is_record (trace w))
      /\ count is_backoff (trace (snd r)) = count is_backoff (trace w) in
    match o with
    | Response _ data =>
        once (Ok (if is_http_error status || is_api_error data
                  then PyNone else data))
    | Undecodable _ as_request_exception =>
        if is_http_error status then once (Ok PyNone)
        else if as_request_exception then
          exists w1 t,
            r = retry_loop url sent (tail (py_range max_retries)) w1
            /\ responses w1 = rest
            /\ visible (trace w1)
               = ([EvSleep BackoffNetwork (12 * usec); EvRecord t;
                   EvGet url sent; EvCall endpoint params]
                    ++ visible (trace w))%list
        else once (Raise (ValueError "Expecting value"))
    | RequestError => True
    end.
Proof.
  intros endpoint params api_key max_retries base_url w o status rest
         Hkey Hpm Hn Hscript Hstatus H429 url sent r once.
  assert (Hrun : r = retry_loop url sent (py_range max_retries)
                       (log (EvCall endpoint params) (configured w))).
  { unfold r. rewrite make_api_request_unfold.
    by destruct (String.eqb_spec (resolved_key api_key w) ""). }
  destruct (configured_frame w) as (Hresp & _ & Htr & _).
  unfold py_range in *.
  destruct (Z.to_nat max_retries) as [|k] eqn:Hk; [lia|].
  change (seq 0 (S k)) with (0%nat :: seq 1 k) in *. cbn [tail].
  set (w0 := log (EvCall endpoint params) (configured w)) in *.
  assert (Hr0 : responses w0 = o :: rest) by (simpl; by rewrite Hresp).
  assert (Hv0 : visible (trace w0)
                = EvCall endpoint params :: visible (trace w)).
  { unfold w0. rewrite visible_log_call. by rewrite Htr. }
  assert (H429' : (status =? 429) = false) by (by apply Z.eqb_neq).
  assert (Honce : forall res w' t,
             r = (res, w') -> responses w' = rest ->
             visible (trace w')
             = ([EvRecord t; EvGet url sent] ++ visible (trace w0))%list ->
             once res).
  { intros res w' t Hres Hrest Hv. unfold once. rewrite Hres. simpl.
    rewrite Hv0 in Hv.
    assert (Hv' : visible (trace w')
                  = ([EvRecord t; EvGet url sent; EvCall endpoint params]
                       ++ visible (trace w))%list) by exact Hv.
    split; [done|]. split; [done|].
    by rewrite (count_step _ _ _ _ quiet_get Hv'),
      (count_step _ _ _ _ quiet_record Hv'),
      (count_step _ _ _ _ quiet_backoff Hv'). }
  destruct o as [s data| |s caught]; simpl in Hstatus; [|done|];
    injection Hstatus as ->.
  - destruct (retry_loop_step url sent 0%nat (seq 1 k) _ _ w0 Hpm Hr0)
      as (w' & t & d & Hstep & Hrest & _ & _ & Hv).
    rewrite <- Hrun in Hstep. simpl in Hstep, Hv. rewrite H429' in Hstep, Hv.
    rewrite andb_false_r in Hv.
    destruct (is_http_error status); simpl in *.
    + by apply (Honce _ w' t).
    + destruct (is_api_error data); by apply (Honce _ w' t).
  - destruct (is_http_error status) eqn:Herr.
    + destruct (retry_loop_step url sent 0%nat (seq 1 k) _ _ w0 Hpm Hr0)
        as (w' & t & d & Hstep & Hrest & _ & _ & Hv).
      rewrite <- Hrun in Hstep. simpl in Hstep, Hv.
      rewrite Herr, H429' in Hstep, Hv.
      by apply (Honce _ w' t).
    + destruct caught.
      * destruct (api_attempt_undecodable url sent 0%nat status rest w0
                    Hpm Hr0 Herr) as (w1 & t & Hstep & Hrest & Hv).
        exists w1, t. split; [|split; [done|]].
        -- rewrite Hrun. simpl. unfold bind. by rewrite Hstep.
        -- rewrite Hv, Hv0. reflexivity.
      * destruct (retry_loop_step url sent 0%nat (seq 1 k) _ _ w0 Hpm Hr0)
          as (w' & t & d & Hstep & Hrest & _ & _ & Hv).
        rewrite <- Hrun in Hstep. simpl in Hstep, Hv.
        rewrite Herr in Hstep, Hv.
        by apply (Honce _ w' t).
Qed.

Lemma first_response_decides_witness :
  fst (make_api_request "profile" [] (Some "k") 3 API_BASE_URL
         (world0 [Response 404 JNull; Response 200 (JList [JNum 1])]))
  = Ok PyNone
  /\ responses
       (snd (make_api_request "profile" [] (Some "k") 3 API_BASE_URL
               (world0 [Response 404 JNull; Response 200 (JList [JNum 1])])))
     = [Response 200 (JList [JNum 1])].
Proof.
  destruct (first_response_decides "profile" [] (Some "k") 3 API_BASE_URL
              (world0 [Response 404 JNull; Response 200 (JList [JNum 1])])
              (Response 404 JNull) 404 [Response 200 (JList [JNum 1])]
              ltac:(by vm_compute) eq_refl eq_refl eq_refl eq_refl
              ltac:(by vm_compute))
    as (H1 & H2 & _).
  split; [exact H1|exact H2].
Defined.

Lemma api_attempt_network_error url params attempt (w : World) :
  0 < requests_per_min (rate_limiter w) ->
  Forall (fun o => o = RequestError) (responses w) ->
  exists w',
    api_attempt url params attempt w = (Ok Continue, w')
    /\ responses w' = tail (responses w)
    /\ requests_per_min (rate_limiter w') = requests_per_min (rate_limiter w)
    /\ visible (trace w')
       = ([EvSleep BackoffNetwork (backoff attempt); EvGet url params]
            ++ visible (trace w))%list.
Proof.
  intros Hpm Hdown.
  destruct (responses w) as [|o rest] eqn:Hr.
  - unfold api_attempt, bind.
    pose proof (wait_if_needed_ok w Hpm) as Hok.
    destruct (wait_if_needed_frame w) as (Hresp & _ & Hmin & _ & Hvis).
    destruct (RateLimiter.wait_if_needed w) as [res w1]; simpl in *. subst res.
    unfold send_and_classify, requests_get, bind, sleep. simpl.
    rewrite Hresp, Hr. simpl.
    pose proof (backoff_pos attempt).
    destruct (backoff attempt <? 0) eqn:Hneg; [bool_to_Z; lia|].
    eexists. split; [reflexivity|]. simpl.
    repeat split; [congruence|done|]. unfold visible in *. simpl.
    by rewrite Hvis.
  - inversion_clear Hdown as [|? ? -> _].
    destruct (api_attempt_spec url params attempt RequestError rest w Hpm Hr)
      as (w' & t & d & Hrun & ? & _ & ? & Hv).
    exists w'. simpl in *. repeat split; try done.
    (* the duration of the sleep *)
    revert Hrun Hv. unfold api_attempt, bind.
    destruct (wait_if_needed_frame w) as (Hresp & _ & _ & _ & Hvis).
    destruct (RateLimiter.wait_if_needed w) as [[[]|e] w1]; simpl in *;
      [|done].
    unfold send_and_classify, requests_get, bind, sleep. simpl.
    rewrite Hresp, Hr. simpl.
    pose proof (backoff_pos attempt).
    destruct (backoff attempt <? 0) eqn:Hneg; [bool_to_Z; lia|].
    intros [= <-] _. unfold visible in *. simpl. by rewrite Hvis.
Qed.

Lemma retry_loop_network_down url params attempts (w : World) :
  0 < requests_per_min (rate_limiter w) ->
  Forall (fun o => o = RequestError) (responses w) ->
  let r := retry_loop url params attempts w in
  fst r = Ok PyNone
  /\ backoff_sleeps (trace (snd r))
     = (rev (map backoff attempts) ++ backoff_sleeps (trace w))%list
  /\ count is_get (trace (snd r))
     = (length attempts + count is_get (trace w))%nat
  /\ count is_record (trace (snd r)) = count is_record (trace w).
Proof.
  revert w. induction attempts as [|a attempts IH]; intros w Hpm Hdown; [done|].
  destruct (api_attempt_network_error url params a w Hpm Hdown)
    as (w' & Hrun & Hresp & Hmin & Hv).
  simpl. unfold bind. rewrite Hrun.
  assert (Hdown' : Forall (fun o => o = RequestError) (responses w')).
  { rewrite Hresp. destruct (responses w); [done|]. by inversion Hdown. }
  destruct (IH w' ltac:(lia) Hdown') as (H1 & H2 & H3 & H4).
  repeat split; [done| | |].
  - rewrite H2, <- (backoff_sleeps_visible (trace w')), Hv.
    simpl. rewrite backoff_sleeps_visible. by rewrite <- app_assoc.
  - rewrite H3, (count_step _ _ _ _ quiet_get Hv). simpl. lia.
  - by rewrite H4, (count_step _ _ _ _ quiet_record Hv).
Qed.

Lemma backoff_value (k : nat) : backoff k = 12 * 2 ^ Z.of_nat k * usec.
Proof. reflexivity. Qed.

(** X9. While every request ends in a network error, [make_api_request]
    makes all [max_retries] attempts and returns [None]; attempt [k] is
    followed by a sleep of exactly [12 * 2^k] seconds, without jitter, and
    no request is recorded in the limiter. *)
Theorem network_down_backoff_schedule :
  forall endpoint params api_key max_retries base_url (w : World),
    resolved_key api_key w <> "" ->
    0 < requests_per_min (rate_limiter (configured w)) ->
    Forall (fun o => o = RequestError) (responses w) ->
    let r := make_api_request endpoint params api_key max_retries base_url w in
    let n := Z.to_nat max_retries in
    fst r = Ok PyNone
    /\ backoff_sleeps (trace (snd r))
       = (rev (map (fun k => 12 * 2 ^ Z.of_nat k * usec) (seq 0 n))
            ++ backoff_sleeps (trace w))%list
    /\ count is_get (trace (snd r)) = (n + count is_get (trace w))%nat
    /\ count is_record (trace (snd r)) = count is_record (trace w).
Proof.
  intros endpoint params api_key max_retries base_url w Hkey Hpm Hdown r n.
  unfold r. rewrite make_api_request_unfold.
  destruct (String.eqb_spec (resolved_key api_key w) ""); [done|].
  destruct (configured_frame w) as (Hresp & _ & Htr & _).
  match goal with
  | |- context [retry_loop ?u ?p ?l ?w0] =>
      destruct (retry_loop_network_down u p l w0) as (H1 & H2 & H3 & H4);
        [exact Hpm|simpl; by rewrite Hresp|]
  end.
  unfold py_range in *. fold n in H1, H2, H3, H4 |- *.
  rewrite length_seq in H3. simpl in H2, H3, H4. rewrite Htr in H2, H3, H4.
  repeat split; try done.
Qed.

Lemma network_down_backoff_schedule_witness :
  backoff_sleeps
    (trace (snd (make_api_request "profile" [] (Some "k") 3 API_BASE_URL
                   (world0 []))))
  = [48 * usec; 24 * usec; 12 * usec].
Proof.
  exact (proj1 (proj2 (network_down_backoff_schedule "profile" []
                         (Some "k") 3 API_BASE_URL (world0 [])
                         ltac:(by vm_compute) eq_refl
                         ltac:(constructor)))).
Defined.



(** ** The requests of the price fetchers *)

Lemma one_call {A} endpoint params api_key (k : json -> M A) (w : World) :
  (forall d, stateless (k d)) ->
  calls (trace (snd ((let* data := request endpoint params api_key in
                      k data) w)))
  = (calls (trace w) ++ [(endpoint, params)])%list.
Proof.
  intros Hk. unfold bind.
  pose proof (make_api_request_calls endpoint params api_key MAX_RETRIES
                API_BASE_URL w) as Hc.
  fold (request endpoint params api_key) in Hc.
  destruct (request endpoint params api_key w) as [[d|e] w1]; simpl in *;
    [|done].
  by rewrite Hk.
Qed.

Lemma stateless_lacks_historical data : stateless (lacks_historical data).
Proof.
  unfold lacks_historical. apply stateless_if; [apply stateless_ret|].
  apply stateless_bind; [|intros; apply stateless_ret].
  destruct data; simpl; try apply stateless_ret; apply stateless_raise.
Qed.

Lemma stateless_py_getitem key data : stateless (py_getitem key data).
Proof.
  destruct data; simpl; try apply stateless_raise.
  case_match; [apply stateless_ret|apply stateless_raise].
Qed.

(** X11. [fetch_historical_price] calls the executor exactly once.  With
    both dates given the request goes to "historical-price-full" with
    "serietype", "from" and "to", and names the ticker nowhere; otherwise
    it goes to "historical-price-full/<ticker>" with "serietype" alone, a
    single given date being dropped. *)
Theorem price_request_shape :
  forall ticker from_date to_date api_key (w : World),
    calls (trace (snd (fetch_historical_price ticker from_date to_date
                         api_key w)))
    = (calls (trace w) ++ [price_query ticker from_date to_date])%list
    /\ price_query ticker from_date to_date
       = if given from_date && given to_date
         then ("historical-price-full",
               [("serietype", JStr "line"); ("from", str_of from_date);
                ("to", str_of to_date)])
         else (("historical-price-full/" ++ ticker)%string,
               [("serietype", JStr "line")]).
Proof.
  intros ticker from_date to_date api_key w. split; [|reflexivity].
  unfold fetch_historical_price.
  destruct (price_query ticker from_date to_date) as [endpoint params].
  apply one_call. intros d.
  apply stateless_bind; [apply stateless_lacks_historical|intros missing].
  apply stateless_if; [apply stateless_ret|].
  apply stateless_bind; [apply stateless_py_getitem|intros h].
  apply stateless_bind; [apply stateless_price_table|intros df].
  apply stateless_ret.
Qed.

(** X13. [fetch_intraday_prices] returns [None] without a request when a
    date is missing or the interval is none of the valid ones; otherwise it
    calls the executor exactly once, on
    "historical-chart/<interval>/<ticker>" with the two dates as given and
    "extended" as "true" or "false". *)
Theorem intraday_request_shape :
  forall ticker interval from_date to_date extended api_key (w : World),
    (given from_date = false \/ given to_date = false
     \/ mem interval VALID_INTERVALS = false ->
     fetch_intraday_prices ticker interval from_date to_date extended
                           api_key w
     = (Ok None, w))
    /\ (given from_date = true -> given to_date = true ->
        mem interval VALID_INTERVALS = true ->
        calls (trace (snd (fetch_intraday_prices ticker interval from_date
                             to_date extended api_key w)))
        = (calls (trace w)
           ++ [(("historical-chart/" ++ interval ++ "/" ++ ticker)%string,
                [("from", str_of from_date); ("to", str_of to_date);
                 ("extended",
                  JStr (if extended then "true" else "false"))])])%list).
Proof.
  intros ticker interval from_date to_date extended api_key w.
  unfold fetch_intraday_prices. split.
  - intros [ -> | [ -> | -> ] ]; simpl; [done| |].
    + by destruct (given from_date).
    + by destruct (given from_date), (given to_date).
  - intros -> -> ->. simpl.
    apply one_call. intros d.
    apply stateless_if; [apply stateless_ret|].
    apply stateless_bind; [apply stateless_DataFrame_of|intros df].
    apply stateless_if; [apply stateless_ret|].
    apply stateless_bind; [apply stateless_getitem|intros cs].
    apply stateless_bind; [apply stateless_to_datetime|intros st].
    apply stateless_bind; [apply stateless_set_index|intros df1].
    apply stateless_ret.
Qed.

Lemma intraday_request_shape_witness :
  fetch_intraday_prices "AAPL" "2min" (Some "2024-01-02")
                        (Some "2024-01-03") false (Some "k") (world0 [])
  = (Ok None, world0 []).
Proof.
  exact (proj1 (intraday_request_shape "AAPL" "2min" (Some "2024-01-02")
                  (Some "2024-01-03") false (Some "k") (world0 []))
           (or_intror (or_intror eq_refl))).
Defined.

Lemma missing_historical_is_none_witness :
  fst (fetch_historical_price "AAPL" None None (Some "k")
         (world0 [Response 200 (JList [])]))
  = Ok None.
Proof.
  refine (f_equal fst
            (missing_historical_is_none "AAPL" None None (Some "k")
               (JList []) (world0 [Response 200 (JList [])])
               (snd (request "historical-price-full/AAPL"
                       [("serietype", JStr "line")] (Some "k")
                       (world0 [Response 200 (JList [])])))
               _ _));
    [vm_compute; reflexivity|left; reflexivity].
Defined.

(** ** The requests and tables of the statement fetchers *)

Lemma append_empty_r (s : string) : (s ++ "")%string = s.
Proof.
  induction s as [|c s IH]; [done|].
  change (String c s ++ "")%string with (String c (s ++ "")%string).
  by rewrite IH.
Qed.

Lemma format_statement_path name ticker :
  name ∈ STATEMENT_NAMES ->
  str_contains "{ticker}" (name ++ "/{ticker}")%string = true
  /\ format_from 0 (name ++ "/{ticker}")%string ticker
     = (name ++ "/" ++ ticker)%string.
Proof.
  intros Hname.
  repeat (apply elem_of_cons in Hname as [->|Hname]);
    [| | |by apply elem_of_nil in Hname].
  all: split; [reflexivity|].
  all: match goal with
       | |- context [(?a ++ "/{ticker}")%string] =>
           let r := eval vm_compute in (a ++ "/{ticker}")%string in
           change (a ++ "/{ticker}")%string with r
       end.
  all: simpl format_from; rewrite append_empty_r; reflexivity.
Qed.

(** X14. The requests of the three statement fetchers.  For the periods
    "annual" and "quarter", in any case of letters, the first request names
    the ticker in the path and the alternative one sends it as "symbol";
    "quarter" adds the parameter "period", "annual" does not.  For any
    other period the first and the alternative request are the same, to
    the bare endpoint with "symbol" and "limit", and the period is sent
    nowhere. *)
Theorem statement_request_shapes :
  forall name ticker period limit,
    name ∈ STATEMENT_NAMES ->
    let symbol_limit := [("symbol", JStr ticker); ("limit", JNum limit)] in
    (str_lower period = "annual" ->
     statement_primary name ticker period limit
     = ((name ++ "/" ++ ticker)%string, [("limit", JNum limit)])
     /\ statement_secondary name ticker period limit = (name, symbol_limit))
    /\ (str_lower period = "quarter" ->
        statement_primary name ticker period limit
        = ((name ++ "/" ++ ticker)%string,
           [("period", JStr "quarter"); ("limit", JNum limit)])
        /\ statement_secondary name ticker period limit
           = (name, (symbol_limit ++ [("period", JStr "quarter")])%list))
    /\ (str_lower period <> "annual" -> str_lower period <> "quarter" ->
        statement_primary name ticker period limit = (name, symbol_limit)
        /\ statement_secondary name ticker period limit
           = (name, symbol_limit)).
Proof.
  intros name ticker period limit Hname symbol_limit.
  destruct (format_statement_path name ticker Hname) as [Hc Hf].
  unfold statement_primary, statement_secondary, format_ticker.
  split; [|split].
  - intros ->. simpl. by rewrite Hc, Hf.
  - intros ->. simpl. by rewrite Hc, Hf.
  - intros Ha Hq.
    destruct (String.eqb_spec (str_lower period) "annual"); [done|].
    destruct (String.eqb_spec (str_lower period) "quarter"); [done|].
    split; [|done].
    repeat (apply elem_of_cons in Hname as [->|Hname]);
      [| | |by apply elem_of_nil in Hname]; reflexivity.
Qed.

Lemma statement_request_shapes_witness :
  statement_primary "income-statement" "AAPL" "Annual" 5
  = ("income-statement/AAPL", [("limit", JNum 5)]).
Proof.
  exact (proj1 (proj1 (statement_request_shapes "income-statement" "AAPL"
                         "Annual" 5 ltac:(left))
                  eq_refl)).
Defined.

















(** ** Endpoint fallback: what is requested and what is returned *)







(** ** All data of a ticker, and of several tickers *)

Ltac fetch_step H :=
  match type of H with
  | context [fetch_historical_price ?a ?b ?c ?d ?w0] =>
      destruct (fetch_historical_price a b c d w0) as [[[?|]|?] ?]
  | context [fetch_intraday_prices ?a ?b ?c ?d ?e ?f ?w0] =>
      destruct (fetch_intraday_prices a b c d e f w0) as [[[?|]|?] ?]
  | context [fetch_historical_dividends ?a ?b ?w0] =>
      destruct (fetch_historical_dividends a b w0) as [[[?|]|?] ?]
  | context [fetch_company_profile ?a ?b ?w0] =>
      destruct (fetch_company_profile a b w0) as [[[?|]|?] ?]
  | context [fetch_income_statement ?a ?b ?c ?d ?w0] =>
      destruct (fetch_income_statement a b c d w0) as [[[?|]|?] ?]
  | context [fetch_balance_sheet ?a ?b ?c ?d ?w0] =>
      destruct (fetch_balance_sheet a b c d w0) as [[[?|]|?] ?]
  | context [fetch_cash_flow ?a ?b ?c ?d ?w0] =>
      destruct (fetch_cash_flow a b c d w0) as [[[?|]|?] ?]
  end; cbv beta iota zeta in H; try discriminate H.

Ltac key_absent Hin :=
  exfalso;
  repeat (apply elem_of_cons in Hin as [Hin|Hin]; [discriminate Hin|]);
  by apply elem_of_nil in Hin.

(** X16. The result of [fetch_ticker_data] holds only the eight labels, each
    at most once and in the order "ohlcv", "intraday", "dividends",
    "profile", "income_stmt", "balance_sheet", "cash_flow", "earnings".
    "intraday" is there only when it was asked for and both dates were
    given, "dividends" only when asked for, and "earnings" only together
    with "income_stmt". *)
Theorem ticker_data_labels :
  forall ticker api_key period years include_intraday include_dividends
         from_date to_date (w w' : World) result,
    fetch_ticker_data ticker api_key period years include_intraday
                      include_dividends from_date to_date w
    = (Ok result, w') ->
    sublist (map fst result) LABELS
    /\ ("intraday" ∈ map fst result ->
        include_intraday = true /\ given from_date = true
        /\ given to_date = true)
    /\ ("dividends" ∈ map fst result -> include_dividends = true)
    /\ ("earnings" ∈ map fst result -> "income_stmt" ∈ map fst result).
Proof.
  intros ticker api_key period years include_intraday include_dividends
         from_date to_date w w' result H.
  unfold fetch_ticker_data, bind, ret in H.
  repeat first
    [ fetch_step H
    | match type of H with
      | context [if ?b then _ else _] =>
          destruct b eqn:?; cbv beta iota zeta in H
      end ].
  all: injection H as <- _.
  all: unfold store; cbn [assoc_set map fst String.eqb Ascii.eqb Bool.eqb].
  all: repeat match goal with
              | Hc : _ && _ = true |- _ => apply andb_prop in Hc as [? ?]
              end.
  all: split;
    [repeat first [apply sublist_nil | apply sublist_skip | apply sublist_cons]
    |].
  all: split; [intros Hin; first [by repeat split | key_absent Hin]|].
  all: split; [intros Hin; first [done | key_absent Hin]|].
  all: intros Hin; first [key_absent Hin | apply list_elem_of_In; simpl; tauto].
Qed.

Lemma ticker_data_labels_witness :
  exists result,
    fst (fetch_ticker_data "AAPL" (Some "k") "annual" 10 false false
           None None (world0 [Response 200 two_rows_one_date]))
    = Ok result
    /\ sublist (map fst result) LABELS.
Proof.
  eexists. split; [vm_compute; reflexivity|].
  refine (proj1 (ticker_data_labels "AAPL" (Some "k") "annual" 10 false
                   false None None
                   (world0 [Response 200 two_rows_one_date])
                   (snd (fetch_ticker_data "AAPL" (Some "k") "annual" 10
                           false false None None
                           (world0 [Response 200 two_rows_one_date])))
                   _ _)).
  vm_compute. reflexivity.
Defined.

Lemma fetch_each_spec tickers api_key period years include_intraday
    include_dividends from_date to_date acc (w : World) :
  NoDup (map fst acc) ->
  Forall (fun p => snd p <> []) acc ->
  exists result w',
    fetch_each tickers api_key period years include_intraday
               include_dividends from_date to_date acc w
    = (Ok result, w')
    /\ (forall t, t ∈ map fst result -> t ∈ tickers \/ t ∈ map fst acc)
    /\ NoDup (map fst result)
    /\ Forall (fun p => snd p <> []) result.
Proof.
  revert acc w. induction tickers as [|t tickers IH]; intros acc w Hnd Hne.
  - exists acc, w. repeat split; auto.
  - simpl.
    destruct (fetch_ticker_data t api_key period years include_intraday
                include_dividends from_date to_date w) as [r w1].
    set (acc' := match r with
                 | Ok ((_ :: _) as ticker_data) => assoc_set t ticker_data acc
                 | _ => acc
                 end).
    assert (Hacc : NoDup (map fst acc')
                   /\ Forall (fun p => snd p <> []) acc'
                   /\ forall x, x ∈ map fst acc' -> x = t \/ x ∈ map fst acc).
    { unfold acc'. destruct r as [[|p data]|e]; try by auto.
      repeat split.
      - by apply assoc_set_NoDup.
      - by apply assoc_set_Forall.
      - apply assoc_set_keys. }
    destruct Hacc as (Hnd' & Hne' & Hkeys').
    destruct (IH acc' w1 Hnd' Hne') as (result & w' & Hrun & Hk & Hn & Hf).
    exists result, w'. split; [exact Hrun|]. repeat split; [|done|done].
    intros x Hx. destruct (Hk x Hx) as [?|Hin].
    + left. by right.
    + destruct (Hkeys' x Hin) as [->|?]; [left; by left|by right].
Qed.

Lemma fetch_each_app a b api_key period years include_intraday
    include_dividends from_date to_date acc (w : World) :
  fetch_each (a ++ b) api_key period years include_intraday
             include_dividends from_date to_date acc w
  = match fetch_each a api_key period years include_intraday
            include_dividends from_date to_date acc w with
    | (Ok result, w1) =>
        fetch_each b api_key period years include_intraday
                   include_dividends from_date to_date result w1
    | (Raise e, w1) => (Raise e, w1)
    end.
Proof.
  revert acc w. induction a as [|t a IH]; intros acc w; [done|].
  simpl.
  destruct (fetch_ticker_data t api_key period years include_intraday
              include_dividends from_date to_date w) as [r w1].
  apply IH.
Qed.

(** X17. [fetch_data_for_tickers] always returns a dictionary.  Its keys
    are among the tickers asked for, each once, and no ticker is kept with
    empty data; for no tickers the result is empty and nothing is
    requested.  One more ticker at the end of the list is fetched in the
    world that the tickers before it leave behind: its data are stored
    under its name when the fetch returns a dictionary that is not empty;
    when the fetch raises, or returns an empty dictionary, the result of
    the tickers before it is returned as it is, and the loop does not
    raise. *)
Theorem tickers_fetched_in_isolation :
  forall tickers api_key period years include_intraday include_dividends
         from_date to_date (w : World),
    exists result w',
      fetch_data_for_tickers tickers api_key period years include_intraday
                             include_dividends from_date to_date w
      = (Ok result, w')
      /\ (forall t, t ∈ map fst result -> t ∈ tickers)
      /\ NoDup (map fst result)
      /\ Forall (fun p => snd p <> []) result
      /\ (tickers = [] -> result = [] /\ w' = w)
      /\ forall ticker,
          fetch_data_for_tickers (tickers ++ [ticker]) api_key period years
                                 include_intraday include_dividends
                                 from_date to_date w
          = match fetch_ticker_data ticker api_key period years
                    include_intraday include_dividends from_date to_date
                    w' with
            | (Ok ((_ :: _) as ticker_data), w2) =>
                (Ok (assoc_set ticker ticker_data result), w2)
            | (Ok [], w2) => (Ok result, w2)
            | (Raise _, w2) => (Ok result, w2)
            end.
Proof.
  intros tickers api_key period years include_intraday include_dividends
         from_date to_date w.
  destruct (fetch_each_spec tickers api_key period years include_intraday
              include_dividends from_date to_date [] w)
    as (result & w' & Hrun & Hk & Hn & Hf); [constructor|constructor|].
  exists result, w'. unfold fetch_data_for_tickers.
  split; [exact Hrun|]. split; [|split; [done|split; [done|split]]].
  - intros t Ht. destruct (Hk t Ht) as [?|Hin]; [done|].
    by apply elem_of_nil in Hin.
  - intros ->. simpl in Hrun. unfold ret in Hrun. by simplify_eq.
  - intros ticker. rewrite fetch_each_app, Hrun. simpl.
    destruct (fetch_ticker_data ticker api_key period years
                include_intraday include_dividends from_date to_date w')
      as [[[|p data]|e] w2]; reflexivity.
Qed.

(** A ticker whose price payload has no rows: fetching it raises
    [KeyError], and the dictionary returned for it alone is empty. *)
Lemma tickers_fetched_in_isolation_witness :
  fst (fetch_ticker_data "AAPL" (Some "k") "annual" 10 false false
         None None (world0 [Response 200 empty_history]))
  = Raise (KeyError "date")
  /\ fst (fetch_data_for_tickers ["AAPL"] (Some "k") "annual" 10 false
            false None None (world0 [Response 200 empty_history]))
     = Ok [].
Proof.
  split; [vm_compute; reflexivity|].
  destruct (tickers_fetched_in_isolation [] (Some "k") "annual" 10 false
              false None None (world0 [Response 200 empty_history]))
    as (result & w' & _ & _ & _ & _ & Hnil & Hsnoc).
  destruct (Hnil eq_refl) as [-> ->].
  change ["AAPL"] with ([] ++ ["AAPL"])%list.
  rewrite (Hsnoc "AAPL"). vm_compute. reflexivity.
Defined.

(** ** Calls without a key *)

Lemma request_no_key endpoint params api_key (w : World) :
  resolved_key api_key w = "" ->
  exists w',
    request endpoint params api_key w = (Ok PyNone, w')
    /\ resolved_key api_key w' = ""
    /\ count is_get (trace w') = count is_get (trace w)
    /\ responses w' = responses w
    /\ clock w' = clock w.
Proof.
  intros Hkey. unfold request. rewrite make_api_request_unfold, Hkey.
  destruct (configured_frame w) as (Hresp & Hcfg & Htr & Hclock).
  eexists. split; [reflexivity|]. simpl. rewrite Htr.
  repeat split; try done.
  destruct api_key; simpl in *; [done|]. by rewrite Hcfg.
Qed.

Lemma untouched_trans api_key (w1 w2 w3 : World) :
  untouched api_key w1 w2 -> untouched api_key w2 w3 -> untouched api_key w1 w3.
Proof. unfold untouched. intros (? & ? & ? & ?) (? & ? & ? & ?). repeat split; congruence. Qed.

Lemma request_untouched endpoint params api_key (w : World) :
  resolved_key api_key w = "" ->
  exists w', request endpoint params api_key w = (Ok PyNone, w')
             /\ untouched api_key w w'.
Proof.
  intros Hkey.
  destruct (request_no_key endpoint params api_key w Hkey) as (w' & ? & ?).
  by exists w'.
Qed.

Lemma price_no_key ticker from_date to_date api_key (w : World) :
  resolved_key api_key w = "" ->
  exists w', fetch_historical_price ticker from_date to_date api_key w
             = (Ok None, w')
             /\ untouched api_key w w'.
Proof.
  intros Hkey. unfold fetch_historical_price.
  destruct (price_query ticker from_date to_date) as [e p].
  destruct (request_untouched e p api_key w Hkey) as (w' & Hrun & Hu).
  exists w'. unfold bind at 1. by rewrite Hrun.
Qed.

Lemma intraday_no_key ticker interval from_date to_date extended api_key
    (w : World) :
  resolved_key api_key w = "" ->
  exists w', fetch_intraday_prices ticker interval from_date to_date
               extended api_key w
             = (Ok None, w')
             /\ untouched api_key w w'.
Proof.
  intros Hkey. unfold fetch_intraday_prices.
  destruct (negb (given from_date) || negb (given to_date));
    [exists w; by repeat split|].
  destruct (negb (mem interval VALID_INTERVALS));
    [exists w; by repeat split|].
  unfold bind at 1.
  match goal with
  | |- context [request ?e ?p api_key w] =>
      destruct (request_untouched e p api_key w Hkey) as (w' & Hrun & Hu)
  end.
  exists w'. by rewrite Hrun.
Qed.

Lemma dividends_no_key ticker api_key (w : World) :
  resolved_key api_key w = "" ->
  exists w', fetch_historical_dividends ticker api_key w = (Ok None, w')
             /\ untouched api_key w w'.
Proof.
  intros Hkey. unfold fetch_historical_dividends.
  unfold bind at 1.
  match goal with
  | |- context [request ?e ?p api_key w] =>
      destruct (request_untouched e p api_key w Hkey) as (w' & Hrun & Hu)
  end.
  exists w'. by rewrite Hrun.
Qed.

Lemma profile_no_key ticker api_key (w : World) :
  resolved_key api_key w = "" ->
  exists w', fetch_company_profile ticker api_key w = (Ok None, w')
             /\ untouched api_key w w'.
Proof.
  intros Hkey. unfold fetch_company_profile.
  destruct (request_untouched PROFILE_ENDPOINT [] api_key w Hkey)
    as (w1 & Hrun1 & Hu1).
  destruct (request_untouched "profile" [("symbol", JStr ticker)] api_key w1
              (proj1 Hu1)) as (w2 & Hrun2 & Hu2).
  exists w2. split; [|by eapply untouched_trans].
  unfold bind at 1. rewrite Hrun1. simpl.
  unfold bind at 1. by rewrite Hrun2.
Qed.

Lemma statement_no_key name ticker period limit api_key (w : World) :
  resolved_key api_key w = "" ->
  exists w', fetch_statement name ticker period limit api_key w = (Ok None, w')
             /\ untouched api_key w w'.
Proof.
  intros Hkey. unfold fetch_statement.
  destruct (request_untouched (fst (statement_primary name ticker period limit))
              (snd (statement_primary name ticker period limit)) api_key w
              Hkey) as (w1 & Hrun1 & Hu1).
  destruct (request_untouched
              (fst (statement_secondary name ticker period limit))
              (snd (statement_secondary name ticker period limit)) api_key w1
              (proj1 Hu1)) as (w2 & Hrun2 & Hu2).
  exists w2. split; [|by eapply untouched_trans].
  unfold bind at 1. rewrite Hrun1. unfold PyNone at 1. cbn [negb truthy].
  unfold bind at 1. by rewrite Hrun2.
Qed.

Lemma ticker_data_no_key ticker api_key period years include_intraday
    include_dividends from_date to_date (w : World) :
  resolved_key api_key w = "" ->
  exists w',
    fetch_ticker_data ticker api_key period years include_intraday
                      include_dividends from_date to_date w
    = (Ok [], w')
    /\ untouched api_key w w'.
Proof.
  intros Hkey. unfold fetch_ticker_data.
  destruct (price_no_key ticker from_date to_date api_key w Hkey)
    as (w1 & Hrun1 & Hu1).
  unfold bind at 1. rewrite Hrun1. cbn [store].
  assert (H2 : exists w2,
             (if include_intraday && given from_date && given to_date
              then let* intraday_data :=
                     fetch_intraday_prices ticker "1hour" from_date to_date
                                           false api_key in
                   ret (store "intraday" intraday_data [])
              else ret []) w1 = (Ok [], w2)
             /\ untouched api_key w w2).
  { destruct (include_intraday && given from_date && given to_date).
    - destruct (intraday_no_key ticker "1hour" from_date to_date false
                  api_key w1 (proj1 Hu1)) as (w2 & Hrun2 & Hu2).
      exists w2. unfold bind. rewrite Hrun2.
      split; [done|by eapply untouched_trans].
    - by exists w1. }
  destruct H2 as (w2 & Hrun2 & Hu2).
  unfold bind at 1. rewrite Hrun2.
  assert (H3 : exists w3,
             (if include_dividends
              then let* dividend_data :=
                     fetch_historical_dividends ticker api_key in
                   ret (store "dividends" dividend_data [])
              else ret []) w2 = (Ok [], w3)
             /\ untouched api_key w w3).
  { destruct include_dividends.
    - destruct (dividends_no_key ticker api_key w2 (proj1 Hu2))
        as (w3 & Hrun3 & Hu3).
      exists w3. unfold bind. rewrite Hrun3.
      split; [done|by eapply untouched_trans].
    - by exists w2. }
  destruct H3 as (w3 & Hrun3 & Hu3).
  unfold bind at 1. rewrite Hrun3.
  destruct (profile_no_key ticker api_key w3 (proj1 Hu3))
    as (w4 & Hrun4 & Hu4).
  unfold bind at 1. rewrite Hrun4. cbn [store].
  destruct (statement_no_key "income-statement" ticker period years api_key
              w4 (proj1 Hu4)) as (w5 & Hrun5 & Hu5).
  unfold bind at 1. unfold fetch_income_statement. rewrite Hrun5. cbn [store].
  destruct (statement_no_key "balance-sheet-statement" ticker period years
              api_key w5 (proj1 Hu5)) as (w6 & Hrun6 & Hu6).
  unfold bind at 1. unfold fetch_balance_sheet. rewrite Hrun6. cbn [store].
  destruct (statement_no_key "cash-flow-statement" ticker period years
              api_key w6 (proj1 Hu6)) as (w7 & Hrun7 & Hu7).
  unfold bind at 1. unfold fetch_cash_flow. rewrite Hrun7. cbn [store].
  exists w7. split; [done|].
  repeat (eapply untouched_trans; [eassumption|]).
  destruct Hu7 as (? & ? & ? & ?). repeat split; congruence.
Qed.

(** X27. Without an API key, neither passed in nor configured,
    [fetch_data_for_tickers] returns an empty dictionary for any tickers
    and options: every fetcher gives [None], also through its alternative
    request; no request is sent, no scripted response is used and no time
    is spent waiting. *)
Theorem no_key_nothing_fetched :
  forall tickers api_key period years include_intraday include_dividends
         from_date to_date (w : World),
    resolved_key api_key w = "" ->
    let r := fetch_data_for_tickers tickers api_key period years
               include_intraday include_dividends from_date to_date w in
    fst r = Ok []
    /\ count is_get (trace (snd r)) = count is_get (trace w)
    /\ responses (snd r) = responses w
    /\ clock (snd r) = clock w.
Proof.
  intros tickers api_key period years include_intraday include_dividends
         from_date to_date w Hkey r.
  assert (H : exists w', r = (Ok [], w') /\ untouched api_key w w').
  { unfold r, fetch_data_for_tickers. clear r.
    assert (Hw : untouched api_key w w) by (by repeat split).
    revert Hw. generalize w at 2 3 as w0. clear Hkey.
    induction tickers as [|t tickers IH]; intros w0 Hu.
    - by exists w0.
    - simpl.
      destruct (ticker_data_no_key t api_key period years include_intraday
                  include_dividends from_date to_date w0 (proj1 Hu))
        as (w1 & -> & Hu1).
      apply IH. by eapply untouched_trans. }
  destruct H as (w' & -> & _ & ? & ? & ?). done.
Qed.

Lemma no_key_nothing_fetched_witness :
  fst (fetch_data_for_tickers ["AAPL"; "MSFT"] None "annual" 10 true true
         (Some "2024-01-02") (Some "2024-01-03")
         (mkWorld noon0 (mkRateLimiter 5 250 0 [] noon0) (mkConfig "" None)
                  [Response 200 two_rows_one_date] [] []))
  = Ok [].
Proof.
  exact (proj1 (no_key_nothing_fetched ["AAPL"; "MSFT"] None "annual" 10
                  true true (Some "2024-01-02") (Some "2024-01-03")
                  (mkWorld noon0 (mkRateLimiter 5 250 0 [] noon0)
                           (mkConfig "" None)
                           [Response 200 two_rows_one_date] [] [])
                  eq_refl)).
Defined.

(** ** The date range of the command line *)

(** X18. [handle_fetch] with two well-formed dates: the to-date is kept,
    and the from-date is kept unless intraday data are asked for and the
    range is longer than 7 days, in which case it becomes the day 7 days
    before the to-date (taken here in a year from 1000 on, where the year
    is written with four digits on every platform).  A range of exactly 7
    days, and a from-date after the to-date, are passed on as they are. *)
Theorem date_range_with_both_dates :
  forall (from_date to_date : string) (f t : Z) (include_intraday : bool)
         (w : World),
    Date.strptime from_date = Some f ->
    Date.strptime to_date = Some t ->
    (include_intraday = true -> 7 < t - f ->
     Date.ymd2ord 1000 1 1 <= t - 7) ->
    Cli.date_range (Some from_date) (Some to_date) include_intraday w
    = (Ok (Some (Some (if include_intraday && (7 <? t - f)
                       then Date.strftime (t - 7) else from_date),
                 Some to_date)), w).
Proof.
  intros from_date to_date f t include_intraday w Hf Ht Hyear.
  pose proof (strptime_pos _ _ Hf). pose proof (strptime_pos _ _ Ht).
  pose proof (strptime_given _ _ Hf) as Hgf.
  pose proof (strptime_given _ _ Ht) as Hgt.
  simpl in Hgf, Hgt.
  unfold Cli.date_range, Cli.minus_days, Cli.strftime, bind, ret. simpl.
  destruct include_intraday; simpl.
  - destruct (7 <? t - f) eqn:H7.
    + assert (H1 : (t - 7 <? 1) = false) by (apply Z.ltb_ge; bool_to_Z; lia).
      assert (H2 : (t - 7 <? Date.ymd2ord 1000 1 1) = false).
      { apply Z.ltb_ge. apply Hyear; [done|]. bool_to_Z. lia. }
      do 3 (rewrite ?Hgf, ?Hgt, ?Hf, ?Ht, ?H7, ?H1, ?H2; simpl). done.
    + do 3 (rewrite ?Hgf, ?Hgt, ?Hf, ?Ht, ?H7; simpl). done.
  - do 3 (rewrite ?Hgf, ?Hgt, ?Hf, ?Ht; simpl). done.
Qed.

Lemma date_range_with_both_dates_witness :
  Cli.date_range (Some "2024-01-01") (Some "2024-02-01") true (world0 [])
  = (Ok (Some (Some "2024-01-25", Some "2024-02-01")), world0 []).
Proof.
  exact (date_range_with_both_dates "2024-01-01" "2024-02-01" 738886 738917
           true (world0 []) eq_refl eq_refl ltac:(by vm_compute)).
Defined.

Lemma parse_day_digits ds d :
  Date.parse_digits ds = Some d -> Date.parse_day ds = Some d.
Proof.
  destruct ds as [|c ds]; [done|].
  by destruct c as [[] [] [] [] [] [] [] []].
Qed.

Lemma no_such_date_strptime s :
  no_such_date s = true -> Date.strptime s = None.
Proof.
  unfold no_such_date, Date.strptime.
  destruct (Date.split "-"%char s) as [|ys [|ms [|ds [|? ?]]]]; try done.
  destruct (Date.parse_digits ys), (Date.parse_digits ms),
    (Date.parse_digits ds) as [d|] eqn:Hd; try done.
  rewrite (parse_day_digits _ _ Hd).
  by intros ->%negb_true_iff.
Qed.

(** X19. [handle_fetch] gives up, without an exception and without a
    request, when a date that is given is not three parts between dashes,
    or is three runs of digits that name no date (a year that has not four
    digits, a month 13, 2023-02-29), whether it is the from-date or the
    to-date and whatever the other date is. *)
Theorem date_range_rejects_malformed :
  forall (s : string) (other : option string) (include_intraday : bool)
         (w : World),
    s <> "" ->
    no_such_date s = true ->
    Cli.date_range (Some s) other include_intraday w = (Ok None, w)
    /\ Cli.date_range other (Some s) include_intraday w = (Ok None, w).
Proof.
  intros s other include_intraday w Hs Hbad.
  apply no_such_date_strptime in Hbad.
  assert (Hg : given (Some s) = true).
  { simpl. by destruct (String.eqb_spec s ""). }
  unfold Cli.date_range. split.
  - by rewrite Hg; simpl; rewrite Hbad.
  - rewrite Hg. simpl. rewrite Hbad. simpl.
    by destruct (given other && _).
Qed.

Lemma date_range_rejects_malformed_witness :
  Cli.date_range (Some "2023-02-29") (Some "2024-01-01") true (world0 [])
  = (Ok None, world0 []).
Proof.
  exact (proj1 (date_range_rejects_malformed "2023-02-29" (Some "2024-01-01")
                  true (world0 []) ltac:(discriminate) eq_refl)).
Defined.

(** X20. [handle_fetch] with one date: a missing to-date becomes today, a
    missing from-date the day 365 days before the to-date (both taken here
    in a year from 1000 on, where the year is written with four digits on
    every platform); a to-date in the first year of the calendar, from
    which 365 days cannot be taken, ends in an [OverflowError]. *)
Theorem date_range_fills_missing_date :
  forall (d : string) (n : Z) (w : World),
    Date.strptime d = Some n ->
    (Date.ymd2ord 1000 1 1 <= clock w / DAY + 1 ->
     Cli.date_range (Some d) None false w
     = (Ok (Some (Some d, Some (Date.strftime (clock w / DAY + 1)))), w))
    /\ (Date.ymd2ord 1000 1 1 + 365 <= n ->
        Cli.date_range None (Some d) false w
        = (Ok (Some (Some (Date.strftime (n - 365)), Some d)), w))
    /\ (n <= 365 ->
        Cli.date_range None (Some d) false w
        = (Raise (OverflowError "date value out of range"), w)).
Proof.
  intros d n w Hn.
  pose proof (strptime_given _ _ Hn) as Hg. simpl in Hg.
  assert (Hy : 365 < Date.ymd2ord 1000 1 1) by (by vm_compute).
  unfold Cli.date_range, Cli.minus_days, Cli.today, Cli.strftime, bind, ret,
    now, raise.
  simpl. rewrite ?Hg, ?Hn. simpl. rewrite ?Hg, ?Hn. simpl.
  split; [|split]; intros Hlt.
  - destruct (clock w / DAY + 1 <? Date.ymd2ord 1000 1 1) eqn:H1;
      [bool_to_Z; lia|]. done.
  - destruct (n - 365 <? 1) eqn:H1; [bool_to_Z; lia|].
    destruct (n - 365 <? Date.ymd2ord 1000 1 1) eqn:H2; [bool_to_Z; lia|].
    done.
  - destruct (n - 365 <? 1) eqn:H1; [|bool_to_Z; lia]. done.
Qed.

Lemma date_range_fills_missing_date_witness :
  Cli.date_range None (Some "2024-02-01") false (world0 [])
  = (Ok (Some (Some "2023-02-01", Some "2024-02-01")), world0 []).
Proof.
  exact (proj1 (proj2 (date_range_fills_missing_date "2024-02-01" 738917
                         (world0 []) eq_refl))
           ltac:(by vm_compute)).
Defined.

(** ** The masked key *)






Lemma dict_get_set_ne k k' v (d : list (string * json)) :
  String.eqb k k' = false ->
  dict_get k (dict_set k' v d) = dict_get k d.
Proof.
  intros Hne. unfold dict_set. induction d as [|[k0 v0] d IH]; simpl.
  - by rewrite Hne.
  - destruct (String.eqb k' k0) eqn:E; simpl.
    + apply String.eqb_eq in E as <-. by rewrite Hne.
    + destruct (String.eqb k k0); [done|exact IH].
Qed.




(** ** The configuration file *)

Section config_file.
Import ConfigFile.

(** A lookup after [update]: the last entry of [other] for the key, else
    the value [config] had. *)
Lemma py_update_lookup config other k :
  dict_get k (py_update config other)
  = match dict_get k (rev other) with
    | Some v => Some v
    | None => dict_get k config
    end.
Proof.
  unfold py_update. revert config.
  induction other as [|[k' v'] other IH] using rev_ind; intros config.
  - done.
  - rewrite fold_left_app, rev_app_distr. simpl.
    destruct (String.eqb k k') eqn:E.
    + apply String.eqb_eq in E as <-. apply dict_get_set_eq.
    + rewrite dict_get_set_ne by done. apply IH.
Qed.

Lemma dict_get_app k (a b : list (string * json)) :
  dict_get k (a ++ b)%list
  = match dict_get k a with
    | Some v => Some v
    | None => dict_get k b
    end.
Proof.
  induction a as [|[k' v'] a IH]; simpl; [done|].
  destruct (String.eqb k k'); [done|exact IH].
Qed.

Lemma dict_get_None k (d : list (string * json)) :
  dict_get k d = None <-> k ∉ map fst d.
Proof.
  induction d as [|[k' v'] d IH]; simpl.
  - split; [intros _; apply not_elem_of_nil|done].
  - destruct (String.eqb k k') eqn:E.
    + apply String.eqb_eq in E as <-. split; [done|].
      intros H. exfalso. apply H. left.
    + apply String.eqb_neq in E. rewrite IH. rewrite not_elem_of_cons.
      tauto.
Qed.

Lemma dict_get_rev_NoDup k (d : list (string * json)) :
  NoDup (map fst d) -> dict_get k (rev d) = dict_get k d.
Proof.
  induction d as [|[k' v'] d IH]; simpl; [done|].
  intros Hnd. apply NoDup_cons in Hnd as [Hnotin Hnd].
  rewrite dict_get_app, IH by done. simpl.
  destruct (String.eqb k k') eqn:E.
  - apply String.eqb_eq in E as ->.
    apply dict_get_None in Hnotin. by rewrite Hnotin.
  - by destruct (dict_get k d).
Qed.

Lemma py_update_NoDup config other :
  NoDup (map fst config) -> NoDup (map fst (py_update config other)).
Proof.
  unfold py_update. revert config.
  induction other as [|[k v] other IH]; intros config Hnd; simpl; [done|].
  apply IH. by apply assoc_set_NoDup.
Qed.

Lemma DEFAULT_CONFIG_NoDup home : NoDup (map fst (DEFAULT_CONFIG home)).
Proof.
  unfold DEFAULT_CONFIG. cbn [map fst].
  apply (bool_decide_unpack _). vm_compute. reflexivity.
Qed.

Lemma dict_set_extends k v config base :
  extends config base -> extends (dict_set k v config) base.
Proof.
  intros [Hnd Hsub]. split; [by apply assoc_set_NoDup|].
  intros k' Hk'. apply Hsub.
  destruct (String.eqb k' k) eqn:E.
  - apply String.eqb_eq in E as ->. by rewrite dict_get_set_eq in Hk'.
  - by rewrite dict_get_set_ne in Hk'.
Qed.

Lemma py_update_extends other config base :
  extends config base -> extends (py_update config other) base.
Proof.
  unfold py_update. revert config.
  induction other as [|[k v] other IH]; intros config H; simpl; [done|].
  apply IH. by apply dict_set_extends.
Qed.

Lemma update_pairs_extends items config base config' :
  extends config base ->
  update_pairs items config = Returns config' ->
  extends config' base.
Proof.
  revert config. induction items as [|item items IH]; intros config H; simpl.
  - by intros [= <-].
  - destruct (as_pair item) as [k v| |]; [|by intros [= <-]|done].
    apply IH. by apply dict_set_extends.
Qed.

Lemma try_update_extends v config base config' :
  extends config base ->
  try_update v config = Returns config' ->
  extends config' base.
Proof.
  intros H. destruct v; simpl; try by intros [= <-].
  - by apply update_pairs_extends.
  - intros [= <-]. by apply py_update_extends.
Qed.

Lemma has_null_app (a b : string) :
  has_null (a ++ b) = has_null a || has_null b.
Proof.
  induction a as [|c a IH]; [done|].
  change (String c a ++ b)%string with (String c (a ++ b)%string).
  cbn [has_null]. by rewrite IH, orb_assoc.
Qed.

Lemma has_null_default home :
  has_null (home ++ "/data/fmp") = has_null home.
Proof. rewrite has_null_app. by rewrite orb_false_r. Qed.

Lemma default_dir_named home : String.eqb (home ++ "/data/fmp") "" = false.
Proof. by destruct home. Qed.

Lemma ensure_data_dir_default home fs :
  ensure_data_dir (JStr (home ++ "/data/fmp")) fs
  = if has_null home
    then (Raises (ValueError "embedded null byte"), fs)
    else match makedirs_errno fs (home ++ "/data/fmp")%string with
         | Some errno => (Raises (OSError errno (home ++ "/data/fmp")), fs)
         | None =>
             (Returns (home ++ "/data/fmp")%string,
              Build_FS (file fs) (writable fs)
                       ((home ++ "/data/fmp")%string :: made_dirs fs)
                       (makedirs_errno fs))
         end.
Proof.
  unfold ensure_data_dir. by rewrite has_null_default, default_dir_named.
Qed.

Lemma ensure_data_dir_returns dd fs s fs' :
  ensure_data_dir dd fs = (Returns s, fs') ->
  dd = JStr s /\ s <> ""
  /\ fs' = Build_FS (file fs) (writable fs) (s :: made_dirs fs)
                    (makedirs_errno fs).
Proof.
  destruct dd as [| | |s'| |]; try done. unfold ensure_data_dir.
  destruct (has_null s'); [done|].
  destruct (String.eqb_spec s' ""); [done|].
  destruct (makedirs_errno fs s'); [done|]. by intros [= <- <-].
Qed.

Lemma ensure_data_dir_raises dd fs e fs' :
  ensure_data_dir dd fs = (Raises e, fs') ->
  fs' = fs
  /\ match dd with
     | JStr s =>
         if has_null s then e = ValueError "embedded null byte"
         else if String.eqb s "" then e = OSError ENOENT ""
              else exists errno,
                  makedirs_errno fs s = Some errno /\ e = OSError errno s
     | _ => e = TypeError "expected str, bytes or os.PathLike object"
     end.
Proof.
  destruct dd as [| | |s'| |]; try (by intros [= <- <-]).
  unfold ensure_data_dir.
  destruct (has_null s'); [by intros [= <- <-]|].
  destruct (String.eqb_spec s' "") as [->|]; [by intros [= <- <-]|].
  destruct (makedirs_errno fs s') as [errno|]; [|done].
  intros [= <- <-]. split; [done|]. by exists errno.
Qed.

Lemma default_data_dir home :
  dict_get "data_dir" (DEFAULT_CONFIG home)
  = Some (JStr (home ++ "/data/fmp")).
Proof. reflexivity. Qed.

Lemma read_config_result home fs config fs1 :
  read_config home fs = (Returns config, fs1) ->
  fs1 = match file fs with
        | Missing => save_config (DEFAULT_CONFIG home) fs
        | _ => fs
        end
  /\ extends config (DEFAULT_CONFIG home)
  /\ match file fs with
     | Stored u => config = py_update (DEFAULT_CONFIG home) u
     | Other v => try_update v (DEFAULT_CONFIG home) = Returns config
     | _ => config = DEFAULT_CONFIG home
     end.
Proof.
  assert (H0 : extends (DEFAULT_CONFIG home) (DEFAULT_CONFIG home))
    by (split; [apply DEFAULT_CONFIG_NoDup|done]).
  unfold read_config. destruct (file fs) as [| |u|v].
  - by intros [= <- <-].
  - by intros [= <- <-].
  - intros [= <- <-]. split; [done|]. split; [|done].
    by apply py_update_extends.
  - destruct (try_update v (DEFAULT_CONFIG home)) as [c|e] eqn:Ht; [|done].
    intros [= <- <-]. split; [done|]. split; [|done].
    by apply (try_update_extends v (DEFAULT_CONFIG home)).
Qed.

Lemma save_config_frame config fs :
  writable (save_config config fs) = writable fs
  /\ made_dirs (save_config config fs) = made_dirs fs
  /\ makedirs_errno (save_config config fs) = makedirs_errno fs
  /\ file (save_config config fs)
     = if writable fs then Stored config else file fs.
Proof. unfold save_config. by destruct (writable fs) eqn:E. Qed.

Lemma load_config_result home fs config fs' :
  load_config home fs = (Returns config, fs') ->
  writable fs' = writable fs
  /\ makedirs_errno fs' = makedirs_errno fs
  /\ extends config (DEFAULT_CONFIG home)
  /\ match file fs with
     | Stored u => config = py_update (DEFAULT_CONFIG home) u
     | Other v => try_update v (DEFAULT_CONFIG home) = Returns config
     | _ => config = DEFAULT_CONFIG home
     end
  /\ file fs' = match file fs with
                | Missing => if writable fs
                             then Stored (DEFAULT_CONFIG home) else Missing
                | other => other
                end
  /\ exists dir, dict_get "data_dir" config = Some (JStr dir) /\ dir <> ""
                 /\ made_dirs fs' = dir :: made_dirs fs.
Proof.
  unfold load_config.
  destruct (read_config home fs) as [[c|e] fs1] eqn:Hread; [|done].
  destruct (read_config_result _ _ _ _ Hread) as (Hfs1 & Hext & Hc).
  destruct (dict_get "data_dir" c) as [dd|] eqn:Hdd; [|done].
  destruct (ensure_data_dir dd fs1) as [[s|e] fs2] eqn:Hdir; [|done].
  intros [= <- <-].
  apply ensure_data_dir_returns in Hdir as (-> & Hs & ->).
  cbn [file writable made_dirs makedirs_errno].
  assert (Hframe : writable fs1 = writable fs
                   /\ made_dirs fs1 = made_dirs fs
                   /\ makedirs_errno fs1 = makedirs_errno fs
                   /\ file fs1 = match file fs with
                                 | Missing =>
                                     if writable fs
                                     then Stored (DEFAULT_CONFIG home)
                                     else Missing
                                 | other => other
                                 end).
  { rewrite Hfs1. destruct (file fs) eqn:Hfile; try done.
    destruct (save_config_frame (DEFAULT_CONFIG home) fs)
      as (? & ? & ? & Hf).
    rewrite Hfile in Hf. done. }
  destruct Hframe as (Hw & Hm & Ho & Hf).
  split; [done|]. split; [done|]. split; [done|]. split; [done|].
  split; [done|]. exists s. by rewrite Hm.
Qed.

(** X22. [load_config] on a stored JSON object: every key of the file has
    the file's value (the last one, if the key occurs twice), every other
    key its default, so that no default key is ever missing; the file is
    not rewritten. *)
Theorem load_config_overrides_defaults :
  forall home user_config fs config fs',
    file fs = Stored user_config ->
    load_config home fs = (Returns config, fs') ->
    file fs' = Stored user_config
    /\ (forall k,
           dict_get k config
           = match dict_get k (rev user_config) with
             | Some v => Some v
             | None => dict_get k (DEFAULT_CONFIG home)
             end)
    /\ forall k, dict_has k (DEFAULT_CONFIG home) = true ->
                 dict_has k config = true.
Proof.
  intros home user_config fs config fs' Hfile Hload.
  apply load_config_result in Hload as (_ & _ & _ & Hc & -> & _).
  rewrite Hfile in *. subst config. split; [done|]. split.
  - intros k. apply py_update_lookup.
  - intros k. unfold dict_has. rewrite py_update_lookup.
    by destruct (dict_get k (rev user_config)).
Qed.

Lemma load_config_overrides_defaults_witness :
  exists config,
    fst (load_config "/home/u"
           (mkFS (Stored [("api_key", JStr "k")]) true []))
    = Returns config
    /\ dict_get "api_key" config = Some (JStr "k")
    /\ dict_get "years" config = Some (JNum 10).
Proof.
  eexists. split; [vm_compute; reflexivity|].
  pose proof (proj1 (proj2
                (load_config_overrides_defaults "/home/u"
                   [("api_key", JStr "k")]
                   (mkFS (Stored [("api_key", JStr "k")]) true [])
                   _ (snd (load_config "/home/u"
                             (mkFS (Stored [("api_key", JStr "k")]) true [])))
                   eq_refl ltac:(vm_compute; reflexivity))))
    as Hk.
  split; [exact (Hk "api_key")|exact (Hk "years")].
Defined.

(** X23. [load_config] without a configuration file saves the defaults
    before it makes the default data directory: a file that can be written
    holds the defaults afterwards, whatever happens next, and a failure to
    write is swallowed with still no file.  When the directory can be
    made, the defaults are returned, the directory is made and loading
    again returns the defaults again.  When it cannot, [load_config]
    raises the exception of [os.makedirs]: a [ValueError] for a home
    directory with a null character in its name, else the [OSError] of the
    disk. *)
Theorem load_config_first_run :
  forall home fs,
    file fs = Missing ->
    let dir := (home ++ "/data/fmp")%string in
    let (r, fs') := load_config home fs in
    file fs' = (if writable fs then Stored (DEFAULT_CONFIG home)
                else Missing)
    /\ match has_null home, makedirs_errno fs dir with
       | false, None =>
           r = Returns (DEFAULT_CONFIG home)
           /\ made_dirs fs' = dir :: made_dirs fs
           /\ fst (load_config home fs') = Returns (DEFAULT_CONFIG home)
       | false, Some errno =>
           r = Raises (OSError errno dir)
           /\ made_dirs fs' = made_dirs fs
       | true, _ =>
           r = Raises (ValueError "embedded null byte")
           /\ made_dirs fs' = made_dirs fs
       end.
Proof.
  intros home fs Hfile dir. unfold load_config at 1, read_config.
  rewrite Hfile, default_data_dir, ensure_data_dir_default.
  destruct (save_config_frame (DEFAULT_CONFIG home) fs)
    as (Hw & Hm & Ho & Hf).
  rewrite Hfile in Hf. rewrite Ho. fold dir.
  destruct (has_null home) eqn:Hnull.
  { split; [exact Hf|]. by destruct (makedirs_errno fs dir). }
  destruct (makedirs_errno fs dir) as [errno|] eqn:Hdisk.
  { split; [exact Hf|]. done. }
  cbn [file made_dirs]. split; [exact Hf|]. split; [done|].
  split; [by rewrite Hm|].
  unfold load_config, read_config. cbn [file]. rewrite Hf.
  destruct (writable fs) eqn:Hwr.
  - rewrite py_update_lookup.
    change (dict_get "data_dir" (rev (DEFAULT_CONFIG home)))
      with (Some (JStr (home ++ "/data/fmp")%string)).
    cbv beta iota. rewrite ensure_data_dir_default, Hnull.
    cbn [makedirs_errno]. fold dir. by rewrite ?Ho, Hdisk.
  - rewrite default_data_dir, ensure_data_dir_default, Hnull.
    rewrite (proj1 (proj2 (proj2 (save_config_frame _ _)))).
    cbn [makedirs_errno]. fold dir. by rewrite Hdisk.
Qed.

Lemma load_config_first_run_witness :
  fst (load_config "/home/u" (mkFS Missing true []))
  = Returns (DEFAULT_CONFIG "/home/u")
  /\ fst (load_config "/dev/null"
            (Build_FS Missing true [] (fun _ => Some 20)))
     = Raises (OSError 20 "/dev/null/data/fmp")
  /\ file (snd (load_config "/dev/null"
                  (Build_FS Missing true [] (fun _ => Some 20))))
     = Stored (DEFAULT_CONFIG "/dev/null").
Proof.
  split.
  - exact (proj1 (proj2 (load_config_first_run "/home/u"
                           (mkFS Missing true []) eq_refl))).
  - pose proof (load_config_first_run "/dev/null"
                  (Build_FS Missing true [] (fun _ => Some 20)) eq_refl)
      as H.
    split; [exact (proj1 (proj2 H))|exact (proj1 H)].
Defined.



(** X25. [update_config] on a writable file: the file afterwards holds the
    configuration that is returned, in which every updated key has its new
    value, and a later [load_config] reads back that configuration, key by
    key. *)
Theorem update_config_round_trip :
  forall home updates fs config fs',
    writable fs = true ->
    update_config home updates fs = (Returns config, fs') ->
    file fs' = Stored config
    /\ (forall k v, dict_get k (rev updates) = Some v ->
                    dict_get k config = Some v)
    /\ forall config2 fs2,
        load_config home fs' = (Returns config2, fs2) ->
        forall k, dict_get k config2 = dict_get k config.
Proof.
  intros home updates fs config fs' Hw. unfold update_config.
  destruct (load_config home fs) as [[c|e] fs1] eqn:Hload; [|done].
  intros [= <- <-].
  destruct (load_config_result _ _ _ _ Hload) as (Hw1 & _ & Hext & _).
  destruct (save_config_frame (py_update c updates) fs1) as (_ & _ & _ & Hf).
  rewrite Hw1, Hw in Hf.
  split; [done|]. split.
  { intros k v Hk. by rewrite py_update_lookup, Hk. }
  intros config2 fs2 Hload2.
  destruct (load_config_result _ _ _ _ Hload2) as (_ & _ & _ & Hc2 & _).
  rewrite Hf in Hc2. subst config2.
  intros k. rewrite py_update_lookup.
  destruct (py_update_extends updates c (DEFAULT_CONFIG home) Hext)
    as [Hnd Hsub].
  rewrite dict_get_rev_NoDup by done.
  destruct (dict_get k (py_update c updates)) as [v|] eqn:Hk; [done|].
  by apply Hsub.
Qed.

Lemma update_config_round_trip_witness :
  exists config fs',
    update_config "/home/u" [("api_key", JStr "k")] (mkFS Missing true [])
    = (Returns config, fs')
    /\ file fs' = Stored config
    /\ dict_get "api_key" config = Some (JStr "k").
Proof.
  eexists _, _. split; [vm_compute; reflexivity|].
  pose proof (update_config_round_trip "/home/u" [("api_key", JStr "k")]
                (mkFS Missing true []) _ _ eq_refl
                ltac:(vm_compute; reflexivity))
    as (Hfile & Hkey & _).
  split; [exact Hfile|exact (Hkey "api_key" (JStr "k") eq_refl)].
Defined.

(** X26. Once the configuration has been read, with the file saved if
    there was none, [load_config] raises exactly when [os.makedirs] raises
    on the data directory in force, which is the default one unless a
    stored object sets "data_dir", and it raises that exception: a
    [TypeError] for a value that is not a string, a [ValueError] for a
    path with a null character, a [FileNotFoundError] for the empty path,
    and the [OSError] of the disk for a directory that cannot be made.
    There is always a data directory in force, so a [KeyError] is never
    raised; when [load_config] raises, the file system is as reading left
    it. *)
Theorem load_config_raises_on_bad_data_dir :
  forall home fs config fs1,
    read_config home fs = (Returns config, fs1) ->
    fs1 = match file fs with
          | Missing => save_config (DEFAULT_CONFIG home) fs
          | _ => fs
          end
    /\ exists v,
        dict_get "data_dir" config = Some v
        /\ (forall u, file fs = Stored u ->
                      v = default (JStr (home ++ "/data/fmp"))
                                  (dict_get "data_dir" (rev u)))
        /\ (file fs = Missing \/ file fs = Unreadable ->
            v = JStr (home ++ "/data/fmp"))
        /\ forall e fs',
            load_config home fs = (Raises e, fs')
            <-> fs' = fs1
                /\ match v with
                   | JStr s =>
                       if has_null s
                       then e = ValueError "embedded null byte"
                       else if String.eqb s ""
                            then e = OSError ENOENT ""
                            else exists errno,
                                makedirs_errno fs s = Some errno
                                /\ e = OSError errno s
                   | _ => e = TypeError
                                "expected str, bytes or os.PathLike object"
                   end.
Proof.
  intros home fs config fs1 Hread.
  destruct (read_config_result _ _ _ _ Hread) as (Hfs1 & [_ Hsub] & Hc).
  split; [exact Hfs1|].
  destruct (dict_get "data_dir" config) as [v|] eqn:Hv;
    [|by apply Hsub in Hv].
  assert (Ho : makedirs_errno fs1 = makedirs_errno fs).
  { rewrite Hfs1. destruct (file fs); try done.
    apply save_config_frame. }
  exists v. split; [done|]. split; [|split].
  - intros u Hu. rewrite Hu in Hc. subst config.
    rewrite py_update_lookup, default_data_dir in Hv.
    destruct (dict_get "data_dir" (rev u)); simpl; congruence.
  - intros Hfile. assert (config = DEFAULT_CONFIG home) as ->
        by (destruct Hfile as [Hf|Hf]; by rewrite Hf in Hc).
    rewrite default_data_dir in Hv. congruence.
  - intros e fs'. unfold load_config. rewrite Hread, Hv.
    destruct (ensure_data_dir v fs1) as [[s|e1] fs2] eqn:Hdir.
    + split; [done|]. intros [_ He]. exfalso.
      destruct v as [| | |s'| |]; try done.
      unfold ensure_data_dir in Hdir.
      destruct (has_null s'); [done|].
      destruct (String.eqb s' ""); [done|].
      destruct He as (n & Hn & _). by rewrite Ho, Hn in Hdir.
    + destruct (ensure_data_dir_raises _ _ _ _ Hdir) as [-> He1].
      rewrite Ho in He1. split.
      * by intros [= <- <-].
      * intros [-> He]. f_equal. f_equal.
        destruct v as [| | |s| |]; try congruence.
        destruct (has_null s); [congruence|].
        destruct (String.eqb s ""); [congruence|].
        destruct He1 as (n1 & Hn1 & ->), He as (n2 & Hn2 & ->). congruence.
Qed.

Lemma load_config_raises_on_bad_data_dir_witness :
  fst (load_config "/home/u"
         (mkFS (Stored [("data_dir", JNull)]) true []))
  = Raises (TypeError "expected str, bytes or os.PathLike object").
Proof.
  destruct (load_config_raises_on_bad_data_dir "/home/u"
              (mkFS (Stored [("data_dir", JNull)]) true [])
              _ _ eq_refl)
    as (_ & v & Hv & _ & _ & Hiff).
  vm_compute in Hv. injection Hv as <-.
  exact (f_equal fst (proj2 (Hiff _ _) (conj eq_refl eq_refl))).
Defined.

End config_file.
